(** * GfxInfoBase: graphics feature blocklist evaluation

    A shallow embedding of [widget/GfxInfoBase.cpp]: the parser of
    downloaded blocklist records, the rule scan
    [FindBlocklistedDeviceInList], feature resolution
    ([GetFeatureStatus], [GetFeatureStatusImpl]), the per-feature
    preference store and [EvaluateDownloadedBlocklist]; then the
    snapshot of all features ([GetAllFeatures]), the observers, the
    collector registry and the font-visibility determination.

    Conventions of the embedding.
    - [int32_t], [uint32_t], [int64_t] and [uint64_t] values are [Z];
      the code only compares and masks them, the bit operations are
      [Z.land] and [Z.shiftr]. Where the code converts a wider value to
      a 32-bit type (the result of [strtoul] stored in a member of a
      rule, a member passed as an [int32_t] parameter) the conversion is
      written out with [to_uint32] and [to_int32].
    - Strings ([nsString], [nsCString], [const char*]) are [string];
      a nullable [const char*] is an [option string].
    - Out-parameters and in-out references are returned next to the
      result, in the order (result, outputs).
    - Declarations that live in headers outside this file (the constants
      of [nsIGfxInfo], the X-macro tables, the statics of
      [GfxDriverInfo], the preprocessor configuration) are fields of the
      classes [nsIGfxInfo], [GfxDriverInfoDecls] and [BuildConfig]; every
      definition is parametric in them.
    - Diagnostics ([gfxCriticalError], [NS_WARNING], [gfxWarning]) have no
      effect on results and are not modelled. *)

From Stdlib Require Import ZArith Lia Bool Ascii String.
From stdpp Require Import base gmap strings list pretty.

Local Open Scope string_scope.
Local Open Scope Z_scope.

(** ** Result codes *)

(** [nsresult]: the codes this file names. *)
Inductive nsresult :=
  | NS_OK
  | NS_ERROR_NOT_IMPLEMENTED
  | NS_ERROR_NOT_AVAILABLE
  | NS_ERROR_FAILURE
  | NS_ERROR_INVALID_ARG
  | NS_ERROR_UNEXPECTED.

#[global] Instance nsresult_eq_dec : EqDecision nsresult.
Proof. solve_decision. Defined.

Definition NS_FAILED (rv : nsresult) : bool :=
  match rv with NS_OK => false | _ => true end.

Definition NS_SUCCEEDED (rv : nsresult) : bool := negb (NS_FAILED rv).

(** ** Enumerations of GfxDriverInfo.h, as far as this file names them *)

(** [OperatingSystem]: the enumerators the file names; [OtherOS n] stands
    for the remaining enumerators of the header. *)
Inductive OperatingSystem :=
  | OS_Unknown
  | OS_Windows
  | OS_Windows10
  | OS_Windows11
  | OS_Windows10or11
  | OS_OSX
  | OtherOS (n : nat).

#[global] Instance OperatingSystem_eq_dec : EqDecision OperatingSystem.
Proof. solve_decision. Defined.

Inductive RefreshRateStatus :=
  | RR_Any
  | RR_AnySame
  | RR_Single
  | RR_MultipleSame
  | RR_Mixed
  | RR_Unknown
  | OtherRefreshRateStatus (n : nat).

#[global] Instance RefreshRateStatus_eq_dec : EqDecision RefreshRateStatus.
Proof. solve_decision. Defined.

Inductive BatteryStatus := Battery_All | Battery_None | Battery_Present.

Inductive ScreenSizeStatus :=
  | Screen_All
  | Screen_Small
  | Screen_SmallAndMedium
  | Screen_Medium
  | Screen_MediumAndLarge
  | Screen_Large.

(** [VersionComparisonOp]: the enumerators used by the switches of this
    file; [DRIVER_BOGUS] stands for any other value of the C++ enum (the
    [default:] branches). *)
Inductive VersionComparisonOp :=
  | DRIVER_LESS_THAN
  | DRIVER_BUILD_ID_LESS_THAN
  | DRIVER_LESS_THAN_OR_EQUAL
  | DRIVER_BUILD_ID_LESS_THAN_OR_EQUAL
  | DRIVER_GREATER_THAN
  | DRIVER_GREATER_THAN_OR_EQUAL
  | DRIVER_EQUAL
  | DRIVER_NOT_EQUAL
  | DRIVER_BETWEEN_EXCLUSIVE
  | DRIVER_BETWEEN_INCLUSIVE
  | DRIVER_BETWEEN_INCLUSIVE_START
  | DRIVER_COMPARISON_IGNORED
  | DRIVER_BOGUS (raw : Z).

#[global] Instance VersionComparisonOp_eq_dec : EqDecision VersionComparisonOp.
Proof. solve_decision. Defined.

(** ** Strings *)

Definition ascii_to_lower (c : ascii) : ascii :=
  let n := N_of_ascii c in
  if ((65 <=? n) && (n <=? 90))%N then ascii_of_N (n + 32) else c.

Fixpoint string_to_lower (s : string) : string :=
  match s with
  | EmptyString => EmptyString
  | String c r => String (ascii_to_lower c) (string_to_lower r)
  end.

(** [a.Equals(b)]. *)
Definition Equals (a b : string) : bool := String.eqb a b.

(** [a.Equals(b, nsCaseInsensitiveStringComparator)]; the comparator is
    the string library's, the embedding folds the ASCII letters. *)
Definition EqualsIgnoreCase (a b : string) : bool :=
  String.eqb (string_to_lower a) (string_to_lower b).

Definition IsEmpty (s : string) : bool := Equals s "".

(** [AppendPrintf("%lld", v)] for one integer. *)
Definition fmt_lld (v : Z) : string := pretty v.

(** First entry of an X-macro table whose name equals [name]: the chain
    of [if (x.Equals(name)) return id;] an X-macro expands to. *)
Fixpoint table_find {A : Type} (defs : list (string * A)) (name : string)
  : option A :=
  match defs with
  | [] => None
  | (n, v) :: rest => if Equals name n then Some v else table_find rest name
  end.

(** ** Declarations outside the file *)

(** The constants of the interface [nsIGfxInfo] this file names, and the
    two X-macro tables that generate them.
    - [GFXINFO_FEATURE] is GfxInfoFeatureDefs.h: one entry
      ([FEATURE_id], [name], [pref]) per [GFXINFO_FEATURE(id, name, pref)].
    - [GFXINFO_FEATURE_STATUS] is GfxInfoFeatureStatusDefs.h: one entry
      (the text of [id], [FEATURE_id]) per [GFXINFO_FEATURE_STATUS(id)]. *)
Class nsIGfxInfo := {
  FEATURE_STATUS_OK : Z;
  FEATURE_STATUS_UNKNOWN : Z;
  FEATURE_BLOCKED_DRIVER_VERSION : Z;
  FEATURE_BLOCKED_DEVICE : Z;
  FEATURE_DISCOURAGED : Z;
  FEATURE_BLOCKED_OS_VERSION : Z;
  FEATURE_BLOCKED_MISMATCHED_VERSION : Z;
  FEATURE_DENIED : Z;
  FEATURE_ALLOW_ALWAYS : Z;
  FEATURE_ALLOW_QUALIFIED : Z;
  FEATURE_BLOCKED_PLATFORM_TEST : Z;
  FEATURE_INVALID : Z;
  FEATURE_START : Z;
  FEATURE_COUNT : Z;
  FEATURE_DIRECT2D : Z;
  FEATURE_HW_DECODED_VIDEO_ZERO_COPY : Z;
  FEATURE_GPU_PROCESS : Z;
  FEATURE_DIRECT3D_11_ANGLE : Z;
  FEATURE_ALLOW_WEBGL_OUT_OF_PROCESS : Z;
  FEATURE_BACKDROP_FILTER : Z;
  GFXINFO_FEATURE : list (Z * string * string);
  GFXINFO_FEATURE_STATUS : list (string * Z)
}.

(** What GfxDriverInfo.h and the libraries declare and this file uses:
    the types [GfxVersionEx] and [GfxDeviceFamily] with their methods,
    the statics of [GfxDriverInfo], [ParseDriverVersion], the remaining
    X-macro tables (name, enumerator), [strtoul] in base 10, the
    ordering of [mozilla::Version] and the two tokenizers
    ([aString.Split(c)] and [ParseString(aString, c, aArray)], the
    latter returning the array it fills). *)
Class GfxDriverInfoDecls := {
  GfxVersionEx : Type;
  GfxVersionEx_Parse : GfxVersionEx -> string -> GfxVersionEx;
  GfxVersionEx_Compare :
    GfxVersionEx -> GfxVersionEx -> GfxVersionEx -> VersionComparisonOp -> bool;
  GfxDeviceFamily : Type;
  GfxDeviceFamily_new : GfxDeviceFamily;
  GfxDeviceFamily_Append : GfxDeviceFamily -> string -> GfxDeviceFamily;
  GfxDeviceFamily_IsEmpty : GfxDeviceFamily -> bool;
  GfxDeviceFamily_Contains : GfxDeviceFamily -> string -> nsresult;
  allFeatures : Z;
  optionalFeatures : Z;
  allDriverVersions : Z;
  WindowProtocol_All : string;
  DeviceVendor_All : string;
  DriverVendor_All : string;
  DeviceVendor_NVIDIA : string;
  ParseDriverVersion : string -> bool * Z;
  GFXINFO_DRIVER_VERSION_CMP : list (string * VersionComparisonOp);
  GFXINFO_OS : list (string * OperatingSystem);
  GFXINFO_REFRESH_RATE_STATUS : list (string * RefreshRateStatus);
  strtoul : string -> Z;
  Version_compare : string -> string -> comparison;
  Split : string -> ascii -> list string;
  ParseString : string -> ascii -> list string
}.

(** The preprocessor configuration and build constants. *)
Class BuildConfig := {
  XP_WIN : bool;
  XP_MACOSX : bool;
  ANDROID : bool;
  MOZ_WIDGET_GTK : bool;
  RELEASE_OR_BETA : bool;
  kIsAndroid : bool
}.

Inductive ProcessType := ParentProcess | ContentProcess | GPUProcess | OtherProcess.

Definition INT64_MAX : Z := 9223372036854775807.
Definition INT32_MAX : Z := 2147483647.
Definition INT32_MIN : Z := -2147483648.

(** Conversion to [uint32_t]: the value modulo 2^32. *)
Definition to_uint32 (v : Z) : Z := v mod 4294967296.

(** Conversion to [int32_t]: the value modulo 2^32, read in two's
    complement. *)
Definition to_int32 (v : Z) : Z :=
  (v + 2147483648) mod 4294967296 - 2147483648.

(** A preference value of the preference service. *)
Inductive PrefValue :=
  | PrefInt (v : Z)
  | PrefString (v : string).

(** One element of [sFeatureStatus]. *)
Record GfxInfoFeatureStatus := {
  fs_feature : Z;
  fs_status : Z;
  fs_failureId : string
}.

Section Model.
Context {I : nsIGfxInfo} {D : GfxDriverInfoDecls} {B : BuildConfig}.

(** ** One rule: the members of [GfxDriverInfo] this file reads or writes *)
Record GfxDriverInfo := {
  mOperatingSystem : OperatingSystem;
  mOperatingSystemVersion : Z;
  mOperatingSystemVersionEx : GfxVersionEx;
  mOperatingSystemVersionExMax : GfxVersionEx;
  mOperatingSystemVersionExComparisonOp : VersionComparisonOp;
  mRefreshRateStatus : RefreshRateStatus;
  mMinRefreshRate : Z;
  mMinRefreshRateMax : Z;
  mMinRefreshRateComparisonOp : VersionComparisonOp;
  mMaxRefreshRate : Z;
  mMaxRefreshRateMax : Z;
  mMaxRefreshRateComparisonOp : VersionComparisonOp;
  mBattery : BatteryStatus;
  mScreen : ScreenSizeStatus;
  mWindowProtocol : string;
  mAdapterVendor : string;
  mDriverVendor : string;
  mDevices : option GfxDeviceFamily;
  mFeature : Z;
  mFeatureStatus : Z;
  mComparisonOp : VersionComparisonOp;
  mDriverVersion : Z;
  mDriverVersionMax : Z;
  mSuggestedVersion : option string;
  mModel : string;
  mHardware : string;
  mProduct : string;
  mManufacturer : string;
  mGpu2 : bool;
  mRuleId : string
}.

(** ** The object: what the platform subclass and the screen manager
    answer (read-only during a call) *)
Record GfxInfo := {
  XRE_ProcessType : ProcessType;
  gfx_blocklist_all_AtStartup : Z;
  GetApplicationVersion : string;
  GetWindowProtocol : nsresult * string;
  GetHasBattery : nsresult * bool;
  OperatingSystemVersion : Z;
  OperatingSystemVersionEx : GfxVersionEx;
  GetOperatingSystem : OperatingSystem;
  GetAdapterVendorID : nsresult * string;
  GetAdapterDeviceID : nsresult * string;
  GetAdapterDriverVendor : nsresult * string;
  GetAdapterDriverVersion : nsresult * string;
  GetAdapterVendorID2 : nsresult * string;
  GetAdapterDeviceID2 : nsresult * string;
  GetAdapterDriverVendor2 : nsresult * string;
  GetAdapterDriverVersion2 : nsresult * string;
  Hardware : string;
  Model : string;
  Product : string;
  Manufacturer : string;
  GetGfxDriverInfo : list GfxDriverInfo;
  GetTotalScreenPixels : Z;
  CurrentScreenList : list Z
}.

(** ** Mutable state: the preference service, the statics of
    [GfxInfoBase] and the display members of the object *)
Record State := {
  prefs : gmap string PrefValue;
  sFeatureStatus : option (list GfxInfoFeatureStatus);
  sShutdownOccurred : bool;
  mScreenPixels : Z;
  mScreenCount : Z;
  mMinRefreshRate_sys : Z;
  mMaxRefreshRate_sys : Z
}.

(** The display members of the object. *)
Definition display (st : State) : Z * Z * Z * Z :=
  (mScreenPixels st, mScreenCount st, mMinRefreshRate_sys st,
   mMaxRefreshRate_sys st).

Definition XRE_IsParentProcess (g : GfxInfo) : bool :=
  match XRE_ProcessType g with ParentProcess => true | _ => false end.
Definition XRE_IsContentProcess (g : GfxInfo) : bool :=
  match XRE_ProcessType g with ContentProcess => true | _ => false end.
Definition XRE_IsGPUProcess (g : GfxInfo) : bool :=
  match XRE_ProcessType g with GPUProcess => true | _ => false end.


(** ** The preference service *)

(** Modelled from the spec: [Preferences] (outside this file) is the
    persistent store behind the per-feature overrides and the
    suggested-version slot; it is modelled as a finite map from
    preference names to typed values, a getter failing when the name is
    absent or holds a value of the other type. *)
Definition Preferences_GetInt (p : gmap string PrefValue) (name : string)
  : option Z :=
  match p !! name with Some (PrefInt v) => Some v | _ => None end.

(** Modelled from the spec: [Preferences::GetCString], as [GetInt] for
    the string values. *)
Definition Preferences_GetCString (p : gmap string PrefValue) (name : string)
  : option string :=
  match p !! name with Some (PrefString v) => Some v | _ => None end.

(** Modelled from the spec: [Preferences::SetInt] stores the value under
    the name, replacing what the name held. *)
Definition Preferences_SetInt (p : gmap string PrefValue) (name : string)
  (v : Z) : gmap string PrefValue := <[name := PrefInt v]> p.

(** Modelled from the spec: [Preferences::SetCString] and
    [Preferences::SetString], as [SetInt] for a string value. *)
Definition Preferences_SetCString (p : gmap string PrefValue) (name : string)
  (v : string) : gmap string PrefValue := <[name := PrefString v]> p.

(** Modelled from the spec: [Preferences::ClearUser] removes the value of
    the name; the overrides have no default value behind them. *)
Definition Preferences_ClearUser (p : gmap string PrefValue) (name : string)
  : gmap string PrefValue := delete name p.

Definition set_prefs (st : State) (p : gmap string PrefValue) : State :=
  {| prefs := p;
     sFeatureStatus := sFeatureStatus st;
     sShutdownOccurred := sShutdownOccurred st;
     mScreenPixels := mScreenPixels st;
     mScreenCount := mScreenCount st;
     mMinRefreshRate_sys := mMinRefreshRate_sys st;
     mMaxRefreshRate_sys := mMaxRefreshRate_sys st |}.

Definition set_sFeatureStatus (st : State)
  (v : option (list GfxInfoFeatureStatus)) : State :=
  {| prefs := prefs st;
     sFeatureStatus := v;
     sShutdownOccurred := sShutdownOccurred st;
     mScreenPixels := mScreenPixels st;
     mScreenCount := mScreenCount st;
     mMinRefreshRate_sys := mMinRefreshRate_sys st;
     mMaxRefreshRate_sys := mMaxRefreshRate_sys st |}.

Definition BLOCKLIST_PREF_BRANCH : string := "gfx.blacklist.".
Definition SUGGESTED_VERSION_PREF : string :=
  BLOCKLIST_PREF_BRANCH ++ "suggested-driver-version".

(** The [switch] over the [GFXINFO_FEATURE] cases. *)
Fixpoint feature_pref (defs : list (Z * string * string)) (aFeature : Z)
  : option string :=
  match defs with
  | [] => None
  | (id, _, pref) :: rest =>
      if aFeature =? id then Some (BLOCKLIST_PREF_BRANCH ++ pref)
      else feature_pref rest aFeature
  end.

(** [nullptr] is [None]. *)
Definition GetPrefNameForFeature (aFeature : Z) : option string :=
  feature_pref GFXINFO_FEATURE aFeature.

(** Returns (found, [aValue], [aFailureId]). *)
Definition GetPrefValueForFeature (p : gmap string PrefValue)
  (aFeature aValue : Z) (aFailureId : string) : bool * Z * string :=
  match GetPrefNameForFeature aFeature with
  | None => (false, aValue, aFailureId)
  | Some prefname =>
      match Preferences_GetInt p prefname with
      | None => (false, FEATURE_STATUS_UNKNOWN, aFailureId)
      | Some v =>
          if v =? FEATURE_DENIED then (false, v, aFailureId)
          else
            match Preferences_GetCString p (prefname ++ ".failureid") with
            | Some failureValue => (true, v, failureValue)
            | None => (true, v, "FEATURE_FAILURE_BLOCKLIST_PREF")
            end
      end
  end.

Definition SetPrefValueForFeature (g : GfxInfo) (st : State)
  (aFeature aValue : Z) (aFailureId : string) : State :=
  match GetPrefNameForFeature aFeature with
  | None => st
  | Some prefname =>
      let st1 :=
        if XRE_IsParentProcess g then set_sFeatureStatus st None else st in
      let p1 := Preferences_SetInt (prefs st1) prefname aValue in
      let p2 :=
        if negb (IsEmpty aFailureId)
        then Preferences_SetCString p1 (prefname ++ ".failureid") aFailureId
        else p1 in
      set_prefs st1 p2
  end.

Definition RemovePrefForFeature (g : GfxInfo) (st : State) (aFeature : Z)
  : State :=
  match GetPrefNameForFeature aFeature with
  | None => st
  | Some prefname =>
      let st1 :=
        if XRE_IsParentProcess g then set_sFeatureStatus st None else st in
      set_prefs st1 (Preferences_ClearUser (prefs st1) prefname)
  end.

Definition GetPrefValueForDriverVersion (p : gmap string PrefValue)
  : option string := Preferences_GetCString p SUGGESTED_VERSION_PREF.

Definition SetPrefValueForDriverVersion (st : State) (aVersion : string)
  : State :=
  set_prefs st (Preferences_SetCString (prefs st) SUGGESTED_VERSION_PREF aVersion).

Definition RemovePrefForDriverVersion (st : State) : State :=
  set_prefs st (Preferences_ClearUser (prefs st) SUGGESTED_VERSION_PREF).

(** ** Text to enumerator *)

Definition BlocklistOSToOperatingSystem (os : string) : OperatingSystem :=
  match table_find GFXINFO_OS os with
  | Some id => id
  | None => OS_Unknown
  end.

Definition BlocklistToRefreshRateStatus (refreshRateStatus : string)
  : RefreshRateStatus :=
  match table_find GFXINFO_REFRESH_RATE_STATUS refreshRateStatus with
  | Some id => id
  | None => RR_Unknown
  end.

(** [nullptr] is [None]. *)
Definition BlocklistDevicesToDeviceFamily (devices : list string)
  : option GfxDeviceFamily :=
  if (length devices =? 0)%nat then None
  else Some (fold_left GfxDeviceFamily_Append devices GfxDeviceFamily_new).

Fixpoint feature_by_name (defs : list (Z * string * string)) (aFeature : string)
  : option Z :=
  match defs with
  | [] => None
  | (id, name, _) :: rest =>
      if Equals aFeature name then Some id else feature_by_name rest aFeature
  end.

Definition BlocklistFeatureToGfxFeature (aFeature : string) : Z :=
  match feature_by_name GFXINFO_FEATURE aFeature with
  | Some id => id
  | None => FEATURE_INVALID
  end.

Definition BlocklistFeatureStatusToGfxFeatureStatus (aStatus : string) : Z :=
  match table_find GFXINFO_FEATURE_STATUS aStatus with
  | Some id => id
  | None => FEATURE_STATUS_OK
  end.

Definition BlocklistComparatorToComparisonOp (op : string)
  : VersionComparisonOp :=
  match table_find GFXINFO_DRIVER_VERSION_CMP op with
  | Some id => id
  | None => DRIVER_COMPARISON_IGNORED
  end.


(** ** Predicates of the rule scan *)

Definition MatchingAllowStatus (aStatus : Z) : bool :=
  (aStatus =? FEATURE_ALLOW_ALWAYS) || (aStatus =? FEATURE_ALLOW_QUALIFIED).

(** The [MOZ_ASSERT] on [aSystemOS] is a debug check and is left out. *)
Definition MatchingOperatingSystems (aBlockedOS aSystemOS : OperatingSystem)
  : bool :=
  if bool_decide (aBlockedOS = OS_Unknown) then false
  else if XP_WIN && bool_decide (aBlockedOS = OS_Windows) then true
  else if XP_WIN && bool_decide (aBlockedOS = OS_Windows10or11) &&
          (bool_decide (aSystemOS = OS_Windows10) ||
           bool_decide (aSystemOS = OS_Windows11)) then true
  else if XP_MACOSX && bool_decide (aBlockedOS = OS_OSX) then true
  else bool_decide (aSystemOS = aBlockedOS).

Definition MatchingRefreshRateStatus (aSystemStatus aBlockedStatus : RefreshRateStatus)
  : bool :=
  match aBlockedStatus with
  | RR_Any => true
  | RR_AnySame =>
      bool_decide (aSystemStatus = RR_Single) ||
      bool_decide (aSystemStatus = RR_MultipleSame)
  | _ => bool_decide (aSystemStatus = aBlockedStatus)
  end.

(** The three rates are [int32_t] parameters: an argument (the
    [int32_t] member of the object, the 32-bit members of the rule) is
    converted on the call. *)
Definition MatchingRefreshRates (aSystem aBlocked aBlockedMax : Z)
  (aCmp : VersionComparisonOp) : bool :=
  let aSystem := to_int32 aSystem in
  let aBlocked := to_int32 aBlocked in
  let aBlockedMax := to_int32 aBlockedMax in
  match aCmp with
  | DRIVER_COMPARISON_IGNORED => true
  | DRIVER_LESS_THAN => aSystem <? aBlocked
  | DRIVER_LESS_THAN_OR_EQUAL => aSystem <=? aBlocked
  | DRIVER_GREATER_THAN => aSystem >? aBlocked
  | DRIVER_GREATER_THAN_OR_EQUAL => aSystem >=? aBlocked
  | DRIVER_EQUAL => aSystem =? aBlocked
  | DRIVER_NOT_EQUAL => negb (aSystem =? aBlocked)
  | DRIVER_BETWEEN_EXCLUSIVE => (aSystem >? aBlocked) && (aSystem <? aBlockedMax)
  | DRIVER_BETWEEN_INCLUSIVE => (aSystem >=? aBlocked) && (aSystem <=? aBlockedMax)
  | DRIVER_BETWEEN_INCLUSIVE_START =>
      (aSystem >=? aBlocked) && (aSystem <? aBlockedMax)
  | _ => false
  end.

Definition MatchingBattery (aBatteryStatus : BatteryStatus) (aHasBattery : bool)
  : bool :=
  match aBatteryStatus with
  | Battery_All => true
  | Battery_None => negb aHasBattery
  | Battery_Present => aHasBattery
  end.

Definition kMaxSmallPixels : Z := 2304000.
Definition kMaxMediumPixels : Z := 4953600.

Definition MatchingScreenSize (aScreenStatus : ScreenSizeStatus)
  (aScreenPixels : Z) : bool :=
  match aScreenStatus with
  | Screen_All => true
  | Screen_Small => aScreenPixels <=? kMaxSmallPixels
  | Screen_SmallAndMedium => aScreenPixels <=? kMaxMediumPixels
  | Screen_Medium =>
      (aScreenPixels >? kMaxSmallPixels) && (aScreenPixels <=? kMaxMediumPixels)
  | Screen_MediumAndLarge => aScreenPixels >? kMaxSmallPixels
  | Screen_Large => aScreenPixels >? kMaxMediumPixels
  end.

Definition DoesWindowProtocolMatch (aBlocklistWindowProtocol aWindowProtocol : string)
  : bool :=
  EqualsIgnoreCase aBlocklistWindowProtocol aWindowProtocol ||
  EqualsIgnoreCase aBlocklistWindowProtocol WindowProtocol_All.

Definition DoesVendorMatch (aBlocklistVendor aAdapterVendor : string) : bool :=
  EqualsIgnoreCase aBlocklistVendor aAdapterVendor ||
  EqualsIgnoreCase aBlocklistVendor DeviceVendor_All.

Definition DoesDriverVendorMatch (aBlocklistVendor aDriverVendor : string)
  : bool :=
  EqualsIgnoreCase aBlocklistVendor aDriverVendor ||
  EqualsIgnoreCase aBlocklistVendor DriverVendor_All.

Definition IsFeatureAllowlisted (aFeature : Z) : bool :=
  aFeature =? FEATURE_HW_DECODED_VIDEO_ZERO_COPY.

Definition OnlyAllowFeatureOnKnownConfig (aFeature : Z) : bool :=
  if aFeature =? FEATURE_GPU_PROCESS then kIsAndroid
  else if (aFeature =? FEATURE_DIRECT3D_11_ANGLE) ||
          (aFeature =? FEATURE_ALLOW_WEBGL_OUT_OF_PROCESS) ||
          (aFeature =? FEATURE_BACKDROP_FILTER) then false
  else true.

(** The [switch (info[i]->mComparisonOp)] of the scan: the value of
    [match] it leaves, for the system version [driverVersion] and the
    bounds [aDriverVersion], [aDriverVersionMax] of the rule. *)
Definition DriverVersionSwitch (op : VersionComparisonOp)
  (driverVersion aDriverVersion aDriverVersionMax : Z) : bool :=
  match op with
  | DRIVER_LESS_THAN => driverVersion <? aDriverVersion
  | DRIVER_BUILD_ID_LESS_THAN => Z.land driverVersion 0xFFFF <? aDriverVersion
  | DRIVER_LESS_THAN_OR_EQUAL => driverVersion <=? aDriverVersion
  | DRIVER_BUILD_ID_LESS_THAN_OR_EQUAL =>
      Z.land driverVersion 0xFFFF <=? aDriverVersion
  | DRIVER_GREATER_THAN => driverVersion >? aDriverVersion
  | DRIVER_GREATER_THAN_OR_EQUAL => driverVersion >=? aDriverVersion
  | DRIVER_EQUAL => driverVersion =? aDriverVersion
  | DRIVER_NOT_EQUAL => negb (driverVersion =? aDriverVersion)
  | DRIVER_BETWEEN_EXCLUSIVE =>
      (driverVersion >? aDriverVersion) && (driverVersion <? aDriverVersionMax)
  | DRIVER_BETWEEN_INCLUSIVE =>
      (driverVersion >=? aDriverVersion) && (driverVersion <=? aDriverVersionMax)
  | DRIVER_BETWEEN_INCLUSIVE_START =>
      (driverVersion >=? aDriverVersion) && (driverVersion <? aDriverVersionMax)
  | DRIVER_COMPARISON_IGNORED => true
  | DRIVER_BOGUS _ => false
  end.

(** The driver-version predicate of one rule: the switch where the
    platform has driver versions, [match = true] elsewhere. *)
Definition DriverVersionMatch (r : GfxDriverInfo) (driverVersion : Z) : bool :=
  if XP_WIN || ANDROID || MOZ_WIDGET_GTK
  then DriverVersionSwitch (mComparisonOp r) driverVersion
         (mDriverVersion r) (mDriverVersionMax r)
  else true.

(** ** The rule scan *)

(** The locals [FindBlocklistedDeviceInList] computes before the loop;
    the two-element arrays are indexed by [infoIndex], [false] for 0 and
    [true] for 1. *)
Record ScanLocals := {
  windowProtocol : string;
  refreshRateStatus : RefreshRateStatus;
  hasBattery : bool;
  osVersion : Z;
  osVersionEx : GfxVersionEx;
  adapterVendorID : bool -> string;
  adapterDeviceID : bool -> string;
  adapterDriverVendor : bool -> string;
  adapterInfoFailed : bool -> bool;
  driverVersion : bool -> Z
}.

(** How one iteration of the loop ends. *)
Inductive RuleOutcome :=
  | RuleContinue
  | RuleBreak
  | RuleWin (status : Z) (failureId : string).

(** The device-id test of one rule: [None] when the rule has no device
    set or an empty one, else the result of [Contains]. *)
Definition DeviceLookup (r : GfxDriverInfo) (deviceID : string)
  : option nsresult :=
  match mDevices r with
  | Some d =>
      if negb (GfxDeviceFamily_IsEmpty d)
      then Some (GfxDeviceFamily_Contains d deviceID)
      else None
  | None => None
  end.

(** The tail of the loop body, from [bool match = false] on. *)
Definition RuleTail (g : GfxInfo) (L : ScanLocals) (aFeature : Z)
  (r : GfxDriverInfo) : RuleOutcome :=
  let infoIndex := mGpu2 r in
  if negb (IsEmpty (mHardware r)) && negb (Equals (mHardware r) (Hardware g))
  then RuleContinue
  else if negb (IsEmpty (mModel r)) && negb (Equals (mModel r) (Model g))
  then RuleContinue
  else if negb (IsEmpty (mProduct r)) && negb (Equals (mProduct r) (Product g))
  then RuleContinue
  else if negb (IsEmpty (mManufacturer r)) &&
          negb (Equals (mManufacturer r) (Manufacturer g))
  then RuleContinue
  else
    let match_ := DriverVersionMatch r (driverVersion L infoIndex) in
    if match_ || (mDriverVersion r =? allDriverVersions) then
      if (mFeature r =? allFeatures) || (mFeature r =? aFeature) ||
         ((mFeature r =? optionalFeatures) &&
          OnlyAllowFeatureOnKnownConfig aFeature)
      then
        RuleWin (mFeatureStatus r)
          (if negb (IsEmpty (mRuleId r)) then mRuleId r
           else "FEATURE_FAILURE_DL_BLOCKLIST_NO_ID")
      else RuleContinue
    else RuleContinue.

(** The tests of the loop body before the device-id test, in their
    order: each is an [if (!test) continue;] of the source, so the body
    goes on to the device-id test exactly when all of them hold. *)
Definition RuleHead (g : GfxInfo) (st : State) (L : ScanLocals)
  (os : OperatingSystem) (aForAllowing : bool) (r : GfxDriverInfo) : bool :=
  let infoIndex := mGpu2 r in
  eqb (MatchingAllowStatus (mFeatureStatus r)) aForAllowing &&
  negb (adapterInfoFailed L infoIndex) &&
  MatchingOperatingSystems (mOperatingSystem r) os &&
  negb (negb (mOperatingSystemVersion r =? 0) &&
        negb (mOperatingSystemVersion r =? osVersion L)) &&
  GfxVersionEx_Compare (osVersionEx L) (mOperatingSystemVersionEx r)
    (mOperatingSystemVersionExMax r)
    (mOperatingSystemVersionExComparisonOp r) &&
  MatchingRefreshRateStatus (refreshRateStatus L) (mRefreshRateStatus r) &&
  negb ((mScreenCount st >? 0) &&
        negb (MatchingRefreshRates (mMinRefreshRate_sys st)
                (mMinRefreshRate r) (mMinRefreshRateMax r)
                (mMinRefreshRateComparisonOp r))) &&
  negb ((mScreenCount st >? 0) &&
        negb (MatchingRefreshRates (mMaxRefreshRate_sys st)
                (mMaxRefreshRate r) (mMaxRefreshRateMax r)
                (mMaxRefreshRateComparisonOp r))) &&
  MatchingBattery (mBattery r) (hasBattery L) &&
  MatchingScreenSize (mScreen r) (mScreenPixels st) &&
  DoesWindowProtocolMatch (mWindowProtocol r) (windowProtocol L) &&
  DoesVendorMatch (mAdapterVendor r) (adapterVendorID L infoIndex) &&
  DoesDriverVendorMatch (mDriverVendor r) (adapterDriverVendor L infoIndex).

(** The loop body for the rule [r]. *)
Definition RuleBody (g : GfxInfo) (st : State) (L : ScanLocals)
  (aFeature : Z) (os : OperatingSystem) (aForAllowing : bool)
  (r : GfxDriverInfo) : RuleOutcome :=
  if negb (RuleHead g st L os aForAllowing r) then RuleContinue
  else
    match DeviceLookup r (adapterDeviceID L (mGpu2 r)) with
    | Some NS_ERROR_NOT_AVAILABLE => RuleContinue
    | Some NS_OK | None => RuleTail g L aFeature r
    | Some _ => if aForAllowing then RuleContinue else RuleBreak
    end.

(** The [for] loop from index [i] on: the index at which the loop is
    left ([info.Length()] when it runs to its end) and how. *)
Fixpoint ScanLoop (g : GfxInfo) (st : State) (L : ScanLocals)
  (aFeature : Z) (os : OperatingSystem) (aForAllowing : bool)
  (info : list GfxDriverInfo) (i : nat) : nat * RuleOutcome :=
  match info with
  | [] => (i, RuleContinue)
  | r :: rest =>
      match RuleBody g st L aFeature os aForAllowing r with
      | RuleContinue => ScanLoop g st L aFeature os aForAllowing rest (S i)
      | o => (i, o)
      end
  end.


Definition PreLoop (g : GfxInfo) (st : State) : option ScanLocals :=
  let '(rv, aWindowProtocol) := GetWindowProtocol g in
  if NS_FAILED rv && negb (bool_decide (rv = NS_ERROR_NOT_IMPLEMENTED))
  then None
  else
  let aRefreshRateStatus :=
    if mScreenCount st <=? 1 then RR_Single
    else if mMinRefreshRate_sys st =? mMaxRefreshRate_sys st
    then RR_MultipleSame
    else RR_Mixed in
  let '(rv, aHasBattery) := GetHasBattery g in
  if NS_FAILED rv && negb (bool_decide (rv = NS_ERROR_NOT_IMPLEMENTED))
  then None
  else
  let failed0 :=
    NS_FAILED (fst (GetAdapterVendorID g)) ||
    NS_FAILED (fst (GetAdapterDeviceID g)) ||
    NS_FAILED (fst (GetAdapterDriverVendor g)) ||
    NS_FAILED (fst (GetAdapterDriverVersion g)) in
  let failed1 :=
    NS_FAILED (fst (GetAdapterVendorID2 g)) ||
    NS_FAILED (fst (GetAdapterDeviceID2 g)) ||
    NS_FAILED (fst (GetAdapterDriverVendor2 g)) ||
    NS_FAILED (fst (GetAdapterDriverVersion2 g)) in
  if failed0 && failed1 then None
  else
  let hasVersions := XP_WIN || ANDROID || MOZ_WIDGET_GTK in
  let version0 :=
    if hasVersions && negb failed0
    then snd (ParseDriverVersion (snd (GetAdapterDriverVersion g))) else 0 in
  let version1 :=
    if hasVersions && negb failed1
    then snd (ParseDriverVersion (snd (GetAdapterDriverVersion2 g))) else 0 in
  Some {|
    windowProtocol := aWindowProtocol;
    refreshRateStatus := aRefreshRateStatus;
    hasBattery := aHasBattery;
    osVersion := OperatingSystemVersion g;
    osVersionEx := OperatingSystemVersionEx g;
    adapterVendorID := fun i =>
      if i then snd (GetAdapterVendorID2 g) else snd (GetAdapterVendorID g);
    adapterDeviceID := fun i =>
      if i then snd (GetAdapterDeviceID2 g) else snd (GetAdapterDeviceID g);
    adapterDriverVendor := fun i =>
      if i then snd (GetAdapterDriverVendor2 g)
      else snd (GetAdapterDriverVendor g);
    adapterInfoFailed := fun i => if i then failed1 else failed0;
    driverVersion := fun i => if i then version1 else version0
  |}.

(** The special case of the NVidia 310M as secondary adapter, on the
    pair ([status], [aFailureId]). *)
Definition NV310MBlock (L : ScanLocals) (aFeature : Z) (sf : Z * string)
  : Z * string :=
  if (fst sf =? FEATURE_STATUS_UNKNOWN) && (aFeature =? FEATURE_DIRECT2D) then
    if negb (adapterInfoFailed L true) then
      if EqualsIgnoreCase DeviceVendor_NVIDIA (adapterVendorID L true) &&
         EqualsIgnoreCase "0x0A70" (adapterDeviceID L true)
      then (FEATURE_BLOCKED_DEVICE, "FEATURE_FAILURE_D2D_NV310M_BLOCK")
      else sf
    else sf
  else sf.

(** [AppendPrintf("%lld.%lld.%lld.%lld", ...)] on the four 16-bit fields
    of a packed driver version. *)
Definition FormatDriverVersion (v : Z) : string :=
  fmt_lld (Z.shiftr (Z.land v 0xffff000000000000) 48) ++ "." ++
  fmt_lld (Z.shiftr (Z.land v 0x0000ffff00000000) 32) ++ "." ++
  fmt_lld (Z.shiftr (Z.land v 0x00000000ffff0000) 16) ++ "." ++
  fmt_lld (Z.land v 0x000000000000ffff).

(** What the rule [r = info[i]] appends to [aSuggestedVersion]. *)
Definition AppendSuggestedVersion (r : GfxDriverInfo)
  (aSuggestedVersion : string) : string :=
  match mSuggestedVersion r with
  | Some v => aSuggestedVersion ++ v
  | None =>
      if bool_decide (mComparisonOp r = DRIVER_LESS_THAN) &&
         negb (mDriverVersion r =? allDriverVersions)
      then aSuggestedVersion ++ FormatDriverVersion (mDriverVersion r)
      else aSuggestedVersion
  end.

(** The code after the loop, for the exit index [i], the [status] and
    the [aFailureId] the loop leaves. Reading [info[i]] past the end of
    the array has no defined behaviour; the embedding leaves
    [aSuggestedVersion] as it is there. *)
Definition PostLoop (L : ScanLocals) (info : list GfxDriverInfo)
  (aSuggestedVersion : string) (aFeature : Z) (i : nat) (sf : Z * string)
  : Z * string * string :=
  if XP_WIN then
    let sf1 := NV310MBlock L aFeature sf in
    let version :=
      if fst sf1 =? FEATURE_BLOCKED_DRIVER_VERSION then
        match info !! i with
        | Some r => AppendSuggestedVersion r aSuggestedVersion
        | None => aSuggestedVersion
        end
      else aSuggestedVersion in
    (fst sf1, version, snd sf1)
  else (fst sf, aSuggestedVersion, snd sf).

(** Returns ([status], [aSuggestedVersion], [aFailureId]). *)
Definition FindBlocklistedDeviceInList (g : GfxInfo) (st : State)
  (info : list GfxDriverInfo) (aSuggestedVersion : string) (aFeature : Z)
  (aFailureId : string) (os : OperatingSystem) (aForAllowing : bool)
  : Z * string * string :=
  match PreLoop g st with
  | None => (0, aSuggestedVersion, aFailureId)
  | Some L =>
      let '(i, o) := ScanLoop g st L aFeature os aForAllowing info 0 in
      let sf :=
        match o with
        | RuleWin status failureId => (status, failureId)
        | _ => (FEATURE_STATUS_UNKNOWN, aFailureId)
        end in
      PostLoop L info aSuggestedVersion aFeature i sf
  end.

(** ** Feature resolution *)

Definition GetData (g : GfxInfo) (st : State) : State :=
  if negb (mScreenPixels st =? INT64_MAX) then st
  else if mScreenCount st =? 0 then
    {| prefs := prefs st;
       sFeatureStatus := sFeatureStatus st;
       sShutdownOccurred := sShutdownOccurred st;
       mScreenPixels := GetTotalScreenPixels g;
       mScreenCount := Z.of_nat (length (CurrentScreenList g));
       mMinRefreshRate_sys := fold_left Z.min (CurrentScreenList g) INT32_MAX;
       mMaxRefreshRate_sys := fold_left Z.max (CurrentScreenList g) INT32_MIN |}
  else
    {| prefs := prefs st;
       sFeatureStatus := sFeatureStatus st;
       sShutdownOccurred := sShutdownOccurred st;
       mScreenPixels := GetTotalScreenPixels g;
       mScreenCount := mScreenCount st;
       mMinRefreshRate_sys := mMinRefreshRate_sys st;
       mMaxRefreshRate_sys := mMaxRefreshRate_sys st |}.

(** The list a scan of [GetFeatureStatusImpl] runs over: the given
    [aDriverInfo] when it has elements, else the static list. *)
Definition FindInGivenOrStatic (g : GfxInfo) (st : State)
  (aDriverInfo : list GfxDriverInfo) (aSuggestedVersion : string)
  (aFeature : Z) (aFailureId : string) (os : OperatingSystem)
  (aForAllowing : bool) : Z * string * string :=
  if negb (length aDriverInfo =? 0)%nat
  then FindBlocklistedDeviceInList g st aDriverInfo aSuggestedVersion aFeature
         aFailureId os aForAllowing
  else FindBlocklistedDeviceInList g st (GetGfxDriverInfo g) aSuggestedVersion
         aFeature aFailureId os aForAllowing.

(** Returns ((result, [*aStatus], [aSuggestedVersion], [aFailureId]),
    state). [aOS] is [None] for the default argument [nullptr]. *)
Definition GetFeatureStatusImpl (g : GfxInfo) (st : State) (aFeature : Z)
  (aStatus : Z) (aSuggestedVersion : string)
  (aDriverInfo : list GfxDriverInfo) (aFailureId : string)
  (aOS : option OperatingSystem)
  : (nsresult * Z * string * string) * State :=
  if aFeature <=? 0 then ((NS_OK, aStatus, aSuggestedVersion, aFailureId), st)
  else if negb (aStatus =? FEATURE_STATUS_UNKNOWN)
  then ((NS_OK, aStatus, aSuggestedVersion, aFailureId), st)
  else if sShutdownOccurred st
  then ((NS_OK, aStatus, aSuggestedVersion, aFailureId), st)
  else
  let st := GetData g st in
  let os := match aOS with Some o => o | None => OS_Unknown end in
  if NS_FAILED (fst (GetAdapterVendorID g)) ||
     NS_FAILED (fst (GetAdapterDeviceID g)) ||
     NS_FAILED (fst (GetAdapterDriverVersion g))
  then
    if OnlyAllowFeatureOnKnownConfig aFeature
    then ((NS_OK, FEATURE_BLOCKED_DEVICE, aSuggestedVersion,
           "FEATURE_FAILURE_CANT_RESOLVE_ADAPTER"), st)
    else ((NS_OK, FEATURE_STATUS_OK, aSuggestedVersion, aFailureId), st)
  else
  let '(status, aSuggestedVersion, aFailureId) :=
    FindInGivenOrStatic g st aDriverInfo aSuggestedVersion aFeature aFailureId
      os false in
  let '(status, aSuggestedVersion, aFailureId) :=
    if status =? FEATURE_STATUS_UNKNOWN then
      if IsFeatureAllowlisted aFeature then
        let '(status, aSuggestedVersion, aFailureId) :=
          FindInGivenOrStatic g st aDriverInfo aSuggestedVersion aFeature
            aFailureId os true in
        if status =? FEATURE_STATUS_UNKNOWN
        then (FEATURE_DENIED, aSuggestedVersion, aFailureId)
        else (status, aSuggestedVersion, aFailureId)
      else (FEATURE_STATUS_OK, aSuggestedVersion, aFailureId)
    else (status, aSuggestedVersion, aFailureId) in
  ((NS_OK, status, aSuggestedVersion, aFailureId), st).

(** [GetFeatureStatus] calls the virtual [GetFeatureStatusImpl]; [impl]
    is the implementation the call dispatches to. Returns
    ((result, [*aStatus], [aFailureId]), state); [None] is the failed
    [MOZ_ASSERT(sFeatureStatus)]. *)
Definition GetFeatureStatus
  (impl : GfxInfo -> State -> Z -> Z -> string -> list GfxDriverInfo ->
          string -> option OperatingSystem ->
          (nsresult * Z * string * string) * State)
  (g : GfxInfo) (st : State) (aFeature : Z) (aFailureId : string)
  (aStatus : Z) : option ((nsresult * Z * string) * State) :=
  let blocklistAll :=
    if RELEASE_OR_BETA then 0 else gfx_blocklist_all_AtStartup g in
  if blocklistAll >? 0
  then Some ((NS_OK, FEATURE_BLOCKED_DEVICE, "FEATURE_FAILURE_BLOCK_ALL"), st)
  else if blocklistAll <? 0
  then Some ((NS_OK, FEATURE_STATUS_OK, aFailureId), st)
  else
  let '(found, aStatus, aFailureId) :=
    GetPrefValueForFeature (prefs st) aFeature aStatus aFailureId in
  if found then Some ((NS_OK, aStatus, aFailureId), st)
  else if XRE_IsContentProcess g || XRE_IsGPUProcess g then
    match sFeatureStatus st with
    | None => None
    | Some features =>
        match List.find (fun fs => fs_feature fs =? aFeature) features with
        | Some fs => Some ((NS_OK, fs_status fs, fs_failureId fs), st)
        | None => Some ((NS_ERROR_FAILURE, aStatus, aFailureId), st)
        end
    end
  else
    let '((rv, aStatus, _, aFailureId), st) :=
      impl g st aFeature aStatus "" [] aFailureId None in
    Some ((rv, aStatus, aFailureId), st).

(** ** Applying a downloaded blocklist *)

(** One iteration of the loop over the features. *)
Definition EvaluateFeature (g : GfxInfo) (aDriverInfo : list GfxDriverInfo)
  (os : OperatingSystem) (st : State) (feature : Z) : State :=
  let '((_, status, suggestedVersion, failureId), st) :=
    GetFeatureStatusImpl g st feature FEATURE_STATUS_UNKNOWN "" aDriverInfo ""
      (Some os) in
  if (status =? FEATURE_STATUS_UNKNOWN) || (status =? FEATURE_ALLOW_ALWAYS) ||
     (status =? FEATURE_ALLOW_QUALIFIED) || (status =? FEATURE_DENIED) ||
     (status =? FEATURE_STATUS_OK)
  then RemovePrefForFeature g st feature
  else if status =? FEATURE_BLOCKED_DRIVER_VERSION then
    let st :=
      if negb (IsEmpty suggestedVersion)
      then SetPrefValueForDriverVersion st suggestedVersion
      else RemovePrefForDriverVersion st in
    SetPrefValueForFeature g st feature status failureId
  else if (status =? FEATURE_BLOCKED_MISMATCHED_VERSION) ||
          (status =? FEATURE_BLOCKED_DEVICE) ||
          (status =? FEATURE_DISCOURAGED) ||
          (status =? FEATURE_BLOCKED_OS_VERSION) ||
          (status =? FEATURE_BLOCKED_PLATFORM_TEST)
  then SetPrefValueForFeature g st feature status failureId
  else RemovePrefForFeature g st feature.

Definition EvaluateDownloadedBlocklist (g : GfxInfo) (st : State)
  (aDriverInfo : list GfxDriverInfo) : State :=
  if (length aDriverInfo =? 0)%nat then st
  else
    let os := GetOperatingSystem g in
    fold_left (EvaluateFeature g aDriverInfo os)
      (seqZ FEATURE_START (FEATURE_COUNT - FEATURE_START)) st.

(** ** Assignments to the members of a rule

    [set_m r v] is the rule [r] after [r->m = v]. *)

Definition set_mRuleId (r : GfxDriverInfo) (v : string) : GfxDriverInfo :=
  {| mOperatingSystem := mOperatingSystem r; mOperatingSystemVersion :=
     mOperatingSystemVersion r; mOperatingSystemVersionEx :=
     mOperatingSystemVersionEx r; mOperatingSystemVersionExMax :=
     mOperatingSystemVersionExMax r; mOperatingSystemVersionExComparisonOp
     := mOperatingSystemVersionExComparisonOp r; mRefreshRateStatus :=
     mRefreshRateStatus r; mMinRefreshRate := mMinRefreshRate r;
     mMinRefreshRateMax := mMinRefreshRateMax r; mMinRefreshRateComparisonOp
     := mMinRefreshRateComparisonOp r; mMaxRefreshRate := mMaxRefreshRate r;
     mMaxRefreshRateMax := mMaxRefreshRateMax r; mMaxRefreshRateComparisonOp
     := mMaxRefreshRateComparisonOp r; mBattery := mBattery r; mScreen :=
     mScreen r; mWindowProtocol := mWindowProtocol r; mAdapterVendor :=
     mAdapterVendor r; mDriverVendor := mDriverVendor r; mDevices :=
     mDevices r; mFeature := mFeature r; mFeatureStatus := mFeatureStatus r;
     mComparisonOp := mComparisonOp r; mDriverVersion := mDriverVersion r;
     mDriverVersionMax := mDriverVersionMax r; mSuggestedVersion :=
     mSuggestedVersion r; mModel := mModel r; mHardware := mHardware r;
     mProduct := mProduct r; mManufacturer := mManufacturer r; mGpu2 :=
     mGpu2 r; mRuleId := v |}.

Definition set_mOperatingSystem (r : GfxDriverInfo) (v : OperatingSystem) : GfxDriverInfo :=
  {| mOperatingSystem := v; mOperatingSystemVersion :=
     mOperatingSystemVersion r; mOperatingSystemVersionEx :=
     mOperatingSystemVersionEx r; mOperatingSystemVersionExMax :=
     mOperatingSystemVersionExMax r; mOperatingSystemVersionExComparisonOp
     := mOperatingSystemVersionExComparisonOp r; mRefreshRateStatus :=
     mRefreshRateStatus r; mMinRefreshRate := mMinRefreshRate r;
     mMinRefreshRateMax := mMinRefreshRateMax r; mMinRefreshRateComparisonOp
     := mMinRefreshRateComparisonOp r; mMaxRefreshRate := mMaxRefreshRate r;
     mMaxRefreshRateMax := mMaxRefreshRateMax r; mMaxRefreshRateComparisonOp
     := mMaxRefreshRateComparisonOp r; mBattery := mBattery r; mScreen :=
     mScreen r; mWindowProtocol := mWindowProtocol r; mAdapterVendor :=
     mAdapterVendor r; mDriverVendor := mDriverVendor r; mDevices :=
     mDevices r; mFeature := mFeature r; mFeatureStatus := mFeatureStatus r;
     mComparisonOp := mComparisonOp r; mDriverVersion := mDriverVersion r;
     mDriverVersionMax := mDriverVersionMax r; mSuggestedVersion :=
     mSuggestedVersion r; mModel := mModel r; mHardware := mHardware r;
     mProduct := mProduct r; mManufacturer := mManufacturer r; mGpu2 :=
     mGpu2 r; mRuleId := mRuleId r |}.

Definition set_mOperatingSystemVersion (r : GfxDriverInfo) (v : Z) : GfxDriverInfo :=
  {| mOperatingSystem := mOperatingSystem r; mOperatingSystemVersion := v;
     mOperatingSystemVersionEx := mOperatingSystemVersionEx r;
     mOperatingSystemVersionExMax := mOperatingSystemVersionExMax r;
     mOperatingSystemVersionExComparisonOp :=
     mOperatingSystemVersionExComparisonOp r; mRefreshRateStatus :=
     mRefreshRateStatus r; mMinRefreshRate := mMinRefreshRate r;
     mMinRefreshRateMax := mMinRefreshRateMax r; mMinRefreshRateComparisonOp
     := mMinRefreshRateComparisonOp r; mMaxRefreshRate := mMaxRefreshRate r;
     mMaxRefreshRateMax := mMaxRefreshRateMax r; mMaxRefreshRateComparisonOp
     := mMaxRefreshRateComparisonOp r; mBattery := mBattery r; mScreen :=
     mScreen r; mWindowProtocol := mWindowProtocol r; mAdapterVendor :=
     mAdapterVendor r; mDriverVendor := mDriverVendor r; mDevices :=
     mDevices r; mFeature := mFeature r; mFeatureStatus := mFeatureStatus r;
     mComparisonOp := mComparisonOp r; mDriverVersion := mDriverVersion r;
     mDriverVersionMax := mDriverVersionMax r; mSuggestedVersion :=
     mSuggestedVersion r; mModel := mModel r; mHardware := mHardware r;
     mProduct := mProduct r; mManufacturer := mManufacturer r; mGpu2 :=
     mGpu2 r; mRuleId := mRuleId r |}.

Definition set_mOperatingSystemVersionEx (r : GfxDriverInfo) (v : GfxVersionEx) : GfxDriverInfo :=
  {| mOperatingSystem := mOperatingSystem r; mOperatingSystemVersion :=
     mOperatingSystemVersion r; mOperatingSystemVersionEx := v;
     mOperatingSystemVersionExMax := mOperatingSystemVersionExMax r;
     mOperatingSystemVersionExComparisonOp :=
     mOperatingSystemVersionExComparisonOp r; mRefreshRateStatus :=
     mRefreshRateStatus r; mMinRefreshRate := mMinRefreshRate r;
     mMinRefreshRateMax := mMinRefreshRateMax r; mMinRefreshRateComparisonOp
     := mMinRefreshRateComparisonOp r; mMaxRefreshRate := mMaxRefreshRate r;
     mMaxRefreshRateMax := mMaxRefreshRateMax r; mMaxRefreshRateComparisonOp
     := mMaxRefreshRateComparisonOp r; mBattery := mBattery r; mScreen :=
     mScreen r; mWindowProtocol := mWindowProtocol r; mAdapterVendor :=
     mAdapterVendor r; mDriverVendor := mDriverVendor r; mDevices :=
     mDevices r; mFeature := mFeature r; mFeatureStatus := mFeatureStatus r;
     mComparisonOp := mComparisonOp r; mDriverVersion := mDriverVersion r;
     mDriverVersionMax := mDriverVersionMax r; mSuggestedVersion :=
     mSuggestedVersion r; mModel := mModel r; mHardware := mHardware r;
     mProduct := mProduct r; mManufacturer := mManufacturer r; mGpu2 :=
     mGpu2 r; mRuleId := mRuleId r |}.

Definition set_mOperatingSystemVersionExMax (r : GfxDriverInfo) (v : GfxVersionEx) : GfxDriverInfo :=
  {| mOperatingSystem := mOperatingSystem r; mOperatingSystemVersion :=
     mOperatingSystemVersion r; mOperatingSystemVersionEx :=
     mOperatingSystemVersionEx r; mOperatingSystemVersionExMax := v;
     mOperatingSystemVersionExComparisonOp :=
     mOperatingSystemVersionExComparisonOp r; mRefreshRateStatus :=
     mRefreshRateStatus r; mMinRefreshRate := mMinRefreshRate r;
     mMinRefreshRateMax := mMinRefreshRateMax r; mMinRefreshRateComparisonOp
     := mMinRefreshRateComparisonOp r; mMaxRefreshRate := mMaxRefreshRate r;
     mMaxRefreshRateMax := mMaxRefreshRateMax r; mMaxRefreshRateComparisonOp
     := mMaxRefreshRateComparisonOp r; mBattery := mBattery r; mScreen :=
     mScreen r; mWindowProtocol := mWindowProtocol r; mAdapterVendor :=
     mAdapterVendor r; mDriverVendor := mDriverVendor r; mDevices :=
     mDevices r; mFeature := mFeature r; mFeatureStatus := mFeatureStatus r;
     mComparisonOp := mComparisonOp r; mDriverVersion := mDriverVersion r;
     mDriverVersionMax := mDriverVersionMax r; mSuggestedVersion :=
     mSuggestedVersion r; mModel := mModel r; mHardware := mHardware r;
     mProduct := mProduct r; mManufacturer := mManufacturer r; mGpu2 :=
     mGpu2 r; mRuleId := mRuleId r |}.

Definition set_mOperatingSystemVersionExComparisonOp (r : GfxDriverInfo) (v : VersionComparisonOp) : GfxDriverInfo :=
  {| mOperatingSystem := mOperatingSystem r; mOperatingSystemVersion :=
     mOperatingSystemVersion r; mOperatingSystemVersionEx :=
     mOperatingSystemVersionEx r; mOperatingSystemVersionExMax :=
     mOperatingSystemVersionExMax r; mOperatingSystemVersionExComparisonOp
     := v; mRefreshRateStatus := mRefreshRateStatus r; mMinRefreshRate :=
     mMinRefreshRate r; mMinRefreshRateMax := mMinRefreshRateMax r;
     mMinRefreshRateComparisonOp := mMinRefreshRateComparisonOp r;
     mMaxRefreshRate := mMaxRefreshRate r; mMaxRefreshRateMax :=
     mMaxRefreshRateMax r; mMaxRefreshRateComparisonOp :=
     mMaxRefreshRateComparisonOp r; mBattery := mBattery r; mScreen :=
     mScreen r; mWindowProtocol := mWindowProtocol r; mAdapterVendor :=
     mAdapterVendor r; mDriverVendor := mDriverVendor r; mDevices :=
     mDevices r; mFeature := mFeature r; mFeatureStatus := mFeatureStatus r;
     mComparisonOp := mComparisonOp r; mDriverVersion := mDriverVersion r;
     mDriverVersionMax := mDriverVersionMax r; mSuggestedVersion :=
     mSuggestedVersion r; mModel := mModel r; mHardware := mHardware r;
     mProduct := mProduct r; mManufacturer := mManufacturer r; mGpu2 :=
     mGpu2 r; mRuleId := mRuleId r |}.

Definition set_mRefreshRateStatus (r : GfxDriverInfo) (v : RefreshRateStatus) : GfxDriverInfo :=
  {| mOperatingSystem := mOperatingSystem r; mOperatingSystemVersion :=
     mOperatingSystemVersion r; mOperatingSystemVersionEx :=
     mOperatingSystemVersionEx r; mOperatingSystemVersionExMax :=
     mOperatingSystemVersionExMax r; mOperatingSystemVersionExComparisonOp
     := mOperatingSystemVersionExComparisonOp r; mRefreshRateStatus := v;
     mMinRefreshRate := mMinRefreshRate r; mMinRefreshRateMax :=
     mMinRefreshRateMax r; mMinRefreshRateComparisonOp :=
     mMinRefreshRateComparisonOp r; mMaxRefreshRate := mMaxRefreshRate r;
     mMaxRefreshRateMax := mMaxRefreshRateMax r; mMaxRefreshRateComparisonOp
     := mMaxRefreshRateComparisonOp r; mBattery := mBattery r; mScreen :=
     mScreen r; mWindowProtocol := mWindowProtocol r; mAdapterVendor :=
     mAdapterVendor r; mDriverVendor := mDriverVendor r; mDevices :=
     mDevices r; mFeature := mFeature r; mFeatureStatus := mFeatureStatus r;
     mComparisonOp := mComparisonOp r; mDriverVersion := mDriverVersion r;
     mDriverVersionMax := mDriverVersionMax r; mSuggestedVersion :=
     mSuggestedVersion r; mModel := mModel r; mHardware := mHardware r;
     mProduct := mProduct r; mManufacturer := mManufacturer r; mGpu2 :=
     mGpu2 r; mRuleId := mRuleId r |}.

Definition set_mMinRefreshRate (r : GfxDriverInfo) (v : Z) : GfxDriverInfo :=
  {| mOperatingSystem := mOperatingSystem r; mOperatingSystemVersion :=
     mOperatingSystemVersion r; mOperatingSystemVersionEx :=
     mOperatingSystemVersionEx r; mOperatingSystemVersionExMax :=
     mOperatingSystemVersionExMax r; mOperatingSystemVersionExComparisonOp
     := mOperatingSystemVersionExComparisonOp r; mRefreshRateStatus :=
     mRefreshRateStatus r; mMinRefreshRate := v; mMinRefreshRateMax :=
     mMinRefreshRateMax r; mMinRefreshRateComparisonOp :=
     mMinRefreshRateComparisonOp r; mMaxRefreshRate := mMaxRefreshRate r;
     mMaxRefreshRateMax := mMaxRefreshRateMax r; mMaxRefreshRateComparisonOp
     := mMaxRefreshRateComparisonOp r; mBattery := mBattery r; mScreen :=
     mScreen r; mWindowProtocol := mWindowProtocol r; mAdapterVendor :=
     mAdapterVendor r; mDriverVendor := mDriverVendor r; mDevices :=
     mDevices r; mFeature := mFeature r; mFeatureStatus := mFeatureStatus r;
     mComparisonOp := mComparisonOp r; mDriverVersion := mDriverVersion r;
     mDriverVersionMax := mDriverVersionMax r; mSuggestedVersion :=
     mSuggestedVersion r; mModel := mModel r; mHardware := mHardware r;
     mProduct := mProduct r; mManufacturer := mManufacturer r; mGpu2 :=
     mGpu2 r; mRuleId := mRuleId r |}.

Definition set_mMinRefreshRateMax (r : GfxDriverInfo) (v : Z) : GfxDriverInfo :=
  {| mOperatingSystem := mOperatingSystem r; mOperatingSystemVersion :=
     mOperatingSystemVersion r; mOperatingSystemVersionEx :=
     mOperatingSystemVersionEx r; mOperatingSystemVersionExMax :=
     mOperatingSystemVersionExMax r; mOperatingSystemVersionExComparisonOp
     := mOperatingSystemVersionExComparisonOp r; mRefreshRateStatus :=
     mRefreshRateStatus r; mMinRefreshRate := mMinRefreshRate r;
     mMinRefreshRateMax := v; mMinRefreshRateComparisonOp :=
     mMinRefreshRateComparisonOp r; mMaxRefreshRate := mMaxRefreshRate r;
     mMaxRefreshRateMax := mMaxRefreshRateMax r; mMaxRefreshRateComparisonOp
     := mMaxRefreshRateComparisonOp r; mBattery := mBattery r; mScreen :=
     mScreen r; mWindowProtocol := mWindowProtocol r; mAdapterVendor :=
     mAdapterVendor r; mDriverVendor := mDriverVendor r; mDevices :=
     mDevices r; mFeature := mFeature r; mFeatureStatus := mFeatureStatus r;
     mComparisonOp := mComparisonOp r; mDriverVersion := mDriverVersion r;
     mDriverVersionMax := mDriverVersionMax r; mSuggestedVersion :=
     mSuggestedVersion r; mModel := mModel r; mHardware := mHardware r;
     mProduct := mProduct r; mManufacturer := mManufacturer r; mGpu2 :=
     mGpu2 r; mRuleId := mRuleId r |}.

Definition set_mMinRefreshRateComparisonOp (r : GfxDriverInfo) (v : VersionComparisonOp) : GfxDriverInfo :=
  {| mOperatingSystem := mOperatingSystem r; mOperatingSystemVersion :=
     mOperatingSystemVersion r; mOperatingSystemVersionEx :=
     mOperatingSystemVersionEx r; mOperatingSystemVersionExMax :=
     mOperatingSystemVersionExMax r; mOperatingSystemVersionExComparisonOp
     := mOperatingSystemVersionExComparisonOp r; mRefreshRateStatus :=
     mRefreshRateStatus r; mMinRefreshRate := mMinRefreshRate r;
     mMinRefreshRateMax := mMinRefreshRateMax r; mMinRefreshRateComparisonOp
     := v; mMaxRefreshRate := mMaxRefreshRate r; mMaxRefreshRateMax :=
     mMaxRefreshRateMax r; mMaxRefreshRateComparisonOp :=
     mMaxRefreshRateComparisonOp r; mBattery := mBattery r; mScreen :=
     mScreen r; mWindowProtocol := mWindowProtocol r; mAdapterVendor :=
     mAdapterVendor r; mDriverVendor := mDriverVendor r; mDevices :=
     mDevices r; mFeature := mFeature r; mFeatureStatus := mFeatureStatus r;
     mComparisonOp := mComparisonOp r; mDriverVersion := mDriverVersion r;
     mDriverVersionMax := mDriverVersionMax r; mSuggestedVersion :=
     mSuggestedVersion r; mModel := mModel r; mHardware := mHardware r;
     mProduct := mProduct r; mManufacturer := mManufacturer r; mGpu2 :=
     mGpu2 r; mRuleId := mRuleId r |}.

Definition set_mMaxRefreshRate (r : GfxDriverInfo) (v : Z) : GfxDriverInfo :=
  {| mOperatingSystem := mOperatingSystem r; mOperatingSystemVersion :=
     mOperatingSystemVersion r; mOperatingSystemVersionEx :=
     mOperatingSystemVersionEx r; mOperatingSystemVersionExMax :=
     mOperatingSystemVersionExMax r; mOperatingSystemVersionExComparisonOp
     := mOperatingSystemVersionExComparisonOp r; mRefreshRateStatus :=
     mRefreshRateStatus r; mMinRefreshRate := mMinRefreshRate r;
     mMinRefreshRateMax := mMinRefreshRateMax r; mMinRefreshRateComparisonOp
     := mMinRefreshRateComparisonOp r; mMaxRefreshRate := v;
     mMaxRefreshRateMax := mMaxRefreshRateMax r; mMaxRefreshRateComparisonOp
     := mMaxRefreshRateComparisonOp r; mBattery := mBattery r; mScreen :=
     mScreen r; mWindowProtocol := mWindowProtocol r; mAdapterVendor :=
     mAdapterVendor r; mDriverVendor := mDriverVendor r; mDevices :=
     mDevices r; mFeature := mFeature r; mFeatureStatus := mFeatureStatus r;
     mComparisonOp := mComparisonOp r; mDriverVersion := mDriverVersion r;
     mDriverVersionMax := mDriverVersionMax r; mSuggestedVersion :=
     mSuggestedVersion r; mModel := mModel r; mHardware := mHardware r;
     mProduct := mProduct r; mManufacturer := mManufacturer r; mGpu2 :=
     mGpu2 r; mRuleId := mRuleId r |}.

Definition set_mMaxRefreshRateMax (r : GfxDriverInfo) (v : Z) : GfxDriverInfo :=
  {| mOperatingSystem := mOperatingSystem r; mOperatingSystemVersion :=
     mOperatingSystemVersion r; mOperatingSystemVersionEx :=
     mOperatingSystemVersionEx r; mOperatingSystemVersionExMax :=
     mOperatingSystemVersionExMax r; mOperatingSystemVersionExComparisonOp
     := mOperatingSystemVersionExComparisonOp r; mRefreshRateStatus :=
     mRefreshRateStatus r; mMinRefreshRate := mMinRefreshRate r;
     mMinRefreshRateMax := mMinRefreshRateMax r; mMinRefreshRateComparisonOp
     := mMinRefreshRateComparisonOp r; mMaxRefreshRate := mMaxRefreshRate r;
     mMaxRefreshRateMax := v; mMaxRefreshRateComparisonOp :=
     mMaxRefreshRateComparisonOp r; mBattery := mBattery r; mScreen :=
     mScreen r; mWindowProtocol := mWindowProtocol r; mAdapterVendor :=
     mAdapterVendor r; mDriverVendor := mDriverVendor r; mDevices :=
     mDevices r; mFeature := mFeature r; mFeatureStatus := mFeatureStatus r;
     mComparisonOp := mComparisonOp r; mDriverVersion := mDriverVersion r;
     mDriverVersionMax := mDriverVersionMax r; mSuggestedVersion :=
     mSuggestedVersion r; mModel := mModel r; mHardware := mHardware r;
     mProduct := mProduct r; mManufacturer := mManufacturer r; mGpu2 :=
     mGpu2 r; mRuleId := mRuleId r |}.

Definition set_mMaxRefreshRateComparisonOp (r : GfxDriverInfo) (v : VersionComparisonOp) : GfxDriverInfo :=
  {| mOperatingSystem := mOperatingSystem r; mOperatingSystemVersion :=
     mOperatingSystemVersion r; mOperatingSystemVersionEx :=
     mOperatingSystemVersionEx r; mOperatingSystemVersionExMax :=
     mOperatingSystemVersionExMax r; mOperatingSystemVersionExComparisonOp
     := mOperatingSystemVersionExComparisonOp r; mRefreshRateStatus :=
     mRefreshRateStatus r; mMinRefreshRate := mMinRefreshRate r;
     mMinRefreshRateMax := mMinRefreshRateMax r; mMinRefreshRateComparisonOp
     := mMinRefreshRateComparisonOp r; mMaxRefreshRate := mMaxRefreshRate r;
     mMaxRefreshRateMax := mMaxRefreshRateMax r; mMaxRefreshRateComparisonOp
     := v; mBattery := mBattery r; mScreen := mScreen r; mWindowProtocol :=
     mWindowProtocol r; mAdapterVendor := mAdapterVendor r; mDriverVendor :=
     mDriverVendor r; mDevices := mDevices r; mFeature := mFeature r;
     mFeatureStatus := mFeatureStatus r; mComparisonOp := mComparisonOp r;
     mDriverVersion := mDriverVersion r; mDriverVersionMax :=
     mDriverVersionMax r; mSuggestedVersion := mSuggestedVersion r; mModel
     := mModel r; mHardware := mHardware r; mProduct := mProduct r;
     mManufacturer := mManufacturer r; mGpu2 := mGpu2 r; mRuleId := mRuleId
     r |}.

Definition set_mWindowProtocol (r : GfxDriverInfo) (v : string) : GfxDriverInfo :=
  {| mOperatingSystem := mOperatingSystem r; mOperatingSystemVersion :=
     mOperatingSystemVersion r; mOperatingSystemVersionEx :=
     mOperatingSystemVersionEx r; mOperatingSystemVersionExMax :=
     mOperatingSystemVersionExMax r; mOperatingSystemVersionExComparisonOp
     := mOperatingSystemVersionExComparisonOp r; mRefreshRateStatus :=
     mRefreshRateStatus r; mMinRefreshRate := mMinRefreshRate r;
     mMinRefreshRateMax := mMinRefreshRateMax r; mMinRefreshRateComparisonOp
     := mMinRefreshRateComparisonOp r; mMaxRefreshRate := mMaxRefreshRate r;
     mMaxRefreshRateMax := mMaxRefreshRateMax r; mMaxRefreshRateComparisonOp
     := mMaxRefreshRateComparisonOp r; mBattery := mBattery r; mScreen :=
     mScreen r; mWindowProtocol := v; mAdapterVendor := mAdapterVendor r;
     mDriverVendor := mDriverVendor r; mDevices := mDevices r; mFeature :=
     mFeature r; mFeatureStatus := mFeatureStatus r; mComparisonOp :=
     mComparisonOp r; mDriverVersion := mDriverVersion r; mDriverVersionMax
     := mDriverVersionMax r; mSuggestedVersion := mSuggestedVersion r;
     mModel := mModel r; mHardware := mHardware r; mProduct := mProduct r;
     mManufacturer := mManufacturer r; mGpu2 := mGpu2 r; mRuleId := mRuleId
     r |}.

Definition set_mAdapterVendor (r : GfxDriverInfo) (v : string) : GfxDriverInfo :=
  {| mOperatingSystem := mOperatingSystem r; mOperatingSystemVersion :=
     mOperatingSystemVersion r; mOperatingSystemVersionEx :=
     mOperatingSystemVersionEx r; mOperatingSystemVersionExMax :=
     mOperatingSystemVersionExMax r; mOperatingSystemVersionExComparisonOp
     := mOperatingSystemVersionExComparisonOp r; mRefreshRateStatus :=
     mRefreshRateStatus r; mMinRefreshRate := mMinRefreshRate r;
     mMinRefreshRateMax := mMinRefreshRateMax r; mMinRefreshRateComparisonOp
     := mMinRefreshRateComparisonOp r; mMaxRefreshRate := mMaxRefreshRate r;
     mMaxRefreshRateMax := mMaxRefreshRateMax r; mMaxRefreshRateComparisonOp
     := mMaxRefreshRateComparisonOp r; mBattery := mBattery r; mScreen :=
     mScreen r; mWindowProtocol := mWindowProtocol r; mAdapterVendor := v;
     mDriverVendor := mDriverVendor r; mDevices := mDevices r; mFeature :=
     mFeature r; mFeatureStatus := mFeatureStatus r; mComparisonOp :=
     mComparisonOp r; mDriverVersion := mDriverVersion r; mDriverVersionMax
     := mDriverVersionMax r; mSuggestedVersion := mSuggestedVersion r;
     mModel := mModel r; mHardware := mHardware r; mProduct := mProduct r;
     mManufacturer := mManufacturer r; mGpu2 := mGpu2 r; mRuleId := mRuleId
     r |}.

Definition set_mDriverVendor (r : GfxDriverInfo) (v : string) : GfxDriverInfo :=
  {| mOperatingSystem := mOperatingSystem r; mOperatingSystemVersion :=
     mOperatingSystemVersion r; mOperatingSystemVersionEx :=
     mOperatingSystemVersionEx r; mOperatingSystemVersionExMax :=
     mOperatingSystemVersionExMax r; mOperatingSystemVersionExComparisonOp
     := mOperatingSystemVersionExComparisonOp r; mRefreshRateStatus :=
     mRefreshRateStatus r; mMinRefreshRate := mMinRefreshRate r;
     mMinRefreshRateMax := mMinRefreshRateMax r; mMinRefreshRateComparisonOp
     := mMinRefreshRateComparisonOp r; mMaxRefreshRate := mMaxRefreshRate r;
     mMaxRefreshRateMax := mMaxRefreshRateMax r; mMaxRefreshRateComparisonOp
     := mMaxRefreshRateComparisonOp r; mBattery := mBattery r; mScreen :=
     mScreen r; mWindowProtocol := mWindowProtocol r; mAdapterVendor :=
     mAdapterVendor r; mDriverVendor := v; mDevices := mDevices r; mFeature
     := mFeature r; mFeatureStatus := mFeatureStatus r; mComparisonOp :=
     mComparisonOp r; mDriverVersion := mDriverVersion r; mDriverVersionMax
     := mDriverVersionMax r; mSuggestedVersion := mSuggestedVersion r;
     mModel := mModel r; mHardware := mHardware r; mProduct := mProduct r;
     mManufacturer := mManufacturer r; mGpu2 := mGpu2 r; mRuleId := mRuleId
     r |}.

Definition set_mFeature (r : GfxDriverInfo) (v : Z) : GfxDriverInfo :=
  {| mOperatingSystem := mOperatingSystem r; mOperatingSystemVersion :=
     mOperatingSystemVersion r; mOperatingSystemVersionEx :=
     mOperatingSystemVersionEx r; mOperatingSystemVersionExMax :=
     mOperatingSystemVersionExMax r; mOperatingSystemVersionExComparisonOp
     := mOperatingSystemVersionExComparisonOp r; mRefreshRateStatus :=
     mRefreshRateStatus r; mMinRefreshRate := mMinRefreshRate r;
     mMinRefreshRateMax := mMinRefreshRateMax r; mMinRefreshRateComparisonOp
     := mMinRefreshRateComparisonOp r; mMaxRefreshRate := mMaxRefreshRate r;
     mMaxRefreshRateMax := mMaxRefreshRateMax r; mMaxRefreshRateComparisonOp
     := mMaxRefreshRateComparisonOp r; mBattery := mBattery r; mScreen :=
     mScreen r; mWindowProtocol := mWindowProtocol r; mAdapterVendor :=
     mAdapterVendor r; mDriverVendor := mDriverVendor r; mDevices :=
     mDevices r; mFeature := v; mFeatureStatus := mFeatureStatus r;
     mComparisonOp := mComparisonOp r; mDriverVersion := mDriverVersion r;
     mDriverVersionMax := mDriverVersionMax r; mSuggestedVersion :=
     mSuggestedVersion r; mModel := mModel r; mHardware := mHardware r;
     mProduct := mProduct r; mManufacturer := mManufacturer r; mGpu2 :=
     mGpu2 r; mRuleId := mRuleId r |}.

Definition set_mFeatureStatus (r : GfxDriverInfo) (v : Z) : GfxDriverInfo :=
  {| mOperatingSystem := mOperatingSystem r; mOperatingSystemVersion :=
     mOperatingSystemVersion r; mOperatingSystemVersionEx :=
     mOperatingSystemVersionEx r; mOperatingSystemVersionExMax :=
     mOperatingSystemVersionExMax r; mOperatingSystemVersionExComparisonOp
     := mOperatingSystemVersionExComparisonOp r; mRefreshRateStatus :=
     mRefreshRateStatus r; mMinRefreshRate := mMinRefreshRate r;
     mMinRefreshRateMax := mMinRefreshRateMax r; mMinRefreshRateComparisonOp
     := mMinRefreshRateComparisonOp r; mMaxRefreshRate := mMaxRefreshRate r;
     mMaxRefreshRateMax := mMaxRefreshRateMax r; mMaxRefreshRateComparisonOp
     := mMaxRefreshRateComparisonOp r; mBattery := mBattery r; mScreen :=
     mScreen r; mWindowProtocol := mWindowProtocol r; mAdapterVendor :=
     mAdapterVendor r; mDriverVendor := mDriverVendor r; mDevices :=
     mDevices r; mFeature := mFeature r; mFeatureStatus := v; mComparisonOp
     := mComparisonOp r; mDriverVersion := mDriverVersion r;
     mDriverVersionMax := mDriverVersionMax r; mSuggestedVersion :=
     mSuggestedVersion r; mModel := mModel r; mHardware := mHardware r;
     mProduct := mProduct r; mManufacturer := mManufacturer r; mGpu2 :=
     mGpu2 r; mRuleId := mRuleId r |}.

Definition set_mDriverVersion (r : GfxDriverInfo) (v : Z) : GfxDriverInfo :=
  {| mOperatingSystem := mOperatingSystem r; mOperatingSystemVersion :=
     mOperatingSystemVersion r; mOperatingSystemVersionEx :=
     mOperatingSystemVersionEx r; mOperatingSystemVersionExMax :=
     mOperatingSystemVersionExMax r; mOperatingSystemVersionExComparisonOp
     := mOperatingSystemVersionExComparisonOp r; mRefreshRateStatus :=
     mRefreshRateStatus r; mMinRefreshRate := mMinRefreshRate r;
     mMinRefreshRateMax := mMinRefreshRateMax r; mMinRefreshRateComparisonOp
     := mMinRefreshRateComparisonOp r; mMaxRefreshRate := mMaxRefreshRate r;
     mMaxRefreshRateMax := mMaxRefreshRateMax r; mMaxRefreshRateComparisonOp
     := mMaxRefreshRateComparisonOp r; mBattery := mBattery r; mScreen :=
     mScreen r; mWindowProtocol := mWindowProtocol r; mAdapterVendor :=
     mAdapterVendor r; mDriverVendor := mDriverVendor r; mDevices :=
     mDevices r; mFeature := mFeature r; mFeatureStatus := mFeatureStatus r;
     mComparisonOp := mComparisonOp r; mDriverVersion := v;
     mDriverVersionMax := mDriverVersionMax r; mSuggestedVersion :=
     mSuggestedVersion r; mModel := mModel r; mHardware := mHardware r;
     mProduct := mProduct r; mManufacturer := mManufacturer r; mGpu2 :=
     mGpu2 r; mRuleId := mRuleId r |}.

Definition set_mDriverVersionMax (r : GfxDriverInfo) (v : Z) : GfxDriverInfo :=
  {| mOperatingSystem := mOperatingSystem r; mOperatingSystemVersion :=
     mOperatingSystemVersion r; mOperatingSystemVersionEx :=
     mOperatingSystemVersionEx r; mOperatingSystemVersionExMax :=
     mOperatingSystemVersionExMax r; mOperatingSystemVersionExComparisonOp
     := mOperatingSystemVersionExComparisonOp r; mRefreshRateStatus :=
     mRefreshRateStatus r; mMinRefreshRate := mMinRefreshRate r;
     mMinRefreshRateMax := mMinRefreshRateMax r; mMinRefreshRateComparisonOp
     := mMinRefreshRateComparisonOp r; mMaxRefreshRate := mMaxRefreshRate r;
     mMaxRefreshRateMax := mMaxRefreshRateMax r; mMaxRefreshRateComparisonOp
     := mMaxRefreshRateComparisonOp r; mBattery := mBattery r; mScreen :=
     mScreen r; mWindowProtocol := mWindowProtocol r; mAdapterVendor :=
     mAdapterVendor r; mDriverVendor := mDriverVendor r; mDevices :=
     mDevices r; mFeature := mFeature r; mFeatureStatus := mFeatureStatus r;
     mComparisonOp := mComparisonOp r; mDriverVersion := mDriverVersion r;
     mDriverVersionMax := v; mSuggestedVersion := mSuggestedVersion r;
     mModel := mModel r; mHardware := mHardware r; mProduct := mProduct r;
     mManufacturer := mManufacturer r; mGpu2 := mGpu2 r; mRuleId := mRuleId
     r |}.

Definition set_mComparisonOp (r : GfxDriverInfo) (v : VersionComparisonOp) : GfxDriverInfo :=
  {| mOperatingSystem := mOperatingSystem r; mOperatingSystemVersion :=
     mOperatingSystemVersion r; mOperatingSystemVersionEx :=
     mOperatingSystemVersionEx r; mOperatingSystemVersionExMax :=
     mOperatingSystemVersionExMax r; mOperatingSystemVersionExComparisonOp
     := mOperatingSystemVersionExComparisonOp r; mRefreshRateStatus :=
     mRefreshRateStatus r; mMinRefreshRate := mMinRefreshRate r;
     mMinRefreshRateMax := mMinRefreshRateMax r; mMinRefreshRateComparisonOp
     := mMinRefreshRateComparisonOp r; mMaxRefreshRate := mMaxRefreshRate r;
     mMaxRefreshRateMax := mMaxRefreshRateMax r; mMaxRefreshRateComparisonOp
     := mMaxRefreshRateComparisonOp r; mBattery := mBattery r; mScreen :=
     mScreen r; mWindowProtocol := mWindowProtocol r; mAdapterVendor :=
     mAdapterVendor r; mDriverVendor := mDriverVendor r; mDevices :=
     mDevices r; mFeature := mFeature r; mFeatureStatus := mFeatureStatus r;
     mComparisonOp := v; mDriverVersion := mDriverVersion r;
     mDriverVersionMax := mDriverVersionMax r; mSuggestedVersion :=
     mSuggestedVersion r; mModel := mModel r; mHardware := mHardware r;
     mProduct := mProduct r; mManufacturer := mManufacturer r; mGpu2 :=
     mGpu2 r; mRuleId := mRuleId r |}.

Definition set_mModel (r : GfxDriverInfo) (v : string) : GfxDriverInfo :=
  {| mOperatingSystem := mOperatingSystem r; mOperatingSystemVersion :=
     mOperatingSystemVersion r; mOperatingSystemVersionEx :=
     mOperatingSystemVersionEx r; mOperatingSystemVersionExMax :=
     mOperatingSystemVersionExMax r; mOperatingSystemVersionExComparisonOp
     := mOperatingSystemVersionExComparisonOp r; mRefreshRateStatus :=
     mRefreshRateStatus r; mMinRefreshRate := mMinRefreshRate r;
     mMinRefreshRateMax := mMinRefreshRateMax r; mMinRefreshRateComparisonOp
     := mMinRefreshRateComparisonOp r; mMaxRefreshRate := mMaxRefreshRate r;
     mMaxRefreshRateMax := mMaxRefreshRateMax r; mMaxRefreshRateComparisonOp
     := mMaxRefreshRateComparisonOp r; mBattery := mBattery r; mScreen :=
     mScreen r; mWindowProtocol := mWindowProtocol r; mAdapterVendor :=
     mAdapterVendor r; mDriverVendor := mDriverVendor r; mDevices :=
     mDevices r; mFeature := mFeature r; mFeatureStatus := mFeatureStatus r;
     mComparisonOp := mComparisonOp r; mDriverVersion := mDriverVersion r;
     mDriverVersionMax := mDriverVersionMax r; mSuggestedVersion :=
     mSuggestedVersion r; mModel := v; mHardware := mHardware r; mProduct :=
     mProduct r; mManufacturer := mManufacturer r; mGpu2 := mGpu2 r; mRuleId
     := mRuleId r |}.

Definition set_mProduct (r : GfxDriverInfo) (v : string) : GfxDriverInfo :=
  {| mOperatingSystem := mOperatingSystem r; mOperatingSystemVersion :=
     mOperatingSystemVersion r; mOperatingSystemVersionEx :=
     mOperatingSystemVersionEx r; mOperatingSystemVersionExMax :=
     mOperatingSystemVersionExMax r; mOperatingSystemVersionExComparisonOp
     := mOperatingSystemVersionExComparisonOp r; mRefreshRateStatus :=
     mRefreshRateStatus r; mMinRefreshRate := mMinRefreshRate r;
     mMinRefreshRateMax := mMinRefreshRateMax r; mMinRefreshRateComparisonOp
     := mMinRefreshRateComparisonOp r; mMaxRefreshRate := mMaxRefreshRate r;
     mMaxRefreshRateMax := mMaxRefreshRateMax r; mMaxRefreshRateComparisonOp
     := mMaxRefreshRateComparisonOp r; mBattery := mBattery r; mScreen :=
     mScreen r; mWindowProtocol := mWindowProtocol r; mAdapterVendor :=
     mAdapterVendor r; mDriverVendor := mDriverVendor r; mDevices :=
     mDevices r; mFeature := mFeature r; mFeatureStatus := mFeatureStatus r;
     mComparisonOp := mComparisonOp r; mDriverVersion := mDriverVersion r;
     mDriverVersionMax := mDriverVersionMax r; mSuggestedVersion :=
     mSuggestedVersion r; mModel := mModel r; mHardware := mHardware r;
     mProduct := v; mManufacturer := mManufacturer r; mGpu2 := mGpu2 r;
     mRuleId := mRuleId r |}.

Definition set_mManufacturer (r : GfxDriverInfo) (v : string) : GfxDriverInfo :=
  {| mOperatingSystem := mOperatingSystem r; mOperatingSystemVersion :=
     mOperatingSystemVersion r; mOperatingSystemVersionEx :=
     mOperatingSystemVersionEx r; mOperatingSystemVersionExMax :=
     mOperatingSystemVersionExMax r; mOperatingSystemVersionExComparisonOp
     := mOperatingSystemVersionExComparisonOp r; mRefreshRateStatus :=
     mRefreshRateStatus r; mMinRefreshRate := mMinRefreshRate r;
     mMinRefreshRateMax := mMinRefreshRateMax r; mMinRefreshRateComparisonOp
     := mMinRefreshRateComparisonOp r; mMaxRefreshRate := mMaxRefreshRate r;
     mMaxRefreshRateMax := mMaxRefreshRateMax r; mMaxRefreshRateComparisonOp
     := mMaxRefreshRateComparisonOp r; mBattery := mBattery r; mScreen :=
     mScreen r; mWindowProtocol := mWindowProtocol r; mAdapterVendor :=
     mAdapterVendor r; mDriverVendor := mDriverVendor r; mDevices :=
     mDevices r; mFeature := mFeature r; mFeatureStatus := mFeatureStatus r;
     mComparisonOp := mComparisonOp r; mDriverVersion := mDriverVersion r;
     mDriverVersionMax := mDriverVersionMax r; mSuggestedVersion :=
     mSuggestedVersion r; mModel := mModel r; mHardware := mHardware r;
     mProduct := mProduct r; mManufacturer := v; mGpu2 := mGpu2 r; mRuleId
     := mRuleId r |}.

Definition set_mHardware (r : GfxDriverInfo) (v : string) : GfxDriverInfo :=
  {| mOperatingSystem := mOperatingSystem r; mOperatingSystemVersion :=
     mOperatingSystemVersion r; mOperatingSystemVersionEx :=
     mOperatingSystemVersionEx r; mOperatingSystemVersionExMax :=
     mOperatingSystemVersionExMax r; mOperatingSystemVersionExComparisonOp
     := mOperatingSystemVersionExComparisonOp r; mRefreshRateStatus :=
     mRefreshRateStatus r; mMinRefreshRate := mMinRefreshRate r;
     mMinRefreshRateMax := mMinRefreshRateMax r; mMinRefreshRateComparisonOp
     := mMinRefreshRateComparisonOp r; mMaxRefreshRate := mMaxRefreshRate r;
     mMaxRefreshRateMax := mMaxRefreshRateMax r; mMaxRefreshRateComparisonOp
     := mMaxRefreshRateComparisonOp r; mBattery := mBattery r; mScreen :=
     mScreen r; mWindowProtocol := mWindowProtocol r; mAdapterVendor :=
     mAdapterVendor r; mDriverVendor := mDriverVendor r; mDevices :=
     mDevices r; mFeature := mFeature r; mFeatureStatus := mFeatureStatus r;
     mComparisonOp := mComparisonOp r; mDriverVersion := mDriverVersion r;
     mDriverVersionMax := mDriverVersionMax r; mSuggestedVersion :=
     mSuggestedVersion r; mModel := mModel r; mHardware := v; mProduct :=
     mProduct r; mManufacturer := mManufacturer r; mGpu2 := mGpu2 r; mRuleId
     := mRuleId r |}.

Definition set_mDevices (r : GfxDriverInfo) (v : option GfxDeviceFamily) : GfxDriverInfo :=
  {| mOperatingSystem := mOperatingSystem r; mOperatingSystemVersion :=
     mOperatingSystemVersion r; mOperatingSystemVersionEx :=
     mOperatingSystemVersionEx r; mOperatingSystemVersionExMax :=
     mOperatingSystemVersionExMax r; mOperatingSystemVersionExComparisonOp
     := mOperatingSystemVersionExComparisonOp r; mRefreshRateStatus :=
     mRefreshRateStatus r; mMinRefreshRate := mMinRefreshRate r;
     mMinRefreshRateMax := mMinRefreshRateMax r; mMinRefreshRateComparisonOp
     := mMinRefreshRateComparisonOp r; mMaxRefreshRate := mMaxRefreshRate r;
     mMaxRefreshRateMax := mMaxRefreshRateMax r; mMaxRefreshRateComparisonOp
     := mMaxRefreshRateComparisonOp r; mBattery := mBattery r; mScreen :=
     mScreen r; mWindowProtocol := mWindowProtocol r; mAdapterVendor :=
     mAdapterVendor r; mDriverVendor := mDriverVendor r; mDevices := v;
     mFeature := mFeature r; mFeatureStatus := mFeatureStatus r;
     mComparisonOp := mComparisonOp r; mDriverVersion := mDriverVersion r;
     mDriverVersionMax := mDriverVersionMax r; mSuggestedVersion :=
     mSuggestedVersion r; mModel := mModel r; mHardware := mHardware r;
     mProduct := mProduct r; mManufacturer := mManufacturer r; mGpu2 :=
     mGpu2 r; mRuleId := mRuleId r |}.

(** ** The parser of one downloaded record *)

Definition Version_gt (a b : string) : bool :=
  match Version_compare a b with Gt => true | _ => false end.
Definition Version_ge (a b : string) : bool :=
  match Version_compare a b with Lt => false | _ => true end.
Definition Version_le (a b : string) : bool :=
  match Version_compare a b with Gt => false | _ => true end.

(** The [versionRange] branch: [false] is [return false]. *)
Definition VersionRangeApplies (appV value : string) : bool :=
  match ParseString value "," with
  | [minValue; maxValue] =>
      if Version_gt minValue "0" && negb (Version_ge appV minValue) then false
      else if Version_gt maxValue "0" && negb (Version_le appV maxValue)
      then false
      else true
  | _ => false
  end.

(** The dispatch on [key] of one iteration, for a non-empty [value]:
    ([false], _) is [return false]. The members [mOperatingSystemVersion]
    and the four refresh rates are 32 bits wide (GfxDriverInfo.h): the
    [unsigned long] of [strtoul] is stored modulo 2^32. *)
Definition ParseKey (appV key value : string) (di : GfxDriverInfo)
  : bool * GfxDriverInfo :=
  if Equals key "blockID"
  then (true, set_mRuleId di ("FEATURE_FAILURE_DL_BLOCKLIST_" ++ value))
  else if Equals key "os"
  then (true, set_mOperatingSystem di (BlocklistOSToOperatingSystem value))
  else if Equals key "osversion"
  then (true, set_mOperatingSystemVersion di (to_uint32 (strtoul value)))
  else if Equals key "osVersionEx"
  then (true, set_mOperatingSystemVersionEx di
                (GfxVersionEx_Parse (mOperatingSystemVersionEx di) value))
  else if Equals key "osVersionExMax"
  then (true, set_mOperatingSystemVersionExMax di
                (GfxVersionEx_Parse (mOperatingSystemVersionExMax di) value))
  else if Equals key "osVersionExComparator"
  then (true, set_mOperatingSystemVersionExComparisonOp di
                (BlocklistComparatorToComparisonOp value))
  else if Equals key "refreshRateStatus"
  then (true, set_mRefreshRateStatus di (BlocklistToRefreshRateStatus value))
  else if Equals key "minRefreshRate"
  then (true, set_mMinRefreshRate di (to_uint32 (strtoul value)))
  else if Equals key "minRefreshRateMax"
  then (true, set_mMinRefreshRateMax di (to_uint32 (strtoul value)))
  else if Equals key "minRefreshRateComparator"
  then (true, set_mMinRefreshRateComparisonOp di
                (BlocklistComparatorToComparisonOp value))
  else if Equals key "maxRefreshRate"
  then (true, set_mMaxRefreshRate di (to_uint32 (strtoul value)))
  else if Equals key "maxRefreshRateMax"
  then (true, set_mMaxRefreshRateMax di (to_uint32 (strtoul value)))
  else if Equals key "maxRefreshRateComparator"
  then (true, set_mMaxRefreshRateComparisonOp di
                (BlocklistComparatorToComparisonOp value))
  else if Equals key "windowProtocol"
  then (true, set_mWindowProtocol di value)
  else if Equals key "vendor"
  then (true, set_mAdapterVendor di value)
  else if Equals key "driverVendor"
  then (true, set_mDriverVendor di value)
  else if Equals key "feature" then
    let di := set_mFeature di (BlocklistFeatureToGfxFeature value) in
    if mFeature di =? FEATURE_INVALID then (false, di) else (true, di)
  else if Equals key "featureStatus"
  then (true, set_mFeatureStatus di
                (BlocklistFeatureStatusToGfxFeatureStatus value))
  else if Equals key "driverVersion" then
    let '(ok, version) := ParseDriverVersion value in
    (true, if ok then set_mDriverVersion di version else di)
  else if Equals key "driverVersionMax" then
    let '(ok, version) := ParseDriverVersion value in
    (true, if ok then set_mDriverVersionMax di version else di)
  else if Equals key "driverVersionComparator"
  then (true, set_mComparisonOp di (BlocklistComparatorToComparisonOp value))
  else if Equals key "model" then (true, set_mModel di value)
  else if Equals key "product" then (true, set_mProduct di value)
  else if Equals key "manufacturer" then (true, set_mManufacturer di value)
  else if Equals key "hardware" then (true, set_mHardware di value)
  else if Equals key "versionRange"
  then (VersionRangeApplies appV value, di)
  else if Equals key "devices"
  then (true, set_mDevices di
                (BlocklistDevicesToDeviceFamily (ParseString value ",")))
  else (true, di).

(** The key of a pair, when it splits in two. *)
Definition KeyOf (keyValue : string) : option string :=
  match ParseString keyValue ":" with
  | [key; _] => Some key
  | _ => None
  end.

(** One iteration of the loop over the tab-separated pairs. *)
Definition ParseKeyValue (appV keyValue : string) (di : GfxDriverInfo)
  : bool * GfxDriverInfo :=
  match ParseString keyValue ":" with
  | [key; value] =>
      if (String.length value =? 0)%nat then (false, di)
      else ParseKey appV key value di
  | _ => (false, di)
  end.

Fixpoint ParseKeyValues (appV : string) (keyValues : list string)
  (di : GfxDriverInfo) : bool * GfxDriverInfo :=
  match keyValues with
  | [] => (true, di)
  | keyValue :: rest =>
      match ParseKeyValue appV keyValue di with
      | (true, di') => ParseKeyValues appV rest di'
      | (false, di') => (false, di')
      end
  end.

(** Returns (result, [*aDriverInfo]). The tab is character 9. *)
Definition BlocklistEntryToDriverInfo (g : GfxInfo) (aBlocklistEntry : string)
  (aDriverInfo : GfxDriverInfo) : bool * GfxDriverInfo :=
  let appV := GetApplicationVersion g in
  let di := set_mRuleId aDriverInfo "FEATURE_FAILURE_DL_BLOCKLIST_NO_ID" in
  ParseKeyValues appV (Split aBlocklistEntry (ascii_of_nat 9)) di.

(** The records of [aData] that parse, in order; [fresh] is a
    default-constructed [GfxDriverInfo]. The newline is character 10. *)
Definition ParseBlocklist (g : GfxInfo) (fresh : GfxDriverInfo)
  (aData : string) : list GfxDriverInfo :=
  omap (fun blocklistEntry =>
          match BlocklistEntryToDriverInfo g blocklistEntry fresh with
          | (true, di) => Some di
          | (false, _) => None
          end)
       (Split aData (ascii_of_nat 10)).

Definition Observe (g : GfxInfo) (st : State) (fresh : GfxDriverInfo)
  (aTopic aData : string) : State :=
  if Equals aTopic "blocklist-data-gfxItems"
  then EvaluateDownloadedBlocklist g st (ParseBlocklist g fresh aData)
  else st.

(** ** The remaining entry points *)




(** The assertion [MOZ_ASSERT(!sFeatureStatus)] is a debug check; the
    release build replaces the snapshot. *)
Definition SetFeatureStatus (st : State) (aFS : list GfxInfoFeatureStatus)
  : State := set_sFeatureStatus st (Some aFS).

(** Returns ((result, [aVersion]), state). The local [status] is passed
    to [GetFeatureStatusImpl] without having been assigned: its value is
    the argument [status]. *)
Definition GetFeatureSuggestedDriverVersion
  (impl : GfxInfo -> State -> Z -> Z -> string -> list GfxDriverInfo ->
          string -> option OperatingSystem ->
          (nsresult * Z * string * string) * State)
  (g : GfxInfo) (st : State) (aFeature : Z) (aVersion : string) (status : Z)
  : (nsresult * string) * State :=
  match GetPrefValueForDriverVersion (prefs st) with
  | Some version => ((NS_OK, version), st)
  | None =>
      let '((rv, _, aVersion, _), st) :=
        impl g st aFeature status aVersion [] "" None in
      ((rv, aVersion), st)
  end.

Definition GetFeatureSuggestedDriverVersionStr
  (impl : GfxInfo -> State -> Z -> Z -> string -> list GfxDriverInfo ->
          string -> option OperatingSystem ->
          (nsresult * Z * string * string) * State)
  (g : GfxInfo) (st : State) (aFeature : string) (aVersion : string)
  (status : Z) : (nsresult * string) * State :=
  let feature := BlocklistFeatureToGfxFeature aFeature in
  if feature =? FEATURE_INVALID
  then ((NS_ERROR_INVALID_ARG, aVersion), st)
  else GetFeatureSuggestedDriverVersion impl g st feature aVersion status.

(** [ShutdownObserver::Observe], on the state modelled here: the flag
    [sShutdownOccurred] is raised (the rule lists it frees are not part
    of [State]). *)
Definition ShutdownObserver_Observe (st : State) : State :=
  {| prefs := prefs st;
     sFeatureStatus := sFeatureStatus st;
     sShutdownOccurred := true;
     mScreenPixels := mScreenPixels st;
     mScreenCount := mScreenCount st;
     mMinRefreshRate_sys := mMinRefreshRate_sys st;
     mMaxRefreshRate_sys := mMaxRefreshRate_sys st |}.

(** [SpoofMonitorInfo] (debug builds); its [MOZ_ASSERT(aScreenCount > 0)]
    is left out. *)
Definition SpoofMonitorInfo (st : State)
  (aScreenCount aMinRefreshRate aMaxRefreshRate : Z) : State :=
  {| prefs := prefs st;
     sFeatureStatus := sFeatureStatus st;
     sShutdownOccurred := sShutdownOccurred st;
     mScreenPixels := mScreenPixels st;
     mScreenCount := aScreenCount;
     mMinRefreshRate_sys := aMinRefreshRate;
     mMaxRefreshRate_sys := aMaxRefreshRate |}.

(** *** The snapshot of all features *)

Section Snapshot.

(** The constant [nsIGfxInfo::FEATURE_STATUS_INVALID]. *)
Variable FEATURE_STATUS_INVALID : Z.

(** One iteration of the loop of [GetAllFeatures]; [None] is a crash
    (the failed assertion of [GetFeatureStatus], or [sFeatureStatus]
    reset to null by the call). *)
Definition AppendFeatureStatus
  (impl : GfxInfo -> State -> Z -> Z -> string -> list GfxDriverInfo ->
          string -> option OperatingSystem ->
          (nsresult * Z * string * string) * State)
  (g : GfxInfo) (acc : option State) (i : Z) : option State :=
  match acc with
  | None => None
  | Some st =>
      match GetFeatureStatus impl g st i "" FEATURE_STATUS_INVALID with
      | None => None
      | Some ((_, status, failureId), st) =>
          match sFeatureStatus st with
          | None => None
          | Some features =>
              Some (set_sFeatureStatus st
                      (Some (features ++
                             [ {| fs_feature := i;
                                  fs_status := status;
                                  fs_failureId := failureId |} ])%list))
          end
      end
  end.

(** Returns (the copy of the snapshot, state); [None] is the failed
    [MOZ_RELEASE_ASSERT(XRE_IsParentProcess())] or a crash in the
    loop. *)
Definition GetAllFeatures
  (impl : GfxInfo -> State -> Z -> Z -> string -> list GfxDriverInfo ->
          string -> option OperatingSystem ->
          (nsresult * Z * string * string) * State)
  (g : GfxInfo) (st : State)
  : option (list GfxInfoFeatureStatus * State) :=
  if negb (XRE_IsParentProcess g) then None
  else
    let built :=
      match sFeatureStatus st with
      | Some _ => Some st
      | None =>
          fold_left (AppendFeatureStatus impl g)
            (seqZ FEATURE_START (FEATURE_COUNT - FEATURE_START))
            (Some (set_sFeatureStatus st (Some [])))
      end in
    match built with
    | None => None
    | Some st =>
        match sFeatureStatus st with
        | Some features => Some (features, st)
        | None => None
        end
    end.

(** The element [GetAllFeatures] appends for the feature [i] when the
    call for it is made in the state [st] and dispatches to the
    [GetFeatureStatusImpl] of this file. *)
Definition SnapshotEntry (g : GfxInfo) (st : State) (i : Z)
  : GfxInfoFeatureStatus :=
  match GetFeatureStatus GetFeatureStatusImpl g st i "" FEATURE_STATUS_INVALID
  with
  | Some ((_, status, failureId), _) =>
      {| fs_feature := i; fs_status := status; fs_failureId := failureId |}
  | None =>
      {| fs_feature := i; fs_status := FEATURE_STATUS_INVALID;
         fs_failureId := "" |}
  end.

End Snapshot.

(** *** The collectors

    [sCollectors] is [None] for the null pointer; a collector is known
    by its address. *)

Definition InitCollectors (sCollectors : option (list Z)) : list Z :=
  match sCollectors with
  | None => []
  | Some collectors => collectors
  end.

Definition AddCollector (sCollectors : option (list Z)) (collector : Z)
  : option (list Z) :=
  Some (InitCollectors sCollectors ++ [collector])%list.

(** The loop of [RemoveCollector]: the first element equal to
    [collector] is removed. *)
Fixpoint RemoveFirst (collectors : list Z) (collector : Z) : list Z :=
  match collectors with
  | [] => []
  | c :: rest =>
      if c =? collector then rest else c :: RemoveFirst rest collector
  end.

Definition RemoveCollector (sCollectors : option (list Z)) (collector : Z)
  : option (list Z) :=
  let collectors := RemoveFirst (InitCollectors sCollectors) collector in
  if (length collectors =? 0)%nat then None else Some collectors.

(** ** The font-visibility determination *)

(** [nsIGfxInfo::FontVisibilityDeviceDetermination]. *)
Inductive Device :=
  | Unassigned
  | Unknown_Platform
  | Windows_Platform
  | MacOS_Unknown
  | MacOS_13_plus
  | MacOS_sub_13
  | Android_Unknown_Release_Version
  | Android_sub_9
  | Android_9_11
  | Android_12_plus
  | Android_Chromebook
  | Android_Amazon
  | Android_Unknown_Peloton
  | Android_Unknown_vbox
  | Android_Unknown_mitv
  | Linux_Unknown
  | Linux_Ubuntu_any
  | Linux_Ubuntu_20
  | Linux_Ubuntu_22
  | Linux_Fedora_any
  | Linux_Fedora_38
  | Linux_Fedora_39.

#[global] Instance Device_eq_dec : EqDecision Device.
Proof. solve_decision. Defined.

(** What [java::sdk::Build] answers. *)
Record AndroidBuild := {
  RELEASE : string;
  MANUFACTURER : string;
  BRAND : string;
  MODEL : string;
  PRODUCT : string
}.

(** The branch of [GetFontVisibilityDeterminationPair] the preprocessor
    keeps, with what the platform answers in it: the Android build
    strings; the successive results of [fgets] on /etc/os-release
    ([None] when [fopen] fails); the three numbers of
    [nsCocoaFeatures::GetSystemVersion]. *)
Inductive FontPlatform :=
  | Font_Android (build : AndroidBuild)
  | Font_Linux (os_release : option (list string))
  | Font_MacOS (major minor bugfix : Z)
  | Font_Windows
  | Font_Other.

(** [s.Find(needle) != kNotFound]. *)
Fixpoint Find_found (needle s : string) : bool :=
  String.prefix needle s ||
  match s with
  | EmptyString => false
  | String _ rest => Find_found needle rest
  end.

(** [buf + n] for a C string of at least [n] characters. *)
Definition skip (n : nat) (buf : string) : string :=
  substring n (String.length buf - n) buf.

(** The double quote, character 34. *)
Definition quote : string := String (ascii_of_nat 34) EmptyString.

Section FontVisibility.

(** [strtol(s, nullptr, 10)] and [ProductIsChromebook] (a binary search
    of the library in [chromebookProductList]). *)
Variable strtol : string -> Z.
Variable ProductIsChromebook : string -> bool.

(** The Android branch on the pair [ret]; [None] is [MOZ_CRASH]. *)
Definition AndroidDetermination (b : AndroidBuild) (ret : Device * string)
  : option (Device * string) :=
  let androidReleaseVersion := strtol (RELEASE b) in
  let androidManufacturer := string_to_lower (MANUFACTURER b) in
  let androidBrand := string_to_lower (BRAND b) in
  let androidModel := string_to_lower (MODEL b) in
  let androidProduct := string_to_lower (PRODUCT b) in
  let androidProductIsChromebook := ProductIsChromebook androidProduct in
  let byRelease :=
    if (androidReleaseVersion <? 4) || (androidReleaseVersion >? 20)
    then Some (Android_Unknown_Release_Version,
               snd ret ++ "Unknown Release Version - ")
    else if androidReleaseVersion <=? 8
    then Some (Android_sub_9, snd ret ++ "Android <9 - ")
    else if androidReleaseVersion <=? 11
    then Some (Android_9_11, snd ret ++ "Android 9-11 - ")
    else if androidReleaseVersion >? 11
    then Some (Android_12_plus, snd ret ++ "Android 12+ - ")
    else None in
  match byRelease with
  | None => None
  | Some ret =>
      let ret :=
        if Equals androidManufacturer "google" &&
           Equals androidModel androidProduct && androidProductIsChromebook
        then (Android_Chromebook, snd ret ++ "Chromebook - ") else ret in
      let ret :=
        if Equals androidBrand "amazon"
        then (Android_Amazon, snd ret ++ "Amazon - ") else ret in
      let ret :=
        if Equals androidBrand "peloton"
        then (Android_Unknown_Peloton, snd ret ++ "Peloton - ") else ret in
      let ret :=
        if Equals androidProduct "vbox86p"
        then (Android_Unknown_vbox, snd ret ++ "vbox - ") else ret in
      let ret :=
        if Find_found "mitv" androidModel && Equals androidBrand "xiaomi"
        then (Android_Unknown_mitv, snd ret ++ "mitv - ") else ret in
      Some (fst ret,
            snd ret ++ "release_version_str=" ++ RELEASE b ++
            ", release_version=" ++ fmt_lld androidReleaseVersion ++
            ", manufacturer=" ++ androidManufacturer ++
            ", brand=" ++ androidBrand ++
            ", model=" ++ androidModel ++
            ", product=" ++ androidProduct ++
            ", chromebook=" ++
            (if androidProductIsChromebook then "yes" else "no"))
  end.

(** The [while (fgets(...))] loop over the lines that are left: the
    values of [ret->first], [ret->second] and [versionMajor] when the
    loop is left. *)
Fixpoint OsReleaseLoop (lines : list string) (first : Device)
  (second : string) (versionMajor : Z) : Device * string * Z :=
  match lines with
  | [] => (first, second, versionMajor)
  | buf :: rest =>
      let isVersion := String.prefix ("VERSION_ID=" ++ quote) buf in
      let second :=
        if isVersion then second ++ "VERSION_ID=" ++ substring 11 11 buf
        else second in
      let versionMajor :=
        if isVersion then strtol (skip 12 buf) else versionMajor in
      if isVersion && negb (bool_decide (first = Linux_Unknown))
      then (first, second, versionMajor)
      else
        let isId := String.prefix "ID=" buf in
        let second :=
          if isId then second ++ "ID=" ++ substring 3 6 buf else second in
        let first :=
          if isId then
            if String.prefix "ubuntu" (skip 3 buf) then Linux_Ubuntu_any
            else if String.prefix "fedora" (skip 3 buf) then Linux_Fedora_any
            else first
          else first in
        if isId && negb (versionMajor =? 0)
        then (first, second, versionMajor)
        else OsReleaseLoop rest first second versionMajor
  end.

(** The Linux branch. *)
Definition LinuxDetermination (os_release : option (list string))
  (ret : Device * string) : Device * string :=
  let '(first, second, versionMajor) :=
    match os_release with
    | Some lines => OsReleaseLoop lines Linux_Unknown (snd ret) 0
    | None => (Linux_Unknown, snd ret, 0)
    end in
  if bool_decide (first = Linux_Ubuntu_any) then
    if versionMajor =? 20 then (Linux_Ubuntu_20, "Ubuntu 20 - " ++ second)
    else if versionMajor =? 22 then (Linux_Ubuntu_22, "Ubuntu 22 - " ++ second)
    else (first, "Ubuntu Unknown - " ++ second)
  else if bool_decide (first = Linux_Fedora_any) then
    if versionMajor =? 38 then (Linux_Fedora_38, "Fedora 38 - " ++ second)
    else if versionMajor =? 39 then (Linux_Fedora_39, "Fedora 39 - " ++ second)
    else (first, "Fedora Unknown - " ++ second)
  else (first, "Linux Unknown - " ++ second).

(** The macOS branch. *)
Definition MacOSDetermination (major minor bugfix : Z) (ret : Device * string)
  : Device * string :=
  let second := snd ret ++ "macOS Platform" in
  if major =? 0 then (MacOS_Unknown, second)
  else
    (if major >=? 13 then MacOS_13_plus else MacOS_sub_13,
     second ++ "macOS " ++ fmt_lld major ++ "." ++ fmt_lld minor ++ "." ++
     fmt_lld bugfix).

(** The static [ret] is [None] for the null pointer. Returns the pair
    [ret] points to after the call; [None] is [MOZ_CRASH]. The reset of
    [ret] that [ClearOnShutdown] registers happens outside this file. *)
Definition GetFontVisibilityDeterminationPair (p : FontPlatform)
  (ret : option (Device * string)) : option (Device * string) :=
  let ret :=
    match ret with
    | None => (Unassigned, "")
    | Some r => r
    end in
  if negb (bool_decide (fst ret = Unassigned)) then Some ret
  else
    match p with
    | Font_Android b => AndroidDetermination b ret
    | Font_Linux os_release => Some (LinuxDetermination os_release ret)
    | Font_MacOS major minor bugfix =>
        Some (MacOSDetermination major minor bugfix ret)
    | Font_Windows => Some (Windows_Platform, snd ret ++ "Windows Platform")
    | Font_Other => Some (Unknown_Platform, snd ret ++ "Unknown Platform")
    end.

(** [GetFontVisibilityDetermination] and
    [GetFontVisibilityDeterminationStr]: (result, output, [ret]). *)
Definition GetFontVisibilityDetermination (p : FontPlatform)
  (ret : option (Device * string))
  : option (nsresult * Device * option (Device * string)) :=
  match GetFontVisibilityDeterminationPair p ret with
  | Some r => Some (NS_OK, fst r, Some r)
  | None => None
  end.

Definition GetFontVisibilityDeterminationStr (p : FontPlatform)
  (ret : option (Device * string))
  : option (nsresult * string * option (Device * string)) :=
  match GetFontVisibilityDeterminationPair p ret with
  | Some r => Some (NS_OK, snd r, Some r)
  | None => None
  end.



End FontVisibility.

(** ** Notions used to state properties *)

(** A write to the preference service: a value stored under a name, or
    ([None]) the name cleared. *)
Definition apply_write (p : gmap string PrefValue)
  (w : string * option PrefValue) : gmap string PrefValue :=
  match snd w with
  | Some v => <[fst w := v]> p
  | None => delete (fst w) p
  end.

Definition apply_writes (ws : list (string * option PrefValue))
  (p : gmap string PrefValue) : gmap string PrefValue :=
  fold_left apply_write ws p.

(** The last write to the name [k], if any. *)
Fixpoint last_write (ws : list (string * option PrefValue)) (k : string)
  : option (option PrefValue) :=
  match ws with
  | [] => None
  | w :: rest =>
      match last_write rest k with
      | Some o => Some o
      | None => if bool_decide (fst w = k) then Some (snd w) else None
      end
  end.

(** The object [g] with another static rule list. *)
Definition with_static_list (g : GfxInfo) (rules : list GfxDriverInfo)
  : GfxInfo :=
  {| XRE_ProcessType := XRE_ProcessType g;
     gfx_blocklist_all_AtStartup := gfx_blocklist_all_AtStartup g;
     GetApplicationVersion := GetApplicationVersion g;
     GetWindowProtocol := GetWindowProtocol g;
     GetHasBattery := GetHasBattery g;
     OperatingSystemVersion := OperatingSystemVersion g;
     OperatingSystemVersionEx := OperatingSystemVersionEx g;
     GetOperatingSystem := GetOperatingSystem g;
     GetAdapterVendorID := GetAdapterVendorID g;
     GetAdapterDeviceID := GetAdapterDeviceID g;
     GetAdapterDriverVendor := GetAdapterDriverVendor g;
     GetAdapterDriverVersion := GetAdapterDriverVersion g;
     GetAdapterVendorID2 := GetAdapterVendorID2 g;
     GetAdapterDeviceID2 := GetAdapterDeviceID2 g;
     GetAdapterDriverVendor2 := GetAdapterDriverVendor2 g;
     GetAdapterDriverVersion2 := GetAdapterDriverVersion2 g;
     Hardware := Hardware g;
     Model := Model g;
     Product := Product g;
     Manufacturer := Manufacturer g;
     GetGfxDriverInfo := rules;
     GetTotalScreenPixels := GetTotalScreenPixels g;
     CurrentScreenList := CurrentScreenList g |}.

(** The statuses [EvaluateDownloadedBlocklist] stores. *)
Definition IsStoredStatus (status : Z) : bool :=
  (status =? FEATURE_BLOCKED_DRIVER_VERSION) ||
  (status =? FEATURE_BLOCKED_MISMATCHED_VERSION) ||
  (status =? FEATURE_BLOCKED_DEVICE) ||
  (status =? FEATURE_DISCOURAGED) ||
  (status =? FEATURE_BLOCKED_OS_VERSION) ||
  (status =? FEATURE_BLOCKED_PLATFORM_TEST).

(** The names under which the override of a feature is stored. *)
Definition PrefNamesOf (aFeature : Z) : list string :=
  match GetPrefNameForFeature aFeature with
  | Some prefname => [prefname; prefname ++ ".failureid"]
  | None => []
  end.

(** The writes [SetPrefValueForFeature] makes, in order. *)
Definition SetPrefValueForFeature_writes (aFeature aValue : Z)
  (aFailureId : string) : list (string * option PrefValue) :=
  match GetPrefNameForFeature aFeature with
  | None => []
  | Some prefname =>
      (prefname, Some (PrefInt aValue)) ::
      if negb (IsEmpty aFailureId)
      then [(prefname ++ ".failureid", Some (PrefString aFailureId))]
      else []
  end.

(** The write [RemovePrefForFeature] makes. *)
Definition RemovePrefForFeature_writes (aFeature : Z)
  : list (string * option PrefValue) :=
  match GetPrefNameForFeature aFeature with
  | None => []
  | Some prefname => [(prefname, None)]
  end.

(** The writes of one iteration of [EvaluateDownloadedBlocklist], in
    order. *)
Definition EvaluateFeature_writes (g : GfxInfo)
  (aDriverInfo : list GfxDriverInfo) (os : OperatingSystem) (st : State)
  (feature : Z) : list (string * option PrefValue) :=
  let '(_, status, suggestedVersion, failureId) :=
    fst (GetFeatureStatusImpl g st feature FEATURE_STATUS_UNKNOWN ""
           aDriverInfo "" (Some os)) in
  if (status =? FEATURE_STATUS_UNKNOWN) || (status =? FEATURE_ALLOW_ALWAYS) ||
     (status =? FEATURE_ALLOW_QUALIFIED) || (status =? FEATURE_DENIED) ||
     (status =? FEATURE_STATUS_OK)
  then RemovePrefForFeature_writes feature
  else if status =? FEATURE_BLOCKED_DRIVER_VERSION then
    (SUGGESTED_VERSION_PREF,
     if negb (IsEmpty suggestedVersion)
     then Some (PrefString suggestedVersion) else None) ::
    SetPrefValueForFeature_writes feature status failureId
  else if (status =? FEATURE_BLOCKED_MISMATCHED_VERSION) ||
          (status =? FEATURE_BLOCKED_DEVICE) ||
          (status =? FEATURE_DISCOURAGED) ||
          (status =? FEATURE_BLOCKED_OS_VERSION) ||
          (status =? FEATURE_BLOCKED_PLATFORM_TEST)
  then SetPrefValueForFeature_writes feature status failureId
  else RemovePrefForFeature_writes feature.

(** The statuses [EvaluateDownloadedBlocklist] removes the override
    for. *)
Definition IsRemovedStatus (status : Z) : bool :=
  (status =? FEATURE_STATUS_UNKNOWN) || (status =? FEATURE_ALLOW_ALWAYS) ||
  (status =? FEATURE_ALLOW_QUALIFIED) || (status =? FEATURE_DENIED) ||
  (status =? FEATURE_STATUS_OK).

(** Whether a feature has a preference name. *)
Definition HasPrefName (aFeature : Z) : bool :=
  match GetPrefNameForFeature aFeature with Some _ => true | None => false end.

(** Whether the parser goes on after the pair [key:value], for a
    non-empty [value]. *)
Definition KeyAccepted (appV key value : string) : bool :=
  if Equals key "feature"
  then negb (BlocklistFeatureToGfxFeature value =? FEATURE_INVALID)
  else if Equals key "versionRange" then VersionRangeApplies appV value
  else true.

(** Whether the parser goes on after the pair [keyValue]. *)
Definition PairAccepted (appV keyValue : string) : bool :=
  match ParseString keyValue ":" with
  | [key; value] =>
      negb (String.length value =? 0)%nat && KeyAccepted appV key value
  | _ => false
  end.

(** A rule id the parser assigns. *)
Definition DownloadedRuleId (s : string) : Prop :=
  exists suffix, s = "FEATURE_FAILURE_DL_BLOCKLIST_" ++ suffix.

(** Rules of the family a scan in mode [aForAllowing] considers. *)
Definition SameFamily (aForAllowing : bool) (r : GfxDriverInfo) : bool :=
  eqb (MatchingAllowStatus (mFeatureStatus r)) aForAllowing.

End Model.

(** ** A concrete configuration

    One instance of each class and a machine, used to evaluate the
    definitions on explicit inputs. The theorems below hold for every
    instance. *)

Module Sample.

(** Tokens of [s] between occurrences of [c], empty tokens included. *)
Fixpoint split_on (c : ascii) (s : string) (tok : string) : list string :=
  match s with
  | EmptyString => [tok]
  | String a r =>
      if Ascii.eqb a c then tok :: split_on c r ""
      else split_on c r (tok ++ String a "")
  end.

Definition digit_of (a : ascii) : option Z :=
  let n := Z.of_N (N_of_ascii a) in
  if (48 <=? n) && (n <=? 57) then Some (n - 48) else None.

(** The decimal number [s] starts with, after the digits [acc]. *)
Fixpoint decimal_prefix (s : string) (acc : Z) : Z :=
  match s with
  | EmptyString => acc
  | String a r =>
      match digit_of a with
      | Some d => decimal_prefix r (10 * acc + d)
      | None => acc
      end
  end.

Definition all_digits (s : string) : bool :=
  negb (IsEmpty s) &&
  forallb (fun a => match digit_of a with Some _ => true | None => false end)
    (list_ascii_of_string s).

(** A dotted version [a.b.c.d] packed into 64 bits, 16 bits a field. *)
Definition parse_dotted (s : string) : bool * Z :=
  match split_on "." s "" with
  | [a; b; c; d] =>
      if forallb all_digits [a; b; c; d] then
        (true,
         Z.lor (Z.shiftl (decimal_prefix a 0) 48)
           (Z.lor (Z.shiftl (decimal_prefix b 0) 32)
              (Z.lor (Z.shiftl (decimal_prefix c 0) 16) (decimal_prefix d 0))))
      else (false, 0)
  | _ => (false, 0)
  end.

(** Modelled from the spec: the comparison of section 4.1 on integers,
    standing for [GfxVersionEx::Compare]. *)
Definition compare (system lower upper : Z) (op : VersionComparisonOp) : bool :=
  match op with
  | DRIVER_COMPARISON_IGNORED => true
  | DRIVER_LESS_THAN => system <? lower
  | DRIVER_LESS_THAN_OR_EQUAL => system <=? lower
  | DRIVER_GREATER_THAN => system >? lower
  | DRIVER_GREATER_THAN_OR_EQUAL => system >=? lower
  | DRIVER_EQUAL => system =? lower
  | DRIVER_NOT_EQUAL => negb (system =? lower)
  | DRIVER_BUILD_ID_LESS_THAN => system mod 65536 <? lower mod 65536
  | DRIVER_BUILD_ID_LESS_THAN_OR_EQUAL => system mod 65536 <=? lower mod 65536
  | DRIVER_BETWEEN_EXCLUSIVE => (lower <? system) && (system <? upper)
  | DRIVER_BETWEEN_INCLUSIVE => (lower <=? system) && (system <=? upper)
  | DRIVER_BETWEEN_INCLUSIVE_START => (lower <=? system) && (system <? upper)
  | DRIVER_BOGUS _ => false
  end.

(** A device family: listed ids and, optionally, a range of numeric
    ids. A lookup in a family with a range needs the numeric value of
    the id and fails when the id is not a number. *)
Record DeviceFamily := {
  ids : list string;
  range : option (Z * Z)
}.

Definition DeviceFamily_Contains (d : DeviceFamily) (id : string) : nsresult :=
  if existsb (EqualsIgnoreCase id) (ids d) then NS_OK
  else
    match range d with
    | None => NS_ERROR_NOT_AVAILABLE
    | Some (lo, hi) =>
        if all_digits id then
          let n := decimal_prefix id 0 in
          if (lo <=? n) && (n <=? hi) then NS_OK else NS_ERROR_NOT_AVAILABLE
        else NS_ERROR_FAILURE
    end.

Definition status_numbers : nsIGfxInfo := {|
  FEATURE_STATUS_OK := 1;
  FEATURE_STATUS_UNKNOWN := 2;
  FEATURE_BLOCKED_DRIVER_VERSION := 3;
  FEATURE_BLOCKED_DEVICE := 4;
  FEATURE_DISCOURAGED := 5;
  FEATURE_BLOCKED_OS_VERSION := 6;
  FEATURE_BLOCKED_MISMATCHED_VERSION := 7;
  FEATURE_DENIED := 8;
  FEATURE_ALLOW_ALWAYS := 9;
  FEATURE_ALLOW_QUALIFIED := 10;
  FEATURE_BLOCKED_PLATFORM_TEST := 11;
  FEATURE_INVALID := 0;
  FEATURE_START := 1;
  FEATURE_COUNT := 8;
  FEATURE_DIRECT2D := 1;
  FEATURE_HW_DECODED_VIDEO_ZERO_COPY := 2;
  FEATURE_GPU_PROCESS := 3;
  FEATURE_DIRECT3D_11_ANGLE := 4;
  FEATURE_ALLOW_WEBGL_OUT_OF_PROCESS := 5;
  FEATURE_BACKDROP_FILTER := 6;
  GFXINFO_FEATURE :=
    [ (1, "DIRECT2D", "direct2d");
      (2, "HW_DECODED_VIDEO_ZERO_COPY", "hw.video.zero-copy");
      (3, "GPU_PROCESS", "gpu.process");
      (4, "DIRECT3D_11_ANGLE", "direct3d11angle");
      (5, "ALLOW_WEBGL_OUT_OF_PROCESS", "webgl.allow-oop");
      (6, "BACKDROP_FILTER", "backdrop.filter");
      (7, "DIRECT3D_10_LAYERS", "layers.direct3d10") ];
  GFXINFO_FEATURE_STATUS :=
    [ ("STATUS_OK", 1); ("STATUS_UNKNOWN", 2); ("BLOCKED_DRIVER_VERSION", 3);
      ("BLOCKED_DEVICE", 4); ("DISCOURAGED", 5); ("BLOCKED_OS_VERSION", 6);
      ("BLOCKED_MISMATCHED_VERSION", 7); ("DENIED", 8); ("ALLOW_ALWAYS", 9);
      ("ALLOW_QUALIFIED", 10); ("BLOCKED_PLATFORM_TEST", 11) ]
|}.

Definition decls : GfxDriverInfoDecls := {|
  GfxVersionEx := Z;
  GfxVersionEx_Parse := fun _ s => decimal_prefix s 0;
  GfxVersionEx_Compare := compare;
  GfxDeviceFamily := DeviceFamily;
  GfxDeviceFamily_new := {| ids := []; range := None |};
  GfxDeviceFamily_Append := fun d id =>
    {| ids := (ids d ++ [id])%list; range := range d |};
  GfxDeviceFamily_IsEmpty := fun d =>
    match ids d, range d with [], None => true | _, _ => false end;
  GfxDeviceFamily_Contains := DeviceFamily_Contains;
  allFeatures := -1;
  optionalFeatures := -2;
  allDriverVersions := 18446744073709551615;
  WindowProtocol_All := "";
  DeviceVendor_All := "";
  DriverVendor_All := "";
  DeviceVendor_NVIDIA := "0x10de";
  ParseDriverVersion := parse_dotted;
  GFXINFO_DRIVER_VERSION_CMP :=
    [ ("LESS_THAN", DRIVER_LESS_THAN);
      ("BUILD_ID_LESS_THAN", DRIVER_BUILD_ID_LESS_THAN);
      ("LESS_THAN_OR_EQUAL", DRIVER_LESS_THAN_OR_EQUAL);
      ("BUILD_ID_LESS_THAN_OR_EQUAL", DRIVER_BUILD_ID_LESS_THAN_OR_EQUAL);
      ("GREATER_THAN", DRIVER_GREATER_THAN);
      ("GREATER_THAN_OR_EQUAL", DRIVER_GREATER_THAN_OR_EQUAL);
      ("EQUAL", DRIVER_EQUAL);
      ("NOT_EQUAL", DRIVER_NOT_EQUAL);
      ("BETWEEN_EXCLUSIVE", DRIVER_BETWEEN_EXCLUSIVE);
      ("BETWEEN_INCLUSIVE", DRIVER_BETWEEN_INCLUSIVE);
      ("BETWEEN_INCLUSIVE_START", DRIVER_BETWEEN_INCLUSIVE_START);
      ("COMPARISON_IGNORED", DRIVER_COMPARISON_IGNORED) ];
  GFXINFO_OS :=
    [ ("WINNT 10.0", OS_Windows10); ("WINNT 11.0", OS_Windows11);
      ("Windows", OS_Windows); ("Darwin", OS_OSX); ("Linux", OtherOS 0) ];
  GFXINFO_REFRESH_RATE_STATUS :=
    [ ("Any", RR_Any); ("AnySame", RR_AnySame); ("Single", RR_Single);
      ("MultipleSame", RR_MultipleSame); ("Mixed", RR_Mixed) ];
  strtoul := fun s => decimal_prefix s 0;
  Version_compare := fun a b => (decimal_prefix a 0 ?= decimal_prefix b 0);
  Split := fun s c => split_on c s "";
  ParseString := fun s c => filter (fun t => negb (IsEmpty t)) (split_on c s "")
|}.

Definition windows : BuildConfig := {|
  XP_WIN := true; XP_MACOSX := false; ANDROID := false;
  MOZ_WIDGET_GTK := false; RELEASE_OR_BETA := true; kIsAndroid := false
|}.

Definition gtk : BuildConfig := {|
  XP_WIN := false; XP_MACOSX := false; ANDROID := false;
  MOZ_WIDGET_GTK := true; RELEASE_OR_BETA := true; kIsAndroid := false
|}.

End Sample.

Module Fixtures.
Import Sample.

#[local] Existing Instance status_numbers.
#[local] Existing Instance decls.

(** A default-constructed rule: no constraint; the feature is "optional
    features" (-2), the status STATUS_OK (1). *)
Definition fresh : GfxDriverInfo := {|
  mOperatingSystem := OS_Unknown;
  mOperatingSystemVersion := 0;
  mOperatingSystemVersionEx := 0;
  mOperatingSystemVersionExMax := 0;
  mOperatingSystemVersionExComparisonOp := DRIVER_COMPARISON_IGNORED;
  mRefreshRateStatus := RR_Any;
  mMinRefreshRate := 0;
  mMinRefreshRateMax := 0;
  mMinRefreshRateComparisonOp := DRIVER_COMPARISON_IGNORED;
  mMaxRefreshRate := 0;
  mMaxRefreshRateMax := 0;
  mMaxRefreshRateComparisonOp := DRIVER_COMPARISON_IGNORED;
  mBattery := Battery_All;
  mScreen := Screen_All;
  mWindowProtocol := "";
  mAdapterVendor := "";
  mDriverVendor := "";
  mDevices := None;
  mFeature := -2;
  mFeatureStatus := 1;
  mComparisonOp := DRIVER_COMPARISON_IGNORED;
  mDriverVersion := 0;
  mDriverVersionMax := 0;
  mSuggestedVersion := None;
  mModel := "";
  mHardware := "";
  mProduct := "";
  mManufacturer := "";
  mGpu2 := false;
  mRuleId := ""
|}.

(** What an adapter answers: (vendor id, device id, driver version), or
    nothing. *)
Definition answer (adapter : option (string * string * string))
  (field : string * string * string -> string) : nsresult * string :=
  match adapter with
  | Some a => (NS_OK, field a)
  | None => (NS_ERROR_FAILURE, "")
  end.

(** A machine with one 1920x1080 screen at 60 Hz. *)
Definition a_machine (process : ProcessType) (os : OperatingSystem)
  (primary secondary : option (string * string * string)) : GfxInfo := {|
  XRE_ProcessType := process;
  gfx_blocklist_all_AtStartup := 0;
  GetApplicationVersion := "128";
  GetWindowProtocol := (NS_ERROR_NOT_IMPLEMENTED, "");
  GetHasBattery := (NS_OK, false);
  OperatingSystemVersion := 0;
  OperatingSystemVersionEx := 0;
  GetOperatingSystem := os;
  GetAdapterVendorID := answer primary (fun a => fst (fst a));
  GetAdapterDeviceID := answer primary (fun a => snd (fst a));
  GetAdapterDriverVendor := answer primary (fun _ => "");
  GetAdapterDriverVersion := answer primary snd;
  GetAdapterVendorID2 := answer secondary (fun a => fst (fst a));
  GetAdapterDeviceID2 := answer secondary (fun a => snd (fst a));
  GetAdapterDriverVendor2 := answer secondary (fun _ => "");
  GetAdapterDriverVersion2 := answer secondary snd;
  Hardware := "";
  Model := "";
  Product := "";
  Manufacturer := "";
  GetGfxDriverInfo := [];
  GetTotalScreenPixels := 2073600;
  CurrentScreenList := [60]
|}.

Definition intel : string * string * string :=
  ("0x8086", "0x2582", "8.52.322.2200").
Definition nv310m : string * string * string :=
  ("0x10DE", "0x0a70", "8.17.12.5896").

(** Windows 10, one Intel adapter, the authoritative process. *)
Definition machine : GfxInfo :=
  a_machine ParentProcess OS_Windows10 (Some intel) None.

(** The same with an NVidia 310M as secondary adapter. *)
Definition machine_nv310m : GfxInfo :=
  a_machine ParentProcess OS_Windows10 (Some intel) (Some nv310m).

(** The first machine seen from a content process. *)
Definition machine_content : GfxInfo :=
  a_machine ContentProcess OS_Windows10 (Some intel) None.

(** A machine whose adapters do not answer. *)
Definition machine_no_adapter : GfxInfo :=
  a_machine ParentProcess OS_Windows10 None None.

(** The Intel machine under Linux ([OtherOS 0] in the table of
    [Sample.decls]). *)
Definition machine_linux : GfxInfo :=
  a_machine ParentProcess (OtherOS 0) (Some intel) None.

(** A state with the given preferences and snapshot, before any
    resolution. *)
Definition a_state (p : gmap string PrefValue)
  (snapshot : option (list GfxInfoFeatureStatus)) : State := {|
  prefs := p;
  sFeatureStatus := snapshot;
  sShutdownOccurred := false;
  mScreenPixels := INT64_MAX;
  mScreenCount := 0;
  mMinRefreshRate_sys := 0;
  mMaxRefreshRate_sys := 0
|}.

Definition initial : State := a_state ∅ None.

(** The state once the display members are initialised. *)
Definition ready : State := GetData machine initial.

(** The override (status, FEATURE_FAILURE_X) stored for DIRECT2D. *)
Definition override (status : Z) : gmap string PrefValue :=
  <["gfx.blacklist.direct2d" := PrefInt status]>
    (<["gfx.blacklist.direct2d.failureid" := PrefString "FEATURE_FAILURE_X"]>
       ∅).

(** DENIED (8) is stored for DIRECT2D (1) and the snapshot says
    STATUS_OK (1) for it. *)
Definition denied_stored : State :=
  a_state (override 8)
    (Some [ {| fs_feature := 1; fs_status := 1; fs_failureId := "" |} ]).

(** BLOCKED_DEVICE (4) is stored for DIRECT2D. *)
Definition blocked_stored : State := a_state (override 4) None.

(** The locals of a scan on [machine] in the state [ready]. *)
Definition locals : ScanLocals := {|
  windowProtocol := "";
  refreshRateStatus := RR_Single;
  hasBattery := false;
  osVersion := 0;
  osVersionEx := 0;
  adapterVendorID := fun i => if i then "" else "0x8086";
  adapterDeviceID := fun i => if i then "" else "0x2582";
  adapterDriverVendor := fun i => if i then "" else "";
  adapterInfoFailed := fun i => if i then true else false;
  driverVersion := fun i => if i then 0 else 2252023173089432
|}.

(** A rule for the system [os] and the feature DIRECT2D. *)
Definition rule (os : OperatingSystem) (status : Z) : GfxDriverInfo :=
  set_mRuleId
    (set_mFeatureStatus (set_mFeature (set_mOperatingSystem fresh os) 1) status)
    "FEATURE_FAILURE_RULE".

(** Blocks the device: BLOCKED_DEVICE is 4. *)
Definition rule_blocked_device : GfxDriverInfo := rule OS_Windows10 4.

(** The same rule restricted to the numeric device ids 9000 to 9999: the
    lookup of an id that is not a number fails. *)
Definition rule_device_range : GfxDriverInfo :=
  set_mDevices rule_blocked_device
    (Some {| ids := []; range := Some (9000, 9999) |}).

(** An allow rule: ALLOW_ALWAYS is 9. *)
Definition rule_allow : GfxDriverInfo := rule OS_Windows10 9.

(** The bound 0.0.1.0 under BUILD_ID_LESS_THAN. *)
Definition rule_build_id : GfxDriverInfo :=
  set_mComparisonOp (set_mDriverVersion rule_blocked_device 65536)
    DRIVER_BUILD_ID_LESS_THAN.

(** The rule [r] with the explicit suggested version [v]. *)
Definition suggesting (r : GfxDriverInfo) (v : string) : GfxDriverInfo := {|
  mOperatingSystem := mOperatingSystem r;
  mOperatingSystemVersion := mOperatingSystemVersion r;
  mOperatingSystemVersionEx := mOperatingSystemVersionEx r;
  mOperatingSystemVersionExMax := mOperatingSystemVersionExMax r;
  mOperatingSystemVersionExComparisonOp :=
    mOperatingSystemVersionExComparisonOp r;
  mRefreshRateStatus := mRefreshRateStatus r;
  mMinRefreshRate := mMinRefreshRate r;
  mMinRefreshRateMax := mMinRefreshRateMax r;
  mMinRefreshRateComparisonOp := mMinRefreshRateComparisonOp r;
  mMaxRefreshRate := mMaxRefreshRate r;
  mMaxRefreshRateMax := mMaxRefreshRateMax r;
  mMaxRefreshRateComparisonOp := mMaxRefreshRateComparisonOp r;
  mBattery := mBattery r;
  mScreen := mScreen r;
  mWindowProtocol := mWindowProtocol r;
  mAdapterVendor := mAdapterVendor r;
  mDriverVendor := mDriverVendor r;
  mDevices := mDevices r;
  mFeature := mFeature r;
  mFeatureStatus := mFeatureStatus r;
  mComparisonOp := mComparisonOp r;
  mDriverVersion := mDriverVersion r;
  mDriverVersionMax := mDriverVersionMax r;
  mSuggestedVersion := Some v;
  mModel := mModel r;
  mHardware := mHardware r;
  mProduct := mProduct r;
  mManufacturer := mManufacturer r;
  mGpu2 := mGpu2 r;
  mRuleId := mRuleId r
|}.

(** Status BLOCKED_DRIVER_VERSION (3) for every driver version under
    Linux, with an explicit suggested version. *)
Definition rule_suggesting : GfxDriverInfo :=
  suggesting (rule (OtherOS 0) 3) "257.21".

(** Status BLOCKED_DRIVER_VERSION below 8.52.322.2202, without an
    explicit suggested version. *)
Definition rule_less_than : GfxDriverInfo :=
  set_mComparisonOp (set_mDriverVersion (rule OS_Windows10 3) 2252023173089434)
    DRIVER_LESS_THAN.

Definition tab : string := String (ascii_of_nat 9) "".

(** A downloaded record with a comparator name of no table entry. *)
Definition record_odd_comparator : string :=
  "os:WINNT 10.0" ++ tab ++ "feature:DIRECT2D" ++ tab ++
  "featureStatus:BLOCKED_DEVICE" ++ tab ++ "driverVersion:1.0.0.0" ++ tab ++
  "driverVersionComparator:OLDER_THAN".

(** A downloaded record with a status name of no table entry. *)
Definition record_odd_status : string :=
  "os:WINNT 10.0" ++ tab ++ "feature:DIRECT2D" ++ tab ++
  "featureStatus:BLOCKED_SOMEHOW".

(** The rule [rule_blocked_device] restricted to the device id of the
    Intel adapter. *)
Definition rule_device_listed : GfxDriverInfo :=
  set_mDevices rule_blocked_device
    (Some {| ids := ["0x2582"]; range := None |}).

(** The same rule for all features (-1). *)
Definition rule_all_features : GfxDriverInfo :=
  set_mFeature rule_blocked_device (-1).

(** The same rule for all driver versions. *)
Definition rule_all_versions : GfxDriverInfo :=
  set_mDriverVersion rule_blocked_device 18446744073709551615.

(** The same rule with a build-id comparator on the minimum refresh
    rate. *)
Definition rule_refresh_build_id : GfxDriverInfo :=
  set_mMinRefreshRateComparisonOp rule_blocked_device
    DRIVER_BUILD_ID_LESS_THAN.

(** The locals of a scan with other driver versions. *)
Definition locals_other_versions : ScanLocals := {|
  windowProtocol := windowProtocol locals;
  refreshRateStatus := refreshRateStatus locals;
  hasBattery := hasBattery locals;
  osVersion := osVersion locals;
  osVersionEx := osVersionEx locals;
  adapterVendorID := adapterVendorID locals;
  adapterDeviceID := adapterDeviceID locals;
  adapterDriverVendor := adapterDriverVendor locals;
  adapterInfoFailed := adapterInfoFailed locals;
  driverVersion := fun _ => 7
|}.

(** [machine] once its screens have changed: two screens of 3840x1080
    pixels each, at 144 and 60 Hz. *)
Definition machine_other_screens : GfxInfo := {|
  XRE_ProcessType := XRE_ProcessType machine;
  gfx_blocklist_all_AtStartup := gfx_blocklist_all_AtStartup machine;
  GetApplicationVersion := GetApplicationVersion machine;
  GetWindowProtocol := GetWindowProtocol machine;
  GetHasBattery := GetHasBattery machine;
  OperatingSystemVersion := OperatingSystemVersion machine;
  OperatingSystemVersionEx := OperatingSystemVersionEx machine;
  GetOperatingSystem := GetOperatingSystem machine;
  GetAdapterVendorID := GetAdapterVendorID machine;
  GetAdapterDeviceID := GetAdapterDeviceID machine;
  GetAdapterDriverVendor := GetAdapterDriverVendor machine;
  GetAdapterDriverVersion := GetAdapterDriverVersion machine;
  GetAdapterVendorID2 := GetAdapterVendorID2 machine;
  GetAdapterDeviceID2 := GetAdapterDeviceID2 machine;
  GetAdapterDriverVendor2 := GetAdapterDriverVendor2 machine;
  GetAdapterDriverVersion2 := GetAdapterDriverVersion2 machine;
  Hardware := Hardware machine;
  Model := Model machine;
  Product := Product machine;
  Manufacturer := Manufacturer machine;
  GetGfxDriverInfo := GetGfxDriverInfo machine;
  GetTotalScreenPixels := 8294400;
  CurrentScreenList := [144; 60]
|}.

(** [blocked_stored] after shutdown. *)
Definition shut_down : State := ShutdownObserver_Observe blocked_stored.

(** [blocked_stored] with a preference of another component. *)
Definition with_unrelated : State :=
  a_state (<["unrelated.pref" := PrefInt 7]> (override 4)) None.

(** The value of [nsIGfxInfo::FEATURE_STATUS_INVALID] in the sample. *)
Definition status_invalid : Z := 12.

(** The snapshot the parent builds on [machine] from [blocked_stored]:
    the stored override for DIRECT2D, DENIED (8) for the allowlist
    governed feature, STATUS_OK (1) for the others. *)
Definition snapshot : list GfxInfoFeatureStatus :=
  [ {| fs_feature := 1; fs_status := 4; fs_failureId := "FEATURE_FAILURE_X" |};
    {| fs_feature := 2; fs_status := 8; fs_failureId := "" |};
    {| fs_feature := 3; fs_status := 1; fs_failureId := "" |};
    {| fs_feature := 4; fs_status := 1; fs_failureId := "" |};
    {| fs_feature := 5; fs_status := 1; fs_failureId := "" |};
    {| fs_feature := 6; fs_status := 1; fs_failureId := "" |};
    {| fs_feature := 7; fs_status := 1; fs_failureId := "" |} ].

(** [record_odd_status] with its first two pairs exchanged. *)
Definition record_swapped : string :=
  "feature:DIRECT2D" ++ tab ++ "os:WINNT 10.0" ++ tab ++
  "featureStatus:BLOCKED_SOMEHOW".

(** A record for a feature the table does not hold. *)
Definition record_unknown_feature : string :=
  "feature:TELEPORT" ++ tab ++ "featureStatus:BLOCKED_DEVICE".

(** [strtol] in base 10 on the strings of the examples. *)
Definition strtol (s : string) : Z := decimal_prefix s 0.



End Fixtures.

(** * Properties *)

Section Properties.
Context {I : nsIGfxInfo} {D : GfxDriverInfoDecls} {B : BuildConfig}.

(** ** Auxiliary facts *)

Lemma land_low16 (v : Z) : Z.land v 0xFFFF = v mod 2 ^ 16.
Proof. change 0xFFFF with (Z.ones 16). apply Z.land_ones. lia. Qed.

Lemma BlocklistComparatorToComparisonOp_unknown (op : string) :
  table_find GFXINFO_DRIVER_VERSION_CMP op = None ->
  BlocklistComparatorToComparisonOp op = DRIVER_COMPARISON_IGNORED.
Proof. intros H. unfold BlocklistComparatorToComparisonOp. now rewrite H. Qed.

Lemma BlocklistFeatureStatusToGfxFeatureStatus_unknown (aStatus : string) :
  table_find GFXINFO_FEATURE_STATUS aStatus = None ->
  BlocklistFeatureStatusToGfxFeatureStatus aStatus = FEATURE_STATUS_OK.
Proof.
  intros H. unfold BlocklistFeatureStatusToGfxFeatureStatus. now rewrite H.
Qed.

(** ** C7: an empty batch *)

(** C7. Applying an empty downloaded batch leaves the state as it is:
    every per-feature override reads as before and so does the
    suggested-version slot; nothing is cleared or written. *)
Theorem C7_empty_batch_changes_nothing (g : GfxInfo) (st : State) :
  EvaluateDownloadedBlocklist g st [] = st /\
  (forall aFeature aValue aFailureId,
     GetPrefValueForFeature (prefs (EvaluateDownloadedBlocklist g st []))
       aFeature aValue aFailureId =
     GetPrefValueForFeature (prefs st) aFeature aValue aFailureId) /\
  GetPrefValueForDriverVersion (prefs (EvaluateDownloadedBlocklist g st [])) =
  GetPrefValueForDriverVersion (prefs st).
Proof.
  assert (E : EvaluateDownloadedBlocklist g st [] = st) by reflexivity.
  rewrite E. repeat split.
Qed.

(** ** C6: the build-id comparators *)

(** C6, as the code has it. Where the platform has driver versions, the
    predicate of a rule with comparator BUILD_ID_LESS_THAN (respectively
    BUILD_ID_LESS_THAN_OR_EQUAL) holds exactly when the low 16 bits of
    the system version are less than (respectively at most) the bound of
    the rule, taken whole. For a bound below 2^16 this is the comparison
    of the low 16 bits of both sides. *)
Theorem C6_build_id_masks_the_system_side (r : GfxDriverInfo) (v : Z) :
  XP_WIN || ANDROID || MOZ_WIDGET_GTK = true ->
  (mComparisonOp r = DRIVER_BUILD_ID_LESS_THAN ->
   DriverVersionMatch r v = (v mod 2 ^ 16 <? mDriverVersion r)) /\
  (mComparisonOp r = DRIVER_BUILD_ID_LESS_THAN_OR_EQUAL ->
   DriverVersionMatch r v = (v mod 2 ^ 16 <=? mDriverVersion r)) /\
  (0 <= mDriverVersion r < 2 ^ 16 ->
   (mComparisonOp r = DRIVER_BUILD_ID_LESS_THAN ->
    DriverVersionMatch r v = (v mod 2 ^ 16 <? mDriverVersion r mod 2 ^ 16)) /\
   (mComparisonOp r = DRIVER_BUILD_ID_LESS_THAN_OR_EQUAL ->
    DriverVersionMatch r v = (v mod 2 ^ 16 <=? mDriverVersion r mod 2 ^ 16))).
Proof.
  intros P. unfold DriverVersionMatch. rewrite P.
  split; [| split].
  - intros ->. cbn. now rewrite land_low16.
  - intros ->. cbn. now rewrite land_low16.
  - intros Hb. rewrite (Z.mod_small (mDriverVersion r)) by exact Hb.
    split; intros ->; cbn; now rewrite land_low16.
Qed.

(** ** C2: an unrecognized comparator token *)

(** C2, as the code has it. A comparator token that is no name of the
    comparator table is read as DRIVER_COMPARISON_IGNORED; the parser
    accepts the pair under each of the four comparator keys and stores
    that value, and the comparison it governs then holds for every
    system value: the driver-version predicate of the rule and the
    refresh-rate comparison are both true. *)
Theorem C2_unrecognized_comparator_is_ignored (op : string) :
  table_find GFXINFO_DRIVER_VERSION_CMP op = None ->
  BlocklistComparatorToComparisonOp op = DRIVER_COMPARISON_IGNORED /\
  (forall appV di,
     ParseKey appV "driverVersionComparator" op di =
     (true, set_mComparisonOp di DRIVER_COMPARISON_IGNORED) /\
     ParseKey appV "minRefreshRateComparator" op di =
     (true, set_mMinRefreshRateComparisonOp di DRIVER_COMPARISON_IGNORED) /\
     ParseKey appV "maxRefreshRateComparator" op di =
     (true, set_mMaxRefreshRateComparisonOp di DRIVER_COMPARISON_IGNORED) /\
     ParseKey appV "osVersionExComparator" op di =
     (true, set_mOperatingSystemVersionExComparisonOp di
              DRIVER_COMPARISON_IGNORED)) /\
  (forall r v,
     mComparisonOp r = BlocklistComparatorToComparisonOp op ->
     DriverVersionMatch r v = true) /\
  (forall aSystem aBlocked aBlockedMax,
     MatchingRefreshRates aSystem aBlocked aBlockedMax
       (BlocklistComparatorToComparisonOp op) = true).
Proof.
  intros H. pose proof (BlocklistComparatorToComparisonOp_unknown op H) as E.
  rewrite E. split; [reflexivity |]. split; [| split].
  - intros appV di. unfold ParseKey. cbn. now rewrite E.
  - intros r v Hr. unfold DriverVersionMatch. rewrite Hr.
    now destruct (XP_WIN || ANDROID || MOZ_WIDGET_GTK).
  - reflexivity.
Qed.

(** ** C8: no adapter attributes *)

(** C8. When one of the vendor id, device id and driver version of the
    primary adapter cannot be obtained, resolution of a valid feature
    ends with NS_OK and BLOCKED_DEVICE under the failure id
    FEATURE_FAILURE_CANT_RESOLVE_ADAPTER if the feature is only allowed
    on a known configuration, and with NS_OK and STATUS_OK otherwise. *)
Theorem C8_adapter_unavailable (g : GfxInfo) (st : State) (aFeature : Z)
  (aSuggestedVersion : string) (aDriverInfo : list GfxDriverInfo)
  (aFailureId : string) (aOS : option OperatingSystem) :
  0 < aFeature ->
  sShutdownOccurred st = false ->
  NS_FAILED (fst (GetAdapterVendorID g)) ||
  NS_FAILED (fst (GetAdapterDeviceID g)) ||
  NS_FAILED (fst (GetAdapterDriverVersion g)) = true ->
  fst (GetFeatureStatusImpl g st aFeature FEATURE_STATUS_UNKNOWN
         aSuggestedVersion aDriverInfo aFailureId aOS) =
  if OnlyAllowFeatureOnKnownConfig aFeature
  then (NS_OK, FEATURE_BLOCKED_DEVICE, aSuggestedVersion,
        "FEATURE_FAILURE_CANT_RESOLVE_ADAPTER")
  else (NS_OK, FEATURE_STATUS_OK, aSuggestedVersion, aFailureId).
Proof.
  intros Hf Hs Ha. unfold GetFeatureStatusImpl.
  replace (aFeature <=? 0) with false by (symmetry; apply Z.leb_gt; lia).
  rewrite Z.eqb_refl, Hs. cbn [negb].
  rewrite Ha. now destruct (OnlyAllowFeatureOnKnownConfig aFeature).
Qed.

(** ** C4: the outcome UNKNOWN of the block-mode scan *)

(** C4. When resolution reaches the scans (valid feature, status still
    UNKNOWN, no shutdown, adapter attributes obtained) and the
    block-mode scan over the selected list (the given list if it has
    elements, else the static list) yields UNKNOWN: for an
    allowlist-governed feature the same list is scanned in allow mode
    and a further UNKNOWN becomes DENIED, any other outcome being kept;
    for any other feature the result is STATUS_OK. *)
Theorem C4_unknown_after_block_scan (g : GfxInfo) (st : State) (aFeature : Z)
  (aSuggestedVersion : string) (aDriverInfo : list GfxDriverInfo)
  (aFailureId : string) (aOS : option OperatingSystem)
  (version1 failureId1 : string) :
  0 < aFeature ->
  sShutdownOccurred st = false ->
  NS_FAILED (fst (GetAdapterVendorID g)) ||
  NS_FAILED (fst (GetAdapterDeviceID g)) ||
  NS_FAILED (fst (GetAdapterDriverVersion g)) = false ->
  FindBlocklistedDeviceInList g (GetData g st)
    (match aDriverInfo with [] => GetGfxDriverInfo g | _ => aDriverInfo end)
    aSuggestedVersion aFeature aFailureId
    (match aOS with Some o => o | None => OS_Unknown end) false =
  (FEATURE_STATUS_UNKNOWN, version1, failureId1) ->
  fst (GetFeatureStatusImpl g st aFeature FEATURE_STATUS_UNKNOWN
         aSuggestedVersion aDriverInfo aFailureId aOS) =
  if IsFeatureAllowlisted aFeature then
    let '(status, version2, failureId2) :=
      FindBlocklistedDeviceInList g (GetData g st)
        (match aDriverInfo with [] => GetGfxDriverInfo g | _ => aDriverInfo end)
        version1 aFeature failureId1
        (match aOS with Some o => o | None => OS_Unknown end) true in
    (NS_OK,
     if status =? FEATURE_STATUS_UNKNOWN then FEATURE_DENIED else status,
     version2, failureId2)
  else (NS_OK, FEATURE_STATUS_OK, version1, failureId1).
Proof.
  intros Hf Hs Ha Hscan. unfold GetFeatureStatusImpl.
  replace (aFeature <=? 0) with false by (symmetry; apply Z.leb_gt; lia).
  rewrite Z.eqb_refl, Hs. cbn [negb]. rewrite Ha.
  assert (Hsel : forall v f m,
    FindInGivenOrStatic g (GetData g st) aDriverInfo v aFeature f
      (match aOS with Some o => o | None => OS_Unknown end) m =
    FindBlocklistedDeviceInList g (GetData g st)
      (match aDriverInfo with [] => GetGfxDriverInfo g | _ => aDriverInfo end)
      v aFeature f (match aOS with Some o => o | None => OS_Unknown end) m).
  { intros v f m. unfold FindInGivenOrStatic. now destruct aDriverInfo. }
  rewrite !Hsel, Hscan. rewrite Z.eqb_refl.
  destruct (IsFeatureAllowlisted aFeature); [| reflexivity].
  rewrite Hsel.
  destruct (FindBlocklistedDeviceInList _ _ _ version1 _ failureId1 _ true)
    as [[status version2] failureId2].
  now destruct (status =? FEATURE_STATUS_UNKNOWN).
Qed.

(** ** C5: a stored override *)

(** C5, as the code has it. With the force-all switch off, a feature
    whose status preference holds an integer other than DENIED resolves
    to that integer and to the stored failure id (to
    FEATURE_FAILURE_BLOCKLIST_PREF when none is stored), with NS_OK and
    an unchanged state, whatever [GetFeatureStatusImpl] would compute.
    A stored DENIED is no override: a content or GPU process answers
    from the snapshot, and any other process calls
    [GetFeatureStatusImpl] with the status DENIED and the failure id of
    the caller; the [GetFeatureStatusImpl] of this file then returns
    DENIED with the caller's failure id, not the stored one. *)
Theorem C5_stored_override_is_returned
  (impl : GfxInfo -> State -> Z -> Z -> string -> list GfxDriverInfo ->
          string -> option OperatingSystem ->
          (nsresult * Z * string * string) * State)
  (g : GfxInfo) (st : State) (aFeature : Z) (aFailureId : string) (aStatus : Z)
  (prefname : string) (v : Z) :
  (if RELEASE_OR_BETA then 0 else gfx_blocklist_all_AtStartup g) = 0 ->
  GetPrefNameForFeature aFeature = Some prefname ->
  prefs st !! prefname = Some (PrefInt v) ->
  ((v =? FEATURE_DENIED) = false ->
   GetFeatureStatus impl g st aFeature aFailureId aStatus =
   Some ((NS_OK, v,
          match prefs st !! (prefname ++ ".failureid") with
          | Some (PrefString failureValue) => failureValue
          | _ => "FEATURE_FAILURE_BLOCKLIST_PREF"
          end), st)) /\
  (v = FEATURE_DENIED ->
   GetFeatureStatus impl g st aFeature aFailureId aStatus =
   if XRE_IsContentProcess g || XRE_IsGPUProcess g then
     match sFeatureStatus st with
     | None => None
     | Some features =>
         match List.find (fun fs => fs_feature fs =? aFeature) features with
         | Some fs => Some ((NS_OK, fs_status fs, fs_failureId fs), st)
         | None => Some ((NS_ERROR_FAILURE, FEATURE_DENIED, aFailureId), st)
         end
     end
   else
     let '((rv, status, _, failureId), st') :=
       impl g st aFeature FEATURE_DENIED "" [] aFailureId None in
     Some ((rv, status, failureId), st')) /\
  (v = FEATURE_DENIED ->
   FEATURE_DENIED <> FEATURE_STATUS_UNKNOWN ->
   XRE_IsContentProcess g || XRE_IsGPUProcess g = false ->
   GetFeatureStatus GetFeatureStatusImpl g st aFeature aFailureId aStatus =
   Some ((NS_OK, FEATURE_DENIED, aFailureId), st)).
Proof.
  intros Hall Hname Hv.
  assert (Hdenied : v = FEATURE_DENIED ->
    forall impl',
    GetFeatureStatus impl' g st aFeature aFailureId aStatus =
    if XRE_IsContentProcess g || XRE_IsGPUProcess g then
      match sFeatureStatus st with
      | None => None
      | Some features =>
          match List.find (fun fs => fs_feature fs =? aFeature) features with
          | Some fs => Some ((NS_OK, fs_status fs, fs_failureId fs), st)
          | None => Some ((NS_ERROR_FAILURE, FEATURE_DENIED, aFailureId), st)
          end
      end
    else
      let '((rv, status, _, failureId), st') :=
        impl' g st aFeature FEATURE_DENIED "" [] aFailureId None in
      Some ((rv, status, failureId), st')).
  { intros -> impl'. unfold GetFeatureStatus. rewrite Hall. cbn.
    unfold GetPrefValueForFeature, Preferences_GetInt.
    now rewrite Hname, Hv, Z.eqb_refl. }
  split; [| split].
  - intros Hd. unfold GetFeatureStatus. rewrite Hall. cbn.
    unfold GetPrefValueForFeature, Preferences_GetInt, Preferences_GetCString.
    rewrite Hname, Hv, Hd.
    destruct (prefs st !! (prefname ++ ".failureid")) as [[?|?]|]; reflexivity.
  - intros Hd. now apply Hdenied.
  - intros Hd Hne Hproc. rewrite (Hdenied Hd GetFeatureStatusImpl), Hproc.
    unfold GetFeatureStatusImpl.
    assert (E : (FEATURE_DENIED =? FEATURE_STATUS_UNKNOWN) = false)
      by now apply Z.eqb_neq.
    rewrite E. cbn [negb]. now destruct (aFeature <=? 0).
Qed.

(** ** The loop *)

Lemma ScanLoop_skips (g : GfxInfo) (st : State) (L : ScanLocals)
  (aFeature : Z) (os : OperatingSystem) (aForAllowing : bool)
  (info : list GfxDriverInfo) (i : nat) :
  Forall (fun r => RuleBody g st L aFeature os aForAllowing r = RuleContinue)
    info ->
  ScanLoop g st L aFeature os aForAllowing info i =
  ((i + length info)%nat, RuleContinue).
Proof.
  intros H. revert i. induction H as [| r rest Hr _ IH]; intros i; cbn.
  - now rewrite Nat.add_0_r.
  - rewrite Hr, IH. f_equal. lia.
Qed.

(** Where the loop is left with a status, the rule at the exit index set
    it: its status is the rule's and so is its failure id. *)
Lemma ScanLoop_win (g : GfxInfo) (st : State) (L : ScanLocals)
  (aFeature : Z) (os : OperatingSystem) (aForAllowing : bool)
  (info : list GfxDriverInfo) (i0 i : nat) (status : Z) (failureId : string) :
  ScanLoop g st L aFeature os aForAllowing info i0 =
  (i, RuleWin status failureId) ->
  exists r, info !! (i - i0)%nat = Some r /\ (i0 <= i)%nat /\
    RuleBody g st L aFeature os aForAllowing r = RuleWin status failureId.
Proof.
  revert i0. induction info as [| r rest IH]; intros i0 H; cbn in H.
  - discriminate.
  - destruct (RuleBody g st L aFeature os aForAllowing r) eqn:E.
    + apply IH in H as (r' & Hr' & Hle & Hb).
      exists r'. split; [| split; [lia | exact Hb]].
      replace (i - i0)%nat with (S (i - S i0)) by lia. exact Hr'.
    + discriminate.
    + injection H as <- <- <-. exists r. rewrite Nat.sub_diag.
      split; [reflexivity | split; [lia | exact E]].
Qed.

Lemma RuleTail_win (g : GfxInfo) (L : ScanLocals) (aFeature : Z)
  (r : GfxDriverInfo) (status : Z) (failureId : string) :
  RuleTail g L aFeature r = RuleWin status failureId ->
  status = mFeatureStatus r /\
  failureId = (if negb (IsEmpty (mRuleId r)) then mRuleId r
               else "FEATURE_FAILURE_DL_BLOCKLIST_NO_ID").
Proof.
  unfold RuleTail. intros H.
  repeat match type of H with
         | (if ?c then _ else _) = _ => destruct c; try discriminate
         end.
  injection H as <- <-. split; reflexivity.
Qed.

Lemma RuleBody_win (g : GfxInfo) (st : State) (L : ScanLocals)
  (aFeature : Z) (os : OperatingSystem) (aForAllowing : bool)
  (r : GfxDriverInfo) (status : Z) (failureId : string) :
  RuleBody g st L aFeature os aForAllowing r = RuleWin status failureId ->
  MatchingAllowStatus (mFeatureStatus r) = aForAllowing /\
  status = mFeatureStatus r /\
  failureId = (if negb (IsEmpty (mRuleId r)) then mRuleId r
               else "FEATURE_FAILURE_DL_BLOCKLIST_NO_ID").
Proof.
  unfold RuleBody. intros H.
  destruct (RuleHead g st L os aForAllowing r) eqn:Hh; [| discriminate].
  cbn [negb] in H. split.
  - unfold RuleHead in Hh. rewrite !andb_true_iff in Hh.
    apply eqb_prop. tauto.
  - destruct (DeviceLookup r _) as [[| | | | |]|];
      try discriminate; try (destruct aForAllowing; discriminate);
      now apply RuleTail_win in H.
Qed.

(** A device lookup that fails for a reason other than "not found", at
    a rule that passes the earlier tests: in allow mode the loop goes on
    to the next rule; in block mode the loop is left at this rule
    without any status being assigned. *)
Lemma RuleBody_lookup_failure (g : GfxInfo) (st : State) (L : ScanLocals)
  (aFeature : Z) (os : OperatingSystem) (aForAllowing : bool)
  (r : GfxDriverInfo) (rv : nsresult) :
  RuleHead g st L os aForAllowing r = true ->
  DeviceLookup r (adapterDeviceID L (mGpu2 r)) = Some rv ->
  rv <> NS_OK -> rv <> NS_ERROR_NOT_AVAILABLE ->
  RuleBody g st L aFeature os aForAllowing r =
  if aForAllowing then RuleContinue else RuleBreak.
Proof.
  intros Hh Hl H1 H2. unfold RuleBody. rewrite Hh, Hl. cbn [negb].
  destruct rv; congruence.
Qed.

(** ** C9: allow-family rules in a block-mode scan *)

Lemma RuleBody_other_family (g : GfxInfo) (st : State) (L : ScanLocals)
  (aFeature : Z) (os : OperatingSystem) (aForAllowing : bool)
  (r : GfxDriverInfo) :
  MatchingAllowStatus (mFeatureStatus r) = negb aForAllowing ->
  RuleBody g st L aFeature os aForAllowing r = RuleContinue.
Proof.
  intros H. unfold RuleBody, RuleHead. rewrite H.
  now destruct aForAllowing.
Qed.

(** C9, as the code has it. In a block-mode scan of a list whose every
    entry has an allow-family status no rule wins: the scan returns what
    the scan of the empty list returns. That is the literal 0 when the
    window protocol or the battery lookup fails or neither adapter
    answers; otherwise UNKNOWN with the failure id and the suggested
    version untouched, unless the build is for Windows and the special
    case of the NVidia 310M replaces the UNKNOWN. *)
Theorem C9_allow_rules_never_win_a_block_scan (g : GfxInfo) (st : State)
  (info : list GfxDriverInfo) (aSuggestedVersion : string) (aFeature : Z)
  (aFailureId : string) (os : OperatingSystem) :
  Forall (fun r => MatchingAllowStatus (mFeatureStatus r) = true) info ->
  FindBlocklistedDeviceInList g st info aSuggestedVersion aFeature aFailureId
    os false =
  FindBlocklistedDeviceInList g st [] aSuggestedVersion aFeature aFailureId
    os false /\
  (PreLoop g st = None ->
   FindBlocklistedDeviceInList g st info aSuggestedVersion aFeature aFailureId
     os false = (0, aSuggestedVersion, aFailureId)) /\
  (forall L, PreLoop g st = Some L ->
   XP_WIN = false \/
   NV310MBlock L aFeature (FEATURE_STATUS_UNKNOWN, aFailureId) =
   (FEATURE_STATUS_UNKNOWN, aFailureId) ->
   FindBlocklistedDeviceInList g st info aSuggestedVersion aFeature aFailureId
     os false = (FEATURE_STATUS_UNKNOWN, aSuggestedVersion, aFailureId)) /\
  (forall L, PreLoop g st = Some L ->
   FindBlocklistedDeviceInList g st info aSuggestedVersion aFeature aFailureId
     os false =
   (FEATURE_STATUS_UNKNOWN, aSuggestedVersion, aFailureId) \/
   XP_WIN = true /\ aFeature = FEATURE_DIRECT2D /\
   FindBlocklistedDeviceInList g st info aSuggestedVersion aFeature aFailureId
     os false =
   (FEATURE_BLOCKED_DEVICE, aSuggestedVersion,
    "FEATURE_FAILURE_D2D_NV310M_BLOCK")).
Proof.
  intros Hall.
  assert (Hloop : forall L,
    ScanLoop g st L aFeature os false info 0 = (length info, RuleContinue)).
  { intros L. apply (ScanLoop_skips g st L aFeature os false info 0).
    eapply Forall_impl; [exact Hall |]. intros r Hr.
    now apply RuleBody_other_family. }
  assert (Hpost : forall L sf,
    PostLoop L info aSuggestedVersion aFeature (length info) sf =
    if XP_WIN
    then (fst (NV310MBlock L aFeature sf), aSuggestedVersion,
          snd (NV310MBlock L aFeature sf))
    else (fst sf, aSuggestedVersion, snd sf)).
  { intros L sf. unfold PostLoop.
    rewrite (lookup_ge_None_2 info (length info)) by lia.
    destruct XP_WIN; [| reflexivity].
    now destruct (fst (NV310MBlock L aFeature sf) =? _). }
  assert (Hfind : forall L, PreLoop g st = Some L ->
    FindBlocklistedDeviceInList g st info aSuggestedVersion aFeature
      aFailureId os false =
    if XP_WIN
    then (fst (NV310MBlock L aFeature (FEATURE_STATUS_UNKNOWN, aFailureId)),
          aSuggestedVersion,
          snd (NV310MBlock L aFeature (FEATURE_STATUS_UNKNOWN, aFailureId)))
    else (FEATURE_STATUS_UNKNOWN, aSuggestedVersion, aFailureId)).
  { intros L HL. unfold FindBlocklistedDeviceInList.
    rewrite HL, Hloop. apply Hpost. }
  split; [| split; [| split]].
  - unfold FindBlocklistedDeviceInList at 2.
    destruct (PreLoop g st) as [L |] eqn:HL.
    + rewrite (Hfind L eq_refl). cbn [ScanLoop].
      unfold PostLoop. cbn.
      destruct XP_WIN; [| reflexivity].
      now destruct (fst (NV310MBlock L aFeature _) =? _).
    + unfold FindBlocklistedDeviceInList. now rewrite HL.
  - intros HL. unfold FindBlocklistedDeviceInList. now rewrite HL.
  - intros L HL Hno. rewrite (Hfind L HL).
    destruct XP_WIN; [| reflexivity].
    destruct Hno as [Hw | ->]; [discriminate | reflexivity].
  - intros L HL. rewrite (Hfind L HL).
    destruct XP_WIN; [| now left].
    unfold NV310MBlock. cbn [fst].
    destruct (_ && (aFeature =? FEATURE_DIRECT2D)) eqn:Hc; [| now left].
    apply andb_true_iff in Hc as [_ Hd]. apply Z.eqb_eq in Hd.
    destruct (negb (adapterInfoFailed L true)); [| now left].
    destruct (_ && _); [right | now left].
    repeat split. exact Hd.
Qed.

(** ** C3: the suggested version *)

Lemma field_of_packed (v mask : Z) (k : Z) :
  0 <= k -> mask = Z.shiftl (Z.ones 16) k ->
  Z.shiftr (Z.land v mask) k = (v / 2 ^ k) mod 2 ^ 16.
Proof.
  intros Hk ->. rewrite Z.shiftr_land, Z.shiftr_shiftl_l by lia.
  rewrite Z.sub_diag, Z.shiftl_0_r, Z.land_ones by lia.
  now rewrite Z.shiftr_div_pow2 by lia.
Qed.

(** The formatted text is the four 16-bit fields of the packed version,
    most significant first, in decimal, joined by dots. *)
Lemma FormatDriverVersion_fields (v : Z) :
  FormatDriverVersion v =
  fmt_lld ((v / 2 ^ 48) mod 2 ^ 16) ++ "." ++
  fmt_lld ((v / 2 ^ 32) mod 2 ^ 16) ++ "." ++
  fmt_lld ((v / 2 ^ 16) mod 2 ^ 16) ++ "." ++
  fmt_lld (v mod 2 ^ 16).
Proof.
  unfold FormatDriverVersion.
  rewrite (field_of_packed v _ 48), (field_of_packed v _ 32),
    (field_of_packed v _ 16) by (try lia; reflexivity).
  change 0x000000000000ffff with (Z.ones 16).
  now rewrite Z.land_ones by lia.
Qed.

(** C3, as the code has it. In a build for Windows, when the rule that
    wins the scan has status BLOCKED_DRIVER_VERSION, the text appended
    to the suggested version is: the explicit suggested version of the
    rule if it has one; else, exactly when the comparator of the rule is
    LESS_THAN and its bound is not the all-versions value, the four
    16-bit fields of the bound in decimal, joined by dots; else nothing
    (so nothing for LESS_THAN_OR_EQUAL). *)
Theorem C3_suggested_version_on_windows (g : GfxInfo) (st : State)
  (L : ScanLocals) (info : list GfxDriverInfo) (aSuggestedVersion : string)
  (aFeature : Z) (aFailureId : string) (os : OperatingSystem)
  (aForAllowing : bool) (i : nat) (failureId : string) :
  XP_WIN = true ->
  (FEATURE_STATUS_UNKNOWN =? FEATURE_BLOCKED_DRIVER_VERSION) = false ->
  PreLoop g st = Some L ->
  ScanLoop g st L aFeature os aForAllowing info 0 =
  (i, RuleWin FEATURE_BLOCKED_DRIVER_VERSION failureId) ->
  exists r version,
    info !! i = Some r /\
    mFeatureStatus r = FEATURE_BLOCKED_DRIVER_VERSION /\
    FindBlocklistedDeviceInList g st info aSuggestedVersion aFeature
      aFailureId os aForAllowing =
    (FEATURE_BLOCKED_DRIVER_VERSION, version, failureId) /\
    (forall v, mSuggestedVersion r = Some v ->
       version = aSuggestedVersion ++ v) /\
    (mSuggestedVersion r = None ->
     mComparisonOp r = DRIVER_LESS_THAN ->
     mDriverVersion r <> allDriverVersions ->
     version =
     aSuggestedVersion ++
     fmt_lld ((mDriverVersion r / 2 ^ 48) mod 2 ^ 16) ++ "." ++
     fmt_lld ((mDriverVersion r / 2 ^ 32) mod 2 ^ 16) ++ "." ++
     fmt_lld ((mDriverVersion r / 2 ^ 16) mod 2 ^ 16) ++ "." ++
     fmt_lld (mDriverVersion r mod 2 ^ 16)) /\
    (mSuggestedVersion r = None ->
     mComparisonOp r <> DRIVER_LESS_THAN \/
     mDriverVersion r = allDriverVersions ->
     version = aSuggestedVersion).
Proof.
  intros Hw Hne HL Hloop.
  destruct (ScanLoop_win _ _ _ _ _ _ _ _ _ _ _ Hloop) as (r & Hr & _ & Hb).
  rewrite Nat.sub_0_r in Hr.
  apply RuleBody_win in Hb as (_ & Hs & _).
  exists r, (AppendSuggestedVersion r aSuggestedVersion).
  split; [exact Hr |]. split; [now symmetry |]. split.
  - unfold FindBlocklistedDeviceInList. rewrite HL, Hloop.
    unfold PostLoop. rewrite Hw. unfold NV310MBlock. cbn [fst snd].
    rewrite Z.eqb_sym, Hne. cbn [andb fst snd].
    now rewrite Z.eqb_refl, Hr.
  - unfold AppendSuggestedVersion. split; [| split].
    + now intros v ->.
    + intros -> -> Hv. rewrite bool_decide_eq_true_2 by reflexivity.
      apply Z.eqb_neq in Hv. rewrite Hv. cbn [negb andb].
      now rewrite FormatDriverVersion_fields.
    + intros -> [Hop | Hv].
      * now rewrite bool_decide_eq_false_2 by exact Hop.
      * apply Z.eqb_eq in Hv. rewrite Hv. now rewrite andb_false_r.
Qed.

(** ** The parser *)

Ltac parse_key_cases :=
  unfold ParseKey;
  repeat match goal with
         | |- context [if Equals ?k ?lit then _ else _] =>
             destruct (Equals k lit) eqn:?; cbv iota; [try reflexivity |]
         end.

(** Whether a pair is accepted does not depend on the rule built so
    far. *)
Lemma ParseKey_accepts_indep (appV key value : string) (di1 di2 : GfxDriverInfo) :
  fst (ParseKey appV key value di1) = fst (ParseKey appV key value di2).
Proof.
  parse_key_cases; try reflexivity.
  - cbn. now destruct (_ =? FEATURE_INVALID).
  - now destruct (ParseDriverVersion value).
  - now destruct (ParseDriverVersion value).
Qed.

Lemma ParseKeyValue_accepts_indep (appV keyValue : string)
  (di1 di2 : GfxDriverInfo) :
  fst (ParseKeyValue appV keyValue di1) = fst (ParseKeyValue appV keyValue di2).
Proof.
  unfold ParseKeyValue.
  destruct (ParseString keyValue ":") as [| key [| value [| ? ?]]];
    [reflexivity | reflexivity | | reflexivity].
  destruct (String.length value =? 0)%nat; [reflexivity |].
  apply ParseKey_accepts_indep.
Qed.

(** Only the key [featureStatus] assigns the status of the rule. *)
Lemma ParseKey_keeps_status (appV key value : string) (di : GfxDriverInfo) :
  Equals key "featureStatus" = false ->
  mFeatureStatus (snd (ParseKey appV key value di)) = mFeatureStatus di.
Proof.
  intros Hk. parse_key_cases; try reflexivity; try congruence.
  - cbn. now destruct (_ =? FEATURE_INVALID).
  - destruct (ParseDriverVersion value) as [[|] ?]; reflexivity.
  - destruct (ParseDriverVersion value) as [[|] ?]; reflexivity.
Qed.

Lemma ParseKeyValue_keeps_status (appV keyValue : string) (di : GfxDriverInfo) :
  KeyOf keyValue <> Some "featureStatus" ->
  mFeatureStatus (snd (ParseKeyValue appV keyValue di)) = mFeatureStatus di.
Proof.
  unfold KeyOf, ParseKeyValue. intros Hk.
  destruct (ParseString keyValue ":") as [| key [| value [| ? ?]]];
    [reflexivity | reflexivity | | reflexivity].
  destruct (String.length value =? 0)%nat; [reflexivity |].
  apply ParseKey_keeps_status. unfold Equals.
  apply String.eqb_neq. congruence.
Qed.

Lemma ParseKeyValues_keeps_status (appV : string) (keyValues : list string) :
  Forall (fun keyValue => KeyOf keyValue <> Some "featureStatus") keyValues ->
  forall di,
    mFeatureStatus (snd (ParseKeyValues appV keyValues di)) = mFeatureStatus di.
Proof.
  induction 1 as [| keyValue rest Hk _ IH]; intros di; cbn; [reflexivity |].
  pose proof (ParseKeyValue_keeps_status appV keyValue di Hk) as E.
  destruct (ParseKeyValue appV keyValue di) as [[|] di']; cbn in *.
  - now rewrite IH.
  - exact E.
Qed.

(** A record all of whose pairs are accepted is accepted. *)
Lemma ParseKeyValues_accepts (appV : string) (keyValues : list string)
  (di0 : GfxDriverInfo) :
  Forall (fun keyValue => fst (ParseKeyValue appV keyValue di0) = true)
    keyValues ->
  forall di, fst (ParseKeyValues appV keyValues di) = true.
Proof.
  induction 1 as [| keyValue rest Hk _ IH]; intros di; cbn; [reflexivity |].
  rewrite (ParseKeyValue_accepts_indep appV keyValue di0 di) in Hk.
  destruct (ParseKeyValue appV keyValue di) as [[|] di']; cbn in *.
  - apply IH.
  - discriminate.
Qed.

Lemma ParseKeyValues_app (appV : string) (l1 l2 : list string)
  (di : GfxDriverInfo) :
  ParseKeyValues appV (l1 ++ l2)%list di =
  match ParseKeyValues appV l1 di with
  | (true, di') => ParseKeyValues appV l2 di'
  | (false, di') => (false, di')
  end.
Proof.
  revert di. induction l1 as [| keyValue rest IH]; intros di; cbn.
  - reflexivity.
  - destruct (ParseKeyValue appV keyValue di) as [[|] di']; [apply IH | reflexivity].
Qed.

Lemma length_nonempty (s : string) :
  s <> "" -> (String.length s =? 0)%nat = false.
Proof. destruct s; [congruence | reflexivity]. Qed.

(** ** C10: an unrecognized status name *)

(** The scan returns the status of the rule that wins, when that status
    is not UNKNOWN. *)
Lemma Find_win_status (g : GfxInfo) (st : State) (L : ScanLocals)
  (info : list GfxDriverInfo) (aSuggestedVersion : string) (aFeature : Z)
  (aFailureId : string) (os : OperatingSystem) (aForAllowing : bool)
  (i : nat) (status : Z) (failureId : string) :
  (status =? FEATURE_STATUS_UNKNOWN) = false ->
  PreLoop g st = Some L ->
  ScanLoop g st L aFeature os aForAllowing info 0 =
  (i, RuleWin status failureId) ->
  exists version,
    FindBlocklistedDeviceInList g st info aSuggestedVersion aFeature
      aFailureId os aForAllowing = (status, version, failureId).
Proof.
  intros Hne HL Hloop. unfold FindBlocklistedDeviceInList.
  rewrite HL, Hloop. unfold PostLoop, NV310MBlock. cbn [fst snd].
  rewrite Hne. cbn [andb fst snd].
  destruct XP_WIN; eexists; reflexivity.
Qed.

Lemma RemovePrefForFeature_clears (g : GfxInfo) (st : State) (aFeature : Z)
  (aValue : Z) (aFailureId : string) :
  fst (fst (GetPrefValueForFeature (prefs (RemovePrefForFeature g st aFeature))
              aFeature aValue aFailureId)) = false.
Proof.
  unfold RemovePrefForFeature, GetPrefValueForFeature.
  destruct (GetPrefNameForFeature aFeature) as [prefname |]; [| reflexivity].
  unfold Preferences_GetInt, Preferences_ClearUser.
  destruct (XRE_IsParentProcess g); cbn; now rewrite lookup_delete_eq.
Qed.

(** ** The whole application of a batch *)

Lemma display_GetData_again (g : GfxInfo) (st : State) :
  display (GetData g (GetData g st)) = display (GetData g st).
Proof.
  unfold GetData, display.
  destruct (mScreenPixels st =? INT64_MAX) eqn:E1; cbn [negb].
  - destruct (mScreenCount st =? 0) eqn:E2; cbn.
    + destruct (GetTotalScreenPixels g =? INT64_MAX); cbn; [| reflexivity].
      destruct (Z.of_nat (length (CurrentScreenList g)) =? 0); reflexivity.
    + destruct (GetTotalScreenPixels g =? INT64_MAX); cbn; [| reflexivity].
      now rewrite E2.
  - now rewrite E1.
Qed.

Lemma display_GetData_ext (g : GfxInfo) (st1 st2 : State) :
  display st1 = display st2 ->
  display (GetData g st1) = display (GetData g st2).
Proof.
  unfold display. intros H. injection H as H1 H2 H3 H4.
  unfold GetData. rewrite H1, H2.
  destruct (mScreenPixels st2 =? INT64_MAX); cbn [negb].
  - destruct (mScreenCount st2 =? 0); cbn; congruence.
  - congruence.
Qed.

Lemma Find_display_ext (g : GfxInfo) (st1 st2 : State)
  (info : list GfxDriverInfo) (aSuggestedVersion : string) (aFeature : Z)
  (aFailureId : string) (os : OperatingSystem) (aForAllowing : bool) :
  display st1 = display st2 ->
  PreLoop g st1 = PreLoop g st2 /\
  (forall L i, ScanLoop g st1 L aFeature os aForAllowing info i =
               ScanLoop g st2 L aFeature os aForAllowing info i).
Proof.
  unfold display. intros H. injection H as H1 H2 H3 H4. split.
  - unfold PreLoop. now rewrite H2, H3, H4.
  - intros L. induction info as [| r rest IH]; intros i; [reflexivity |].
    cbn [ScanLoop].
    assert (E : RuleBody g st1 L aFeature os aForAllowing r =
                RuleBody g st2 L aFeature os aForAllowing r).
    { unfold RuleBody, RuleHead. now rewrite H1, H2, H3, H4. }
    rewrite E, IH. reflexivity.
Qed.

Lemma RemovePrefForFeature_frame (g : GfxInfo) (st : State) (aFeature : Z) :
  display (RemovePrefForFeature g st aFeature) = display st /\
  sShutdownOccurred (RemovePrefForFeature g st aFeature) =
  sShutdownOccurred st.
Proof.
  unfold RemovePrefForFeature.
  destruct (GetPrefNameForFeature aFeature); [| now split].
  destruct (XRE_IsParentProcess g); now split.
Qed.

Lemma SetPrefValueForFeature_frame (g : GfxInfo) (st : State)
  (aFeature aValue : Z) (aFailureId : string) :
  display (SetPrefValueForFeature g st aFeature aValue aFailureId) =
  display st /\
  sShutdownOccurred (SetPrefValueForFeature g st aFeature aValue aFailureId) =
  sShutdownOccurred st.
Proof.
  unfold SetPrefValueForFeature.
  destruct (GetPrefNameForFeature aFeature); [| now split].
  destruct (XRE_IsParentProcess g); now split.
Qed.

Lemma GetFeatureStatusImpl_state (g : GfxInfo) (st : State) (aFeature : Z)
  (aStatus : Z) (aSuggestedVersion : string)
  (aDriverInfo : list GfxDriverInfo) (aFailureId : string)
  (aOS : option OperatingSystem) :
  snd (GetFeatureStatusImpl g st aFeature aStatus aSuggestedVersion
         aDriverInfo aFailureId aOS) = st \/
  snd (GetFeatureStatusImpl g st aFeature aStatus aSuggestedVersion
         aDriverInfo aFailureId aOS) = GetData g st.
Proof.
  unfold GetFeatureStatusImpl.
  destruct (aFeature <=? 0); [now left |].
  destruct (negb (aStatus =? FEATURE_STATUS_UNKNOWN)); [now left |].
  destruct (sShutdownOccurred st); [now left |].
  destruct (_ || _).
  - destruct (OnlyAllowFeatureOnKnownConfig aFeature); now right.
  - destruct (FindInGivenOrStatic _ _ _ _ _ _ _ false) as [[s v] f].
    destruct (s =? FEATURE_STATUS_UNKNOWN); [| now right].
    destruct (IsFeatureAllowlisted aFeature); [| now right].
    destruct (FindInGivenOrStatic _ _ _ _ _ _ _ true) as [[s' v'] f'].
    destruct (s' =? FEATURE_STATUS_UNKNOWN); now right.
Qed.

Lemma GetData_shutdown (g : GfxInfo) (st : State) :
  sShutdownOccurred (GetData g st) = sShutdownOccurred st.
Proof.
  unfold GetData. destruct (negb _); [reflexivity |].
  now destruct (mScreenCount st =? 0).
Qed.

(** What one step of the loop leaves of the display members and of the
    shutdown flag. *)
Lemma EvaluateFeature_frame (g : GfxInfo) (aDriverInfo : list GfxDriverInfo)
  (os : OperatingSystem) (st : State) (feature : Z) :
  display (GetData g (EvaluateFeature g aDriverInfo os st feature)) =
  display (GetData g st) /\
  sShutdownOccurred (EvaluateFeature g aDriverInfo os st feature) =
  sShutdownOccurred st.
Proof.
  unfold EvaluateFeature.
  pose proof (GetFeatureStatusImpl_state g st feature FEATURE_STATUS_UNKNOWN
                "" aDriverInfo "" (Some os)) as Hst.
  destruct (GetFeatureStatusImpl g st feature FEATURE_STATUS_UNKNOWN ""
              aDriverInfo "" (Some os)) as [[[[rv status] version] fid] st1].
  cbn [snd] in Hst.
  assert (H1 : display (GetData g st1) = display (GetData g st) /\
               sShutdownOccurred st1 = sShutdownOccurred st).
  { destruct Hst as [-> | ->]; [now split |].
    split; [apply display_GetData_again | apply GetData_shutdown]. }
  destruct H1 as [Hd Hs].
  assert (Hrem : display (GetData g (RemovePrefForFeature g st1 feature)) =
                 display (GetData g st) /\
                 sShutdownOccurred (RemovePrefForFeature g st1 feature) =
                 sShutdownOccurred st).
  { destruct (RemovePrefForFeature_frame g st1 feature) as [E1 E2].
    split; [| congruence].
    rewrite (display_GetData_ext g _ st1 E1). exact Hd. }
  assert (Hset : forall st2,
            display st2 = display st1 ->
            sShutdownOccurred st2 = sShutdownOccurred st1 ->
            display (GetData g (SetPrefValueForFeature g st2 feature status fid))
            = display (GetData g st) /\
            sShutdownOccurred (SetPrefValueForFeature g st2 feature status fid)
            = sShutdownOccurred st).
  { intros st2 E1 E2.
    destruct (SetPrefValueForFeature_frame g st2 feature status fid)
      as [F1 F2].
    split; [| congruence].
    rewrite (display_GetData_ext g _ st1 (eq_trans F1 E1)). exact Hd. }
  destruct (_ || _); [exact Hrem |].
  destruct (status =? FEATURE_BLOCKED_DRIVER_VERSION).
  - destruct (negb (IsEmpty version)); apply Hset; reflexivity.
  - destruct (_ || _); [apply Hset; reflexivity | exact Hrem].
Qed.

Lemma GetInt_after_string (p : gmap string PrefValue) (k n v : string) :
  Preferences_GetInt p n = None ->
  Preferences_GetInt (Preferences_SetCString p k v) n = None.
Proof.
  unfold Preferences_GetInt, Preferences_SetCString. intros H.
  destruct (decide (k = n)) as [-> | Hne].
  - now rewrite lookup_insert_eq.
  - now rewrite lookup_insert_ne.
Qed.

Lemma GetInt_after_clear (p : gmap string PrefValue) (k n : string) :
  Preferences_GetInt p n = None ->
  Preferences_GetInt (Preferences_ClearUser p k) n = None.
Proof.
  unfold Preferences_GetInt, Preferences_ClearUser. intros H.
  destruct (decide (k = n)) as [-> | Hne].
  - now rewrite lookup_delete_eq.
  - now rewrite lookup_delete_ne.
Qed.

Lemma GetInt_after_int (p : gmap string PrefValue) (k n : string) (v : Z) :
  k <> n ->
  Preferences_GetInt p n = None ->
  Preferences_GetInt (Preferences_SetInt p k v) n = None.
Proof.
  unfold Preferences_GetInt, Preferences_SetInt. intros Hne H.
  now rewrite lookup_insert_ne.
Qed.

Lemma GetData_prefs (g : GfxInfo) (st : State) :
  prefs (GetData g st) = prefs st.
Proof.
  unfold GetData. destruct (negb _); [reflexivity |].
  now destruct (mScreenCount st =? 0).
Qed.

(** A step for another feature leaves an absent status preference
    absent. *)
Lemma EvaluateFeature_keeps_absent (g : GfxInfo)
  (aDriverInfo : list GfxDriverInfo) (os : OperatingSystem) (st : State)
  (feature : Z) (name : string) :
  GetPrefNameForFeature feature <> Some name ->
  Preferences_GetInt (prefs st) name = None ->
  Preferences_GetInt (prefs (EvaluateFeature g aDriverInfo os st feature)) name
  = None.
Proof.
  intros Hname Habs. unfold EvaluateFeature.
  pose proof (GetFeatureStatusImpl_state g st feature FEATURE_STATUS_UNKNOWN
                "" aDriverInfo "" (Some os)) as Hst.
  destruct (GetFeatureStatusImpl g st feature FEATURE_STATUS_UNKNOWN ""
              aDriverInfo "" (Some os)) as [[[[rv status] version] fid] st1].
  cbn [snd] in Hst.
  assert (H1 : Preferences_GetInt (prefs st1) name = None).
  { destruct Hst as [-> | ->]; [exact Habs |]. now rewrite GetData_prefs. }
  assert (Hrem : Preferences_GetInt
                   (prefs (RemovePrefForFeature g st1 feature)) name = None).
  { unfold RemovePrefForFeature.
    destruct (GetPrefNameForFeature feature) as [k |]; [| exact H1].
    destruct (XRE_IsParentProcess g); cbn; now apply GetInt_after_clear. }
  assert (Hset : forall st2,
            Preferences_GetInt (prefs st2) name = None ->
            Preferences_GetInt
              (prefs (SetPrefValueForFeature g st2 feature status fid)) name
            = None).
  { intros st2 H2. unfold SetPrefValueForFeature.
    destruct (GetPrefNameForFeature feature) as [k |] eqn:Ek; [| exact H2].
    assert (Hk : k <> name) by congruence.
    destruct (XRE_IsParentProcess g), (negb (IsEmpty fid)); cbn;
      repeat first [apply GetInt_after_string | apply GetInt_after_int];
      assumption. }
  destruct (_ || _); [exact Hrem |].
  destruct (status =? FEATURE_BLOCKED_DRIVER_VERSION).
  - destruct (negb (IsEmpty version)); apply Hset; cbn.
    + now apply GetInt_after_string.
    + now apply GetInt_after_clear.
  - destruct (_ || _); [now apply Hset | exact Hrem].
Qed.

Lemma fold_EvaluateFeature_frame (g : GfxInfo)
  (aDriverInfo : list GfxDriverInfo) (os : OperatingSystem)
  (features : list Z) (st : State) :
  display (GetData g (fold_left (EvaluateFeature g aDriverInfo os) features st))
  = display (GetData g st) /\
  sShutdownOccurred (fold_left (EvaluateFeature g aDriverInfo os) features st)
  = sShutdownOccurred st.
Proof.
  revert st. induction features as [| f rest IH]; intros st; [now split |].
  cbn [fold_left].
  destruct (IH (EvaluateFeature g aDriverInfo os st f)) as [E1 E2].
  destruct (EvaluateFeature_frame g aDriverInfo os st f) as [F1 F2].
  split; congruence.
Qed.

Lemma fold_EvaluateFeature_keeps_absent (g : GfxInfo)
  (aDriverInfo : list GfxDriverInfo) (os : OperatingSystem)
  (features : list Z) (name : string) :
  Forall (fun f => GetPrefNameForFeature f <> Some name) features ->
  forall st,
    Preferences_GetInt (prefs st) name = None ->
    Preferences_GetInt
      (prefs (fold_left (EvaluateFeature g aDriverInfo os) features st)) name
    = None.
Proof.
  induction 1 as [| f rest Hf _ IH]; intros st Habs; [exact Habs |].
  cbn [fold_left]. apply IH. now apply EvaluateFeature_keeps_absent.
Qed.

(** The step for a feature for which a rule of status STATUS_OK wins
    the block-mode scan removes the status preference of the feature. *)
Lemma EvaluateFeature_STATUS_OK_wins (g : GfxInfo) (st : State)
  (L : ScanLocals) (aDriverInfo : list GfxDriverInfo) (feature : Z)
  (os : OperatingSystem) (i : nat) (failureId : string) :
  (FEATURE_STATUS_OK =? FEATURE_STATUS_UNKNOWN) = false ->
  0 < feature ->
  sShutdownOccurred st = false ->
  NS_FAILED (fst (GetAdapterVendorID g)) ||
  NS_FAILED (fst (GetAdapterDeviceID g)) ||
  NS_FAILED (fst (GetAdapterDriverVersion g)) = false ->
  aDriverInfo <> [] ->
  PreLoop g (GetData g st) = Some L ->
  ScanLoop g (GetData g st) L feature os false aDriverInfo 0 =
  (i, RuleWin FEATURE_STATUS_OK failureId) ->
  EvaluateFeature g aDriverInfo os st feature =
  RemovePrefForFeature g (GetData g st) feature.
Proof.
  intros Hu Hf Hs Had Hbatch HL Hloop.
  destruct (Find_win_status g (GetData g st) L aDriverInfo "" feature "" os
              false i FEATURE_STATUS_OK failureId Hu HL Hloop)
    as [version Hfind].
  unfold EvaluateFeature, GetFeatureStatusImpl.
  replace (feature <=? 0) with false by (symmetry; apply Z.leb_gt; lia).
  rewrite Z.eqb_refl, Hs. cbn [negb]. rewrite Had.
  unfold FindInGivenOrStatic.
  destruct aDriverInfo as [| r0 rest]; [congruence |].
  cbn [length Nat.eqb negb]. rewrite Hfind, Hu.
  now rewrite Z.eqb_refl, !orb_true_r.
Qed.

(** After the whole application of a batch in which a rule of status
    STATUS_OK wins the scan for a feature of the enumeration, the status
    preference of that feature holds no integer, provided no other
    feature shares its preference name. *)
Lemma EvaluateDownloadedBlocklist_STATUS_OK_wins (g : GfxInfo) (st : State)
  (L : ScanLocals) (aDriverInfo : list GfxDriverInfo) (feature : Z)
  (i : nat) (failureId name : string) :
  (FEATURE_STATUS_OK =? FEATURE_STATUS_UNKNOWN) = false ->
  FEATURE_START <= feature < FEATURE_COUNT ->
  0 < feature ->
  sShutdownOccurred st = false ->
  NS_FAILED (fst (GetAdapterVendorID g)) ||
  NS_FAILED (fst (GetAdapterDeviceID g)) ||
  NS_FAILED (fst (GetAdapterDriverVersion g)) = false ->
  aDriverInfo <> [] ->
  PreLoop g (GetData g st) = Some L ->
  ScanLoop g (GetData g st) L feature (GetOperatingSystem g) false
    aDriverInfo 0 = (i, RuleWin FEATURE_STATUS_OK failureId) ->
  GetPrefNameForFeature feature = Some name ->
  (forall f, f <> feature -> GetPrefNameForFeature f <> Some name) ->
  Preferences_GetInt (prefs (EvaluateDownloadedBlocklist g st aDriverInfo))
    name = None.
Proof.
  intros Hu Hrange Hf Hs Had Hbatch HL Hloop Hname Hinj.
  unfold EvaluateDownloadedBlocklist.
  destruct aDriverInfo as [| r0 rest] eqn:Eb; [congruence |].
  cbn [length Nat.eqb]. rewrite <- Eb in *. clear Eb r0 rest.
  set (os := GetOperatingSystem g) in *.
  replace (FEATURE_COUNT - FEATURE_START)
    with ((feature - FEATURE_START) + (FEATURE_COUNT - feature)) by lia.
  rewrite seqZ_app by lia.
  replace (FEATURE_START + (feature - FEATURE_START)) with feature by lia.
  rewrite (seqZ_cons feature) by lia.
  rewrite fold_left_app. cbn [fold_left].
  set (st1 := fold_left (EvaluateFeature g aDriverInfo os)
                (seqZ FEATURE_START (feature - FEATURE_START)) st).
  destruct (fold_EvaluateFeature_frame g aDriverInfo os
              (seqZ FEATURE_START (feature - FEATURE_START)) st) as [Hd Hs1].
  fold st1 in Hd, Hs1.
  destruct (Find_display_ext g (GetData g st1) (GetData g st) aDriverInfo ""
              feature "" os false Hd) as [HP HS].
  rewrite (EvaluateFeature_STATUS_OK_wins g st1 L aDriverInfo feature os i
             failureId Hu Hf (eq_trans Hs1 Hs) Had Hbatch
             (eq_trans HP HL) (eq_trans (HS L 0%nat) Hloop)).
  apply fold_EvaluateFeature_keeps_absent.
  - apply Forall_seqZ. intros f' Hf'. apply Hinj. lia.
  - unfold RemovePrefForFeature. rewrite Hname.
    unfold Preferences_GetInt, Preferences_ClearUser.
    destruct (XRE_IsParentProcess g); cbn; now rewrite lookup_delete_eq.
Qed.

(** C10. A status text that is no name of the status table is read as
    STATUS_OK. The parser accepts the pair [featureStatus:text] and
    assigns STATUS_OK: a record that holds such a pair and whose other
    pairs are acceptable is accepted, with status STATUS_OK unless a
    later [featureStatus] pair assigns another one. STATUS_OK is not an
    allow status, so the rule takes part in block-mode scans. When such
    a rule wins the scan of a batch for a feature, the step of
    [EvaluateDownloadedBlocklist] for that feature removes the status
    preference of the feature; and after the whole application no
    override is found for the feature (for a feature of the enumeration
    whose preference name no other feature shares). *)
Theorem C10_unrecognized_status_is_STATUS_OK (aStatus : string) :
  table_find GFXINFO_FEATURE_STATUS aStatus = None ->
  aStatus <> "" ->
  (FEATURE_STATUS_OK =? FEATURE_ALLOW_ALWAYS) = false ->
  (FEATURE_STATUS_OK =? FEATURE_ALLOW_QUALIFIED) = false ->
  (FEATURE_STATUS_OK =? FEATURE_STATUS_UNKNOWN) = false ->
  BlocklistFeatureStatusToGfxFeatureStatus aStatus = FEATURE_STATUS_OK /\
  (forall appV keyValue di,
     ParseString keyValue ":" = ["featureStatus"; aStatus] ->
     ParseKeyValue appV keyValue di =
     (true, set_mFeatureStatus di FEATURE_STATUS_OK)) /\
  (forall g aBlocklistEntry aDriverInfo before keyValue after,
     Split aBlocklistEntry (ascii_of_nat 9) =
     (before ++ keyValue :: after)%list ->
     ParseString keyValue ":" = ["featureStatus"; aStatus] ->
     Forall (fun kv =>
               fst (ParseKeyValue (GetApplicationVersion g) kv aDriverInfo) =
               true) (before ++ after)%list ->
     exists di,
       BlocklistEntryToDriverInfo g aBlocklistEntry aDriverInfo = (true, di) /\
       (Forall (fun kv => KeyOf kv <> Some "featureStatus") after ->
        mFeatureStatus di = FEATURE_STATUS_OK)) /\
  MatchingAllowStatus FEATURE_STATUS_OK = false /\
  (forall g st L aDriverInfo feature os i failureId aValue aFailureId,
     0 < feature ->
     sShutdownOccurred st = false ->
     NS_FAILED (fst (GetAdapterVendorID g)) ||
     NS_FAILED (fst (GetAdapterDeviceID g)) ||
     NS_FAILED (fst (GetAdapterDriverVersion g)) = false ->
     aDriverInfo <> [] ->
     PreLoop g (GetData g st) = Some L ->
     ScanLoop g (GetData g st) L feature os false aDriverInfo 0 =
     (i, RuleWin FEATURE_STATUS_OK failureId) ->
     EvaluateFeature g aDriverInfo os st feature =
     RemovePrefForFeature g (GetData g st) feature /\
     fst (fst (GetPrefValueForFeature
                 (prefs (EvaluateFeature g aDriverInfo os st feature))
                 feature aValue aFailureId)) = false) /\
  (forall g st L aDriverInfo feature i failureId name aValue aFailureId,
     FEATURE_START <= feature < FEATURE_COUNT ->
     0 < feature ->
     sShutdownOccurred st = false ->
     NS_FAILED (fst (GetAdapterVendorID g)) ||
     NS_FAILED (fst (GetAdapterDeviceID g)) ||
     NS_FAILED (fst (GetAdapterDriverVersion g)) = false ->
     aDriverInfo <> [] ->
     PreLoop g (GetData g st) = Some L ->
     ScanLoop g (GetData g st) L feature (GetOperatingSystem g) false
       aDriverInfo 0 = (i, RuleWin FEATURE_STATUS_OK failureId) ->
     GetPrefNameForFeature feature = Some name ->
     (forall f, f <> feature -> GetPrefNameForFeature f <> Some name) ->
     fst (fst (GetPrefValueForFeature
                 (prefs (EvaluateDownloadedBlocklist g st aDriverInfo))
                 feature aValue aFailureId)) = false).
Proof.
  intros Htab Hne Ha Hq Hu.
  pose proof (BlocklistFeatureStatusToGfxFeatureStatus_unknown _ Htab) as E.
  assert (Hkv : forall appV keyValue di,
     ParseString keyValue ":" = ["featureStatus"; aStatus] ->
     ParseKeyValue appV keyValue di =
     (true, set_mFeatureStatus di FEATURE_STATUS_OK)).
  { intros appV keyValue di Hp. unfold ParseKeyValue.
    rewrite Hp, (length_nonempty _ Hne). unfold ParseKey. cbn.
    now rewrite E. }
  split; [exact E |]. split; [exact Hkv |]. split; [| split; [| split]].
  - intros g entry di0 before keyValue after Hsplit Hp Hall.
    unfold BlocklistEntryToDriverInfo. rewrite Hsplit.
    set (appV := GetApplicationVersion g) in *.
    set (d0 := set_mRuleId di0 _).
    apply Forall_app in Hall as [Hb Hafter].
    rewrite ParseKeyValues_app.
    pose proof (ParseKeyValues_accepts appV before di0 Hb d0) as Hb1.
    destruct (ParseKeyValues appV before d0) as [ok1 d1]. cbn in Hb1.
    subst ok1. cbn [ParseKeyValues]. rewrite (Hkv appV keyValue d1 Hp).
    pose proof (ParseKeyValues_accepts appV after di0 Hafter
                  (set_mFeatureStatus d1 FEATURE_STATUS_OK)) as Ha1.
    destruct (ParseKeyValues appV after _) as [ok2 d2] eqn:E2. cbn in Ha1.
    subst ok2. exists d2. split; [reflexivity |].
    intros Hlater.
    pose proof (ParseKeyValues_keeps_status appV after Hlater
                  (set_mFeatureStatus d1 FEATURE_STATUS_OK)) as Hk.
    rewrite E2 in Hk. exact Hk.
  - unfold MatchingAllowStatus. now rewrite Ha, Hq.
  - intros g st L batch feature os i failureId aValue aFailureId
      Hf Hs Had Hbatch HL Hloop.
    pose proof (EvaluateFeature_STATUS_OK_wins g st L batch feature os i
                  failureId Hu Hf Hs Had Hbatch HL Hloop) as Hstep.
    split; [exact Hstep |]. rewrite Hstep. apply RemovePrefForFeature_clears.
  - intros g st L batch feature i failureId name aValue aFailureId
      Hrange Hf Hs Had Hbatch HL Hloop Hname Hinj.
    unfold GetPrefValueForFeature. rewrite Hname.
    now rewrite (EvaluateDownloadedBlocklist_STATUS_OK_wins g st L batch
                   feature i failureId name Hu Hrange Hf Hs Had Hbatch HL
                   Hloop Hname Hinj).
Qed.

(** * Further properties *)

(** ** The scan *)

Lemma Find_of_loop (g : GfxInfo) (st : State) (L : ScanLocals)
  (info : list GfxDriverInfo) (aSuggestedVersion : string) (aFeature : Z)
  (aFailureId : string) (os : OperatingSystem) (aForAllowing : bool)
  (i : nat) (o : RuleOutcome) :
  PreLoop g st = Some L ->
  ScanLoop g st L aFeature os aForAllowing info 0 = (i, o) ->
  FindBlocklistedDeviceInList g st info aSuggestedVersion aFeature aFailureId
    os aForAllowing =
  PostLoop L info aSuggestedVersion aFeature i
    match o with
    | RuleWin status failureId => (status, failureId)
    | _ => (FEATURE_STATUS_UNKNOWN, aFailureId)
    end.
Proof.
  intros HL Hloop. unfold FindBlocklistedDeviceInList. now rewrite HL, Hloop.
Qed.

Lemma PostLoop_lookup (L : ScanLocals) (info1 info2 : list GfxDriverInfo)
  (aSuggestedVersion : string) (aFeature : Z) (i1 i2 : nat)
  (sf : Z * string) :
  info1 !! i1 = info2 !! i2 ->
  PostLoop L info1 aSuggestedVersion aFeature i1 sf =
  PostLoop L info2 aSuggestedVersion aFeature i2 sf.
Proof. intros H. unfold PostLoop. now rewrite H. Qed.

Lemma ScanLoop_ge (g : GfxInfo) (st : State) (L : ScanLocals)
  (aFeature : Z) (os : OperatingSystem) (aForAllowing : bool)
  (info : list GfxDriverInfo) (i : nat) :
  (i <= fst (ScanLoop g st L aFeature os aForAllowing info i))%nat.
Proof.
  revert i. induction info as [| r rest IH]; intros i; cbn; [lia |].
  destruct (RuleBody g st L aFeature os aForAllowing r); cbn; try lia.
  specialize (IH (S i)). lia.
Qed.

Lemma ScanLoop_app_skips (g : GfxInfo) (st : State) (L : ScanLocals)
  (aFeature : Z) (os : OperatingSystem) (aForAllowing : bool)
  (before rest : list GfxDriverInfo) (i : nat) :
  Forall (fun r => RuleBody g st L aFeature os aForAllowing r = RuleContinue)
    before ->
  ScanLoop g st L aFeature os aForAllowing (before ++ rest)%list i =
  ScanLoop g st L aFeature os aForAllowing rest (i + length before)%nat.
Proof.
  intros H. revert i. induction H as [| r before' Hr _ IH]; intros i; cbn.
  - now rewrite Nat.add_0_r.
  - rewrite Hr, IH. f_equal. lia.
Qed.

(** X1. The first rule whose body does not end in [continue] decides the
    scan: the rules before it have no effect and the rules after it are
    not examined. When that rule wins with a status other than UNKNOWN,
    the scan returns its status and its failure id. *)
Theorem scan_first_match_decides (g : GfxInfo) (st : State) (L : ScanLocals)
  (before after : list GfxDriverInfo) (r : GfxDriverInfo)
  (aSuggestedVersion : string) (aFeature : Z) (aFailureId : string)
  (os : OperatingSystem) (aForAllowing : bool) :
  PreLoop g st = Some L ->
  Forall (fun r' => RuleBody g st L aFeature os aForAllowing r' = RuleContinue)
    before ->
  RuleBody g st L aFeature os aForAllowing r <> RuleContinue ->
  FindBlocklistedDeviceInList g st (before ++ r :: after)%list
    aSuggestedVersion aFeature aFailureId os aForAllowing =
  FindBlocklistedDeviceInList g st [r] aSuggestedVersion aFeature aFailureId
    os aForAllowing /\
  (forall status failureId,
     RuleBody g st L aFeature os aForAllowing r = RuleWin status failureId ->
     (status =? FEATURE_STATUS_UNKNOWN) = false ->
     status = mFeatureStatus r /\
     failureId <> "" /\
     exists version,
       FindBlocklistedDeviceInList g st (before ++ r :: after)%list
         aSuggestedVersion aFeature aFailureId os aForAllowing =
       (status, version, failureId)).
Proof.
  intros HL Hbefore Hr.
  assert (Hloop : ScanLoop g st L aFeature os aForAllowing
                    (before ++ r :: after)%list 0 =
                  (length before,
                   RuleBody g st L aFeature os aForAllowing r)).
  { rewrite (ScanLoop_app_skips _ _ _ _ _ _ _ _ _ Hbefore). cbn.
    destruct (RuleBody g st L aFeature os aForAllowing r);
      [congruence | reflexivity | reflexivity]. }
  assert (Hone : ScanLoop g st L aFeature os aForAllowing [r] 0 =
                 (0%nat, RuleBody g st L aFeature os aForAllowing r)).
  { cbn. destruct (RuleBody g st L aFeature os aForAllowing r);
      [congruence | reflexivity | reflexivity]. }
  assert (Hsame :
    FindBlocklistedDeviceInList g st (before ++ r :: after)%list
      aSuggestedVersion aFeature aFailureId os aForAllowing =
    FindBlocklistedDeviceInList g st [r] aSuggestedVersion aFeature aFailureId
      os aForAllowing).
  { rewrite (Find_of_loop _ _ _ _ _ _ _ _ _ _ _ HL Hloop).
    rewrite (Find_of_loop _ _ _ _ _ _ _ _ _ _ _ HL Hone).
    apply PostLoop_lookup.
    rewrite lookup_app_r by lia. now rewrite Nat.sub_diag. }
  split; [exact Hsame |].
  intros status failureId Hwin Hne.
  destruct (RuleBody_win _ _ _ _ _ _ _ _ _ Hwin) as (_ & Hs & Hf).
  split; [exact Hs |]. split.
  - rewrite Hf. unfold IsEmpty, Equals.
    destruct (String.eqb (mRuleId r) "") eqn:E; cbn.
    + discriminate.
    + now apply String.eqb_neq.
  - rewrite Hwin in Hloop.
    apply (Find_win_status g st L _ aSuggestedVersion aFeature aFailureId os
             aForAllowing _ status failureId Hne HL Hloop).
Qed.

Lemma RuleBody_SameFamily_false (g : GfxInfo) (st : State) (L : ScanLocals)
  (aFeature : Z) (os : OperatingSystem) (aForAllowing : bool)
  (r : GfxDriverInfo) :
  SameFamily aForAllowing r = false ->
  RuleBody g st L aFeature os aForAllowing r = RuleContinue.
Proof.
  unfold SameFamily. intros H. unfold RuleBody, RuleHead. now rewrite H.
Qed.

Lemma ScanLoop_filter (g : GfxInfo) (st : State) (L : ScanLocals)
  (aFeature : Z) (os : OperatingSystem) (aForAllowing : bool)
  (info : list GfxDriverInfo) (i j : nat) :
  snd (ScanLoop g st L aFeature os aForAllowing info i) =
  snd (ScanLoop g st L aFeature os aForAllowing
         (List.filter (SameFamily aForAllowing) info) j) /\
  info !! (fst (ScanLoop g st L aFeature os aForAllowing info i) - i)%nat =
  List.filter (SameFamily aForAllowing) info !!
    (fst (ScanLoop g st L aFeature os aForAllowing
            (List.filter (SameFamily aForAllowing) info) j) - j)%nat.
Proof.
  revert i j. induction info as [| r rest IH]; intros i j.
  - cbn. rewrite !Nat.sub_diag. now split.
  - cbn [List.filter].
    destruct (SameFamily aForAllowing r) eqn:Ef.
    + cbn [ScanLoop].
      destruct (RuleBody g st L aFeature os aForAllowing r) eqn:Eb.
      * destruct (IH (S i) (S j)) as [H1 H2]. split; [exact H1 |].
        pose proof (ScanLoop_ge g st L aFeature os aForAllowing rest (S i)).
        pose proof (ScanLoop_ge g st L aFeature os aForAllowing
                      (List.filter (SameFamily aForAllowing) rest) (S j)).
        match goal with
        | |- (r :: rest) !! (?a - i)%nat = (r :: ?l) !! (?b - j)%nat =>
            replace (a - i)%nat with (S (a - S i)) by lia;
            replace (b - j)%nat with (S (b - S j)) by lia
        end.
        exact H2.
      * cbn. rewrite !Nat.sub_diag. now split.
      * cbn. rewrite !Nat.sub_diag. now split.
    + cbn [ScanLoop].
      rewrite (RuleBody_SameFamily_false _ _ _ _ _ _ _ Ef).
      destruct (IH (S i) j) as [H1 H2]. split; [exact H1 |].
      pose proof (ScanLoop_ge g st L aFeature os aForAllowing rest (S i)).
      match goal with
      | |- (r :: rest) !! (?a - i)%nat = _ =>
          replace (a - i)%nat with (S (a - S i)) by lia
      end.
      exact H2.
Qed.

(** X2. The entries of the other family are invisible to a scan: a scan
    in a mode returns what the scan of the entries of that mode's family
    alone returns. *)
Theorem scan_ignores_other_family (g : GfxInfo) (st : State)
  (info : list GfxDriverInfo) (aSuggestedVersion : string) (aFeature : Z)
  (aFailureId : string) (os : OperatingSystem) (aForAllowing : bool) :
  FindBlocklistedDeviceInList g st info aSuggestedVersion aFeature aFailureId
    os aForAllowing =
  FindBlocklistedDeviceInList g st
    (List.filter (SameFamily aForAllowing) info) aSuggestedVersion aFeature
    aFailureId os aForAllowing.
Proof.
  unfold FindBlocklistedDeviceInList.
  destruct (PreLoop g st) as [L |]; [| reflexivity].
  destruct (ScanLoop_filter g st L aFeature os aForAllowing info 0 0)
    as [Ho Hl].
  destruct (ScanLoop g st L aFeature os aForAllowing info 0) as [i o].
  destruct (ScanLoop g st L aFeature os aForAllowing
              (List.filter (SameFamily aForAllowing) info) 0) as [j o'].
  cbn [fst snd] in Ho, Hl. subst o'. rewrite !Nat.sub_0_r in Hl.
  now apply PostLoop_lookup.
Qed.

Lemma ScanLoop_win_In (g : GfxInfo) (st : State) (L : ScanLocals)
  (aFeature : Z) (os : OperatingSystem) (aForAllowing : bool)
  (info : list GfxDriverInfo) (i0 i : nat) (status : Z) (failureId : string) :
  ScanLoop g st L aFeature os aForAllowing info i0 =
  (i, RuleWin status failureId) ->
  exists r, In r info /\
    RuleBody g st L aFeature os aForAllowing r = RuleWin status failureId.
Proof.
  intros H. apply ScanLoop_win in H as (r & Hr & _ & Hb).
  exists r. split; [| exact Hb].
  apply list_elem_of_In. eapply list_elem_of_lookup_2. exact Hr.
Qed.

(** X3. Where a returned status comes from. A scan returns the literal 0
    with its inputs untouched (an early exit), or UNKNOWN with the
    caller's failure id, or (Windows builds, DIRECT2D) the BLOCKED_DEVICE
    of the NVidia 310M case, or the status of an entry of the list that
    belongs to the family of the mode, with that entry's rule id, or
    FEATURE_FAILURE_DL_BLOCKLIST_NO_ID for an entry without one, as
    failure id. *)
Theorem scan_status_provenance (g : GfxInfo) (st : State)
  (info : list GfxDriverInfo) (aSuggestedVersion : string) (aFeature : Z)
  (aFailureId : string) (os : OperatingSystem) (aForAllowing : bool) :
  FindBlocklistedDeviceInList g st info aSuggestedVersion aFeature aFailureId
    os aForAllowing = (0, aSuggestedVersion, aFailureId) \/
  (exists version,
     FindBlocklistedDeviceInList g st info aSuggestedVersion aFeature
       aFailureId os aForAllowing =
     (FEATURE_STATUS_UNKNOWN, version, aFailureId)) \/
  (XP_WIN = true /\ aFeature = FEATURE_DIRECT2D /\
   exists version,
     FindBlocklistedDeviceInList g st info aSuggestedVersion aFeature
       aFailureId os aForAllowing =
     (FEATURE_BLOCKED_DEVICE, version, "FEATURE_FAILURE_D2D_NV310M_BLOCK")) \/
  (exists r version,
     In r info /\
     MatchingAllowStatus (mFeatureStatus r) = aForAllowing /\
     FindBlocklistedDeviceInList g st info aSuggestedVersion aFeature
       aFailureId os aForAllowing =
     (mFeatureStatus r, version,
      if negb (IsEmpty (mRuleId r)) then mRuleId r
      else "FEATURE_FAILURE_DL_BLOCKLIST_NO_ID")).
Proof.
  unfold FindBlocklistedDeviceInList.
  destruct (PreLoop g st) as [L |]; [| now left].
  destruct (ScanLoop g st L aFeature os aForAllowing info 0) as [i o] eqn:El.
  assert (Hhook : forall sf,
    NV310MBlock L aFeature sf = sf \/
    aFeature = FEATURE_DIRECT2D /\
    NV310MBlock L aFeature sf =
    (FEATURE_BLOCKED_DEVICE, "FEATURE_FAILURE_D2D_NV310M_BLOCK")).
  { intros sf. unfold NV310MBlock.
    destruct (_ && (aFeature =? FEATURE_DIRECT2D)) eqn:Hc; [| now left].
    apply andb_true_iff in Hc as [_ Hd]. apply Z.eqb_eq in Hd.
    destruct (negb (adapterInfoFailed L true)); [| now left].
    destruct (_ && _); [right | now left]. now split. }
  assert (Hpost : forall sf,
    (exists version,
       PostLoop L info aSuggestedVersion aFeature i sf =
       (fst sf, version, snd sf)) \/
    XP_WIN = true /\ aFeature = FEATURE_DIRECT2D /\
    exists version,
      PostLoop L info aSuggestedVersion aFeature i sf =
      (FEATURE_BLOCKED_DEVICE, version, "FEATURE_FAILURE_D2D_NV310M_BLOCK")).
  { intros sf. unfold PostLoop. destruct XP_WIN; [| left; eexists; reflexivity].
    destruct (Hhook sf) as [-> | [Hd ->]].
    - left. eexists. reflexivity.
    - right. split; [reflexivity |]. split; [exact Hd |]. eexists.
      reflexivity. }
  destruct o as [| | status failureId].
  - destruct (Hpost (FEATURE_STATUS_UNKNOWN, aFailureId)) as [[v Hv] | H].
    + right. left. exists v. exact Hv.
    + right. right. left. exact H.
  - destruct (Hpost (FEATURE_STATUS_UNKNOWN, aFailureId)) as [[v Hv] | H].
    + right. left. exists v. exact Hv.
    + right. right. left. exact H.
  - destruct (Hpost (status, failureId)) as [[v Hv] | H].
    + right. right. right.
      destruct (ScanLoop_win_In _ _ _ _ _ _ _ _ _ _ _ El) as (r & Hin & Hb).
      destruct (RuleBody_win _ _ _ _ _ _ _ _ _ Hb) as (Hfam & Hs & Hf).
      exists r, v. split; [exact Hin |]. split; [exact Hfam |].
      rewrite Hv. cbn [fst snd]. now rewrite Hs, Hf.
    + right. right. left. exact H.
Qed.

(** ** One rule *)

(** X4. The device set of a rule constrains it only when it is present
    and non-empty: a rule with an absent set, an empty set, or a set
    that contains the adapter's device id gives the outcome of the same
    rule without a device set, and a rule whose set does not contain the
    device id is skipped whatever its other members. *)
Theorem device_set_constrains_only_when_non_empty (g : GfxInfo) (st : State)
  (L : ScanLocals) (aFeature : Z) (os : OperatingSystem) (aForAllowing : bool)
  (r : GfxDriverInfo) :
  (DeviceLookup r (adapterDeviceID L (mGpu2 r)) = None \/
   DeviceLookup r (adapterDeviceID L (mGpu2 r)) = Some NS_OK ->
   RuleBody g st L aFeature os aForAllowing r =
   RuleBody g st L aFeature os aForAllowing (set_mDevices r None)) /\
  (forall d, mDevices r = Some d -> GfxDeviceFamily_IsEmpty d = true ->
   DeviceLookup r (adapterDeviceID L (mGpu2 r)) = None) /\
  (DeviceLookup r (adapterDeviceID L (mGpu2 r)) = Some NS_ERROR_NOT_AVAILABLE ->
   RuleBody g st L aFeature os aForAllowing r = RuleContinue).
Proof.
  split; [| split].
  - intros H. unfold RuleBody.
    change (RuleHead g st L os aForAllowing (set_mDevices r None))
      with (RuleHead g st L os aForAllowing r).
    change (RuleTail g L aFeature (set_mDevices r None))
      with (RuleTail g L aFeature r).
    destruct (negb (RuleHead g st L os aForAllowing r)); [reflexivity |].
    destruct H as [-> | ->]; reflexivity.
  - intros d Hd He. unfold DeviceLookup. now rewrite Hd, He.
  - intros H. unfold RuleBody. rewrite H.
    now destruct (negb (RuleHead g st L os aForAllowing r)).
Qed.

(** X5. A rule whose driver-version bound is the all-versions value
    applies to every driver version under every comparator, an
    unrecognized one included: neither the comparator nor the upper
    bound nor the adapter's driver version has an effect on its
    outcome. *)
Theorem all_driver_versions_ignores_comparator (g : GfxInfo) (st : State)
  (L : ScanLocals) (aFeature : Z) (os : OperatingSystem) (aForAllowing : bool)
  (r : GfxDriverInfo) (op : VersionComparisonOp) (max : Z)
  (versions : bool -> Z) :
  mDriverVersion r = allDriverVersions ->
  RuleBody g st
    {| windowProtocol := windowProtocol L;
       refreshRateStatus := refreshRateStatus L;
       hasBattery := hasBattery L;
       osVersion := osVersion L;
       osVersionEx := osVersionEx L;
       adapterVendorID := adapterVendorID L;
       adapterDeviceID := adapterDeviceID L;
       adapterDriverVendor := adapterDriverVendor L;
       adapterInfoFailed := adapterInfoFailed L;
       driverVersion := versions |}
    aFeature os aForAllowing
    (set_mDriverVersionMax (set_mComparisonOp r op) max) =
  RuleBody g st L aFeature os aForAllowing r.
Proof.
  intros H. unfold RuleBody.
  match goal with
  | |- (if negb ?h1 then _ else _) = (if negb ?h2 then _ else _) =>
      change h1 with h2
  end.
  destruct (negb (RuleHead g st L os aForAllowing r)); [reflexivity |].
  match goal with
  | |- match ?d1 with _ => _ end = match ?d2 with _ => _ end =>
      change d1 with d2
  end.
  assert (Ht : forall L1 L2 r1 r2,
    mHardware r1 = mHardware r2 -> mModel r1 = mModel r2 ->
    mProduct r1 = mProduct r2 -> mManufacturer r1 = mManufacturer r2 ->
    mFeature r1 = mFeature r2 -> mFeatureStatus r1 = mFeatureStatus r2 ->
    mRuleId r1 = mRuleId r2 ->
    mDriverVersion r1 = allDriverVersions ->
    mDriverVersion r2 = allDriverVersions ->
    RuleTail g L1 aFeature r1 = RuleTail g L2 aFeature r2).
  { intros L1 L2 r1 r2 H1 H2 H3 H4 H5 H6 H7 H8 H9. unfold RuleTail.
    rewrite H1, H2, H3, H4, H5, H6, H7, H8, H9, Z.eqb_refl, !orb_true_r.
    reflexivity. }
  rewrite (Ht _ L _ r); try reflexivity; try exact H.
Qed.

(** X6. The feature tag of a rule. A rule tagged with the all-features
    value gives the same outcome for every feature. A rule tagged with
    the optional-features value gives, for a feature that
    [OnlyAllowFeatureOnKnownConfig] accepts, the outcome of the same
    rule tagged all-features, and is skipped for the other features. *)
Theorem feature_tag_of_a_rule (g : GfxInfo) (st : State) (L : ScanLocals)
  (os : OperatingSystem) (aForAllowing : bool) (r : GfxDriverInfo) :
  (mFeature r = allFeatures ->
   forall f1 f2,
     RuleBody g st L f1 os aForAllowing r =
     RuleBody g st L f2 os aForAllowing r) /\
  (mFeature r = optionalFeatures ->
   forall aFeature,
     optionalFeatures <> allFeatures ->
     aFeature <> optionalFeatures ->
     RuleHead g st L os aForAllowing r = true ->
     DeviceLookup r (adapterDeviceID L (mGpu2 r)) = None ->
     RuleBody g st L aFeature os aForAllowing r =
     if OnlyAllowFeatureOnKnownConfig aFeature
     then RuleBody g st L aFeature os aForAllowing (set_mFeature r allFeatures)
     else RuleContinue).
Proof.
  split.
  - intros H f1 f2. unfold RuleBody, RuleTail.
    now rewrite H, Z.eqb_refl.
  - intros H aFeature Hne Hf Hh Hd. unfold RuleBody.
    change (RuleHead g st L os aForAllowing (set_mFeature r allFeatures))
      with (RuleHead g st L os aForAllowing r).
    change (DeviceLookup (set_mFeature r allFeatures)
              (adapterDeviceID L (mGpu2 (set_mFeature r allFeatures))))
      with (DeviceLookup r (adapterDeviceID L (mGpu2 r))).
    rewrite Hh, Hd. cbn [negb]. unfold RuleTail.
    cbn [set_mFeature mHardware mModel mProduct mManufacturer mGpu2
         mDriverVersion mFeature mFeatureStatus mRuleId].
    change (DriverVersionMatch (set_mFeature r allFeatures))
      with (DriverVersionMatch r).
    rewrite H, !Z.eqb_refl.
    assert (E1 : (optionalFeatures =? allFeatures) = false)
      by now apply Z.eqb_neq.
    assert (E2 : (optionalFeatures =? aFeature) = false)
      by (apply Z.eqb_neq; congruence).
    rewrite E1, E2. cbn [orb andb].
    destruct (OnlyAllowFeatureOnKnownConfig aFeature); [reflexivity |].
    repeat match goal with
           | |- (if ?c then _ else _) = _ => destruct c; try reflexivity
           end.
Qed.

(** ** Resolution *)

Lemma PreLoop_with_static_list (g : GfxInfo) (rules : list GfxDriverInfo)
  (st : State) : PreLoop (with_static_list g rules) st = PreLoop g st.
Proof. reflexivity. Qed.

Lemma ScanLoop_with_static_list (g : GfxInfo) (rules : list GfxDriverInfo)
  (st : State) (L : ScanLocals) (aFeature : Z) (os : OperatingSystem)
  (aForAllowing : bool) (info : list GfxDriverInfo) (i : nat) :
  ScanLoop (with_static_list g rules) st L aFeature os aForAllowing info i =
  ScanLoop g st L aFeature os aForAllowing info i.
Proof.
  revert i. induction info as [| r rest IH]; intros i; [reflexivity |].
  cbn [ScanLoop].
  change (RuleBody (with_static_list g rules) st L aFeature os aForAllowing r)
    with (RuleBody g st L aFeature os aForAllowing r).
  destruct (RuleBody g st L aFeature os aForAllowing r); [apply IH | |];
    reflexivity.
Qed.

Lemma Find_with_static_list (g : GfxInfo) (rules : list GfxDriverInfo)
  (st : State) (info : list GfxDriverInfo) (aSuggestedVersion : string)
  (aFeature : Z) (aFailureId : string) (os : OperatingSystem)
  (aForAllowing : bool) :
  FindBlocklistedDeviceInList (with_static_list g rules) st info
    aSuggestedVersion aFeature aFailureId os aForAllowing =
  FindBlocklistedDeviceInList g st info aSuggestedVersion aFeature aFailureId
    os aForAllowing.
Proof.
  unfold FindBlocklistedDeviceInList.
  rewrite PreLoop_with_static_list.
  destruct (PreLoop g st) as [L |]; [| reflexivity].
  now rewrite ScanLoop_with_static_list.
Qed.

Lemma Impl_given_list (g1 g2 : GfxInfo) (st : State) (aFeature aStatus : Z)
  (aSuggestedVersion : string) (l1 l2 : list GfxDriverInfo)
  (aFailureId : string) (aOS : option OperatingSystem) :
  GetData g1 st = GetData g2 st ->
  GetAdapterVendorID g1 = GetAdapterVendorID g2 ->
  GetAdapterDeviceID g1 = GetAdapterDeviceID g2 ->
  GetAdapterDriverVersion g1 = GetAdapterDriverVersion g2 ->
  (forall sv fid os fa,
     FindInGivenOrStatic g1 (GetData g2 st) l1 sv aFeature fid os fa =
     FindInGivenOrStatic g2 (GetData g2 st) l2 sv aFeature fid os fa) ->
  GetFeatureStatusImpl g1 st aFeature aStatus aSuggestedVersion l1 aFailureId
    aOS =
  GetFeatureStatusImpl g2 st aFeature aStatus aSuggestedVersion l2 aFailureId
    aOS.
Proof.
  intros Hd H1 H2 H3 Hf. unfold GetFeatureStatusImpl.
  rewrite Hd, H1, H2, H3.
  destruct (aFeature <=? 0); [reflexivity |].
  destruct (negb (aStatus =? FEATURE_STATUS_UNKNOWN)); [reflexivity |].
  destruct (sShutdownOccurred st); [reflexivity |].
  destruct (_ || _ || _); [reflexivity |].
  rewrite Hf.
  destruct (FindInGivenOrStatic g2 _ l2 _ _ _ _ false) as [[s v] f].
  destruct (s =? FEATURE_STATUS_UNKNOWN); [| reflexivity].
  destruct (IsFeatureAllowlisted aFeature); [| reflexivity].
  now rewrite Hf.
Qed.

(** X7. Which list a resolution consults. With a non-empty list passed,
    the static list of the platform has no effect on the result; with an
    empty list passed, the result is the one for the static list passed
    as argument (to an object with any static list). *)
Theorem resolution_consults_one_list (g : GfxInfo) (st : State)
  (aFeature aStatus : Z) (aSuggestedVersion : string)
  (aDriverInfo rules : list GfxDriverInfo) (aFailureId : string)
  (aOS : option OperatingSystem) :
  (aDriverInfo <> [] ->
   GetFeatureStatusImpl (with_static_list g rules) st aFeature aStatus
     aSuggestedVersion aDriverInfo aFailureId aOS =
   GetFeatureStatusImpl g st aFeature aStatus aSuggestedVersion aDriverInfo
     aFailureId aOS) /\
  (GetGfxDriverInfo g <> [] ->
   GetFeatureStatusImpl g st aFeature aStatus aSuggestedVersion []
     aFailureId aOS =
   GetFeatureStatusImpl (with_static_list g rules) st aFeature aStatus
     aSuggestedVersion (GetGfxDriverInfo g) aFailureId aOS).
Proof.
  split; intros Hne.
  - apply Impl_given_list; try reflexivity.
    intros sv fid os fa. unfold FindInGivenOrStatic.
    destruct aDriverInfo as [| r rest]; [congruence |]. cbn [length Nat.eqb negb].
    apply Find_with_static_list.
  - apply Impl_given_list; try reflexivity.
    intros sv fid os fa. unfold FindInGivenOrStatic.
    destruct (GetGfxDriverInfo g) as [| r rest] eqn:E; [congruence |].
    cbn [length Nat.eqb negb].
    symmetry. apply Find_with_static_list.
Qed.

(** X8. [GetFeatureStatusImpl] always returns NS_OK, and it changes
    nothing but the display members of the object: the preferences, the
    snapshot and the shutdown flag are left as they are. When the
    feature is not positive, or the status passed in is not UNKNOWN, or
    shutdown has occurred, the outputs are the values passed in and the
    state is unchanged. *)
Theorem resolution_reads_only (g : GfxInfo) (st : State) (aFeature : Z)
  (aStatus : Z) (aSuggestedVersion : string)
  (aDriverInfo : list GfxDriverInfo) (aFailureId : string)
  (aOS : option OperatingSystem) :
  fst (fst (fst (fst (GetFeatureStatusImpl g st aFeature aStatus
                        aSuggestedVersion aDriverInfo aFailureId aOS)))) =
  NS_OK /\
  prefs (snd (GetFeatureStatusImpl g st aFeature aStatus aSuggestedVersion
                aDriverInfo aFailureId aOS)) = prefs st /\
  sFeatureStatus (snd (GetFeatureStatusImpl g st aFeature aStatus
                         aSuggestedVersion aDriverInfo aFailureId aOS)) =
  sFeatureStatus st /\
  sShutdownOccurred (snd (GetFeatureStatusImpl g st aFeature aStatus
                            aSuggestedVersion aDriverInfo aFailureId aOS)) =
  sShutdownOccurred st /\
  (aFeature <= 0 \/ aStatus <> FEATURE_STATUS_UNKNOWN \/
   sShutdownOccurred st = true ->
   GetFeatureStatusImpl g st aFeature aStatus aSuggestedVersion aDriverInfo
     aFailureId aOS =
   ((NS_OK, aStatus, aSuggestedVersion, aFailureId), st)).
Proof.
  assert (Hg : prefs (GetData g st) = prefs st /\
               sFeatureStatus (GetData g st) = sFeatureStatus st /\
               sShutdownOccurred (GetData g st) = sShutdownOccurred st).
  { unfold GetData. destruct (negb _); [now repeat split |].
    destruct (mScreenCount st =? 0); now repeat split. }
  unfold GetFeatureStatusImpl.
  destruct (aFeature <=? 0) eqn:E1; [now repeat split |].
  destruct (aStatus =? FEATURE_STATUS_UNKNOWN) eqn:E2; cbn [negb];
    [| now repeat split].
  destruct (sShutdownOccurred st) eqn:E3; [now repeat split |].
  assert (Hearly : ~ (aFeature <= 0 \/ aStatus <> FEATURE_STATUS_UNKNOWN \/
                      false = true)).
  { apply Z.leb_gt in E1. apply Z.eqb_eq in E2.
    intros [H | [H | H]]; [lia | congruence | discriminate]. }
  destruct (_ || _ || _).
  - destruct (OnlyAllowFeatureOnKnownConfig aFeature); cbn [fst snd];
      (split; [reflexivity |]); (repeat (split; [tauto |]));
      intros H; now destruct Hearly.
  - destruct (FindInGivenOrStatic g _ aDriverInfo _ _ _ _ false) as [[s v] f].
    destruct (s =? FEATURE_STATUS_UNKNOWN).
    + destruct (IsFeatureAllowlisted aFeature).
      * destruct (FindInGivenOrStatic g _ aDriverInfo _ _ _ _ true)
          as [[s' v'] f'].
        destruct (s' =? FEATURE_STATUS_UNKNOWN); cbn [fst snd];
          (split; [reflexivity |]); (repeat (split; [tauto |]));
          intros H; now destruct Hearly.
      * cbn [fst snd]. (split; [reflexivity |]); (repeat (split; [tauto |])).
        intros H; now destruct Hearly.
    + cbn [fst snd]. (split; [reflexivity |]); (repeat (split; [tauto |])).
      intros H; now destruct Hearly.
Qed.

(** Where the status of a scan comes from. *)
Lemma Find_status_cases (g : GfxInfo) (st : State)
  (info : list GfxDriverInfo) (aSuggestedVersion : string) (aFeature : Z)
  (aFailureId : string) (os : OperatingSystem) (aForAllowing : bool) :
  fst (fst (FindBlocklistedDeviceInList g st info aSuggestedVersion aFeature
              aFailureId os aForAllowing)) = 0 /\ PreLoop g st = None \/
  fst (fst (FindBlocklistedDeviceInList g st info aSuggestedVersion aFeature
              aFailureId os aForAllowing)) = FEATURE_STATUS_UNKNOWN \/
  fst (fst (FindBlocklistedDeviceInList g st info aSuggestedVersion aFeature
              aFailureId os aForAllowing)) = FEATURE_BLOCKED_DEVICE \/
  exists r, In r info /\
    fst (fst (FindBlocklistedDeviceInList g st info aSuggestedVersion
                aFeature aFailureId os aForAllowing)) = mFeatureStatus r.
Proof.
  unfold FindBlocklistedDeviceInList.
  destruct (PreLoop g st) as [L |]; [| now left].
  destruct (ScanLoop g st L aFeature os aForAllowing info 0) as [i o] eqn:El.
  assert (Hpost : forall sf,
    fst (fst (PostLoop L info aSuggestedVersion aFeature i sf)) = fst sf \/
    fst (fst (PostLoop L info aSuggestedVersion aFeature i sf)) =
    FEATURE_BLOCKED_DEVICE).
  { intros sf. unfold PostLoop. destruct XP_WIN; [| now left].
    cbn [fst]. unfold NV310MBlock.
    destruct (_ && (aFeature =? FEATURE_DIRECT2D)); [| now left].
    destruct (negb (adapterInfoFailed L true)); [| now left].
    destruct (_ && _); [now right | now left]. }
  destruct o as [| | status failureId].
  - destruct (Hpost (FEATURE_STATUS_UNKNOWN, aFailureId)) as [H | H];
      rewrite H; tauto.
  - destruct (Hpost (FEATURE_STATUS_UNKNOWN, aFailureId)) as [H | H];
      rewrite H; tauto.
  - destruct (Hpost (status, failureId)) as [H | H]; rewrite H; [| tauto].
    right. right. right.
    destruct (ScanLoop_win_In _ _ _ _ _ _ _ _ _ _ _ El) as (r & Hin & Hb).
    destruct (RuleBody_win _ _ _ _ _ _ _ _ _ Hb) as (_ & Hs & _).
    exists r. now split.
Qed.

(** X9. A resolution that starts from UNKNOWN, for a positive feature
    and before shutdown, never ends in UNKNOWN (the constants STATUS_OK,
    DENIED and BLOCKED_DEVICE being distinct from UNKNOWN). The status
    it returns is STATUS_OK, DENIED, BLOCKED_DEVICE, the status of a
    rule of the list consulted, or the literal 0 of a scan that returns
    before its loop. *)
Theorem resolution_never_ends_unknown (g : GfxInfo) (st : State)
  (aFeature : Z) (aSuggestedVersion : string)
  (aDriverInfo : list GfxDriverInfo) (aFailureId : string)
  (aOS : option OperatingSystem) :
  FEATURE_STATUS_OK <> FEATURE_STATUS_UNKNOWN ->
  FEATURE_DENIED <> FEATURE_STATUS_UNKNOWN ->
  FEATURE_BLOCKED_DEVICE <> FEATURE_STATUS_UNKNOWN ->
  0 < aFeature ->
  sShutdownOccurred st = false ->
  snd (fst (fst (fst (GetFeatureStatusImpl g st aFeature
                        FEATURE_STATUS_UNKNOWN aSuggestedVersion aDriverInfo
                        aFailureId aOS)))) <> FEATURE_STATUS_UNKNOWN /\
  (snd (fst (fst (fst (GetFeatureStatusImpl g st aFeature
                         FEATURE_STATUS_UNKNOWN aSuggestedVersion aDriverInfo
                         aFailureId aOS)))) = FEATURE_STATUS_OK \/
   snd (fst (fst (fst (GetFeatureStatusImpl g st aFeature
                         FEATURE_STATUS_UNKNOWN aSuggestedVersion aDriverInfo
                         aFailureId aOS)))) = FEATURE_DENIED \/
   snd (fst (fst (fst (GetFeatureStatusImpl g st aFeature
                         FEATURE_STATUS_UNKNOWN aSuggestedVersion aDriverInfo
                         aFailureId aOS)))) = FEATURE_BLOCKED_DEVICE \/
   snd (fst (fst (fst (GetFeatureStatusImpl g st aFeature
                         FEATURE_STATUS_UNKNOWN aSuggestedVersion aDriverInfo
                         aFailureId aOS)))) = 0 /\
   PreLoop g (GetData g st) = None \/
   exists r,
     In r (if negb (length aDriverInfo =? 0)%nat then aDriverInfo
           else GetGfxDriverInfo g) /\
     snd (fst (fst (fst (GetFeatureStatusImpl g st aFeature
                           FEATURE_STATUS_UNKNOWN aSuggestedVersion
                           aDriverInfo aFailureId aOS)))) = mFeatureStatus r).
Proof.
  intros Hok Hden Hblk Hpos Hsh. unfold GetFeatureStatusImpl.
  assert (E1 : (aFeature <=? 0) = false) by now apply Z.leb_gt.
  rewrite E1, Z.eqb_refl, Hsh. cbn [negb].
  assert (Hscan : forall sv fid os fa,
    fst (fst (FindInGivenOrStatic g (GetData g st) aDriverInfo sv aFeature
                fid os fa)) = 0 /\ PreLoop g (GetData g st) = None \/
    fst (fst (FindInGivenOrStatic g (GetData g st) aDriverInfo sv aFeature
                fid os fa)) = FEATURE_STATUS_UNKNOWN \/
    fst (fst (FindInGivenOrStatic g (GetData g st) aDriverInfo sv aFeature
                fid os fa)) = FEATURE_BLOCKED_DEVICE \/
    exists r,
      In r (if negb (length aDriverInfo =? 0)%nat then aDriverInfo
            else GetGfxDriverInfo g) /\
      fst (fst (FindInGivenOrStatic g (GetData g st) aDriverInfo sv aFeature
                  fid os fa)) = mFeatureStatus r).
  { intros sv fid os fa. unfold FindInGivenOrStatic.
    destruct (negb (length aDriverInfo =? 0)%nat); apply Find_status_cases. }
  destruct (_ || _ || _).
  - destruct (OnlyAllowFeatureOnKnownConfig aFeature); cbn [fst snd];
      (split; [assumption | tauto]).
  - pose proof (Hscan aSuggestedVersion aFailureId
                  match aOS with Some o => o | None => OS_Unknown end false)
      as H1.
    destruct (FindInGivenOrStatic g _ aDriverInfo _ _ _ _ false) as [[s v] f].
    cbn [fst] in H1.
    destruct (s =? FEATURE_STATUS_UNKNOWN) eqn:Es.
    + destruct (IsFeatureAllowlisted aFeature);
        [| cbn [fst snd]; split; [assumption | tauto]].
      pose proof (Hscan v f
                    match aOS with Some o => o | None => OS_Unknown end true)
        as H2.
      destruct (FindInGivenOrStatic g _ aDriverInfo _ _ _ _ true)
        as [[s' v'] f'].
      cbn [fst] in H2.
      destruct (s' =? FEATURE_STATUS_UNKNOWN) eqn:Es'; cbn [fst snd].
      * split; [assumption | tauto].
      * apply Z.eqb_neq in Es'. split; [assumption |].
        destruct H2 as [H2 | [H2 | [H2 | H2]]]; [tauto | contradiction | tauto |].
        right. right. right. right. exact H2.
    + cbn [fst snd]. apply Z.eqb_neq in Es. split; [assumption |].
      destruct H1 as [H1 | [H1 | [H1 | H1]]]; [tauto | contradiction | tauto |].
      right. right. right. right. exact H1.
Qed.

(** ** The stored overrides *)

Lemma length_append (a s : string) :
  String.length (a ++ s) = (String.length a + String.length s)%nat.
Proof.
  induction a as [| c a IH]; [reflexivity |].
  change (S (String.length (a ++ s)) =
          S (String.length a + String.length s)). now rewrite IH.
Qed.

Lemma append_neq_self (n s : string) : s <> "" -> n ++ s <> n.
Proof.
  intros Hs H. apply (f_equal String.length) in H.
  rewrite length_append in H. destruct s as [| c s]; [congruence |].
  change (String.length (String c s)) with (S (String.length s)) in H. lia.
Qed.

Lemma append_cancel_r (a b s : string) : a ++ s = b ++ s -> a = b.
Proof.
  revert b. induction a as [| c a IH]; intros [| c' b] H.
  - reflexivity.
  - apply (f_equal String.length) in H.
    rewrite !length_append in H. cbn in H. lia.
  - apply (f_equal String.length) in H.
    rewrite !length_append in H. cbn in H. lia.
  - change (String c (a ++ s) = String c' (b ++ s)) in H.
    injection H as -> H. f_equal. now apply IH.
Qed.

Lemma failureid_neq (n : string) : n ++ ".failureid" <> n.
Proof. now apply append_neq_self. Qed.

Lemma prefs_SetPrefValueForFeature (g : GfxInfo) (st : State)
  (aFeature aValue : Z) (aFailureId prefname : string) :
  GetPrefNameForFeature aFeature = Some prefname ->
  prefs (SetPrefValueForFeature g st aFeature aValue aFailureId) =
  if negb (IsEmpty aFailureId)
  then <[prefname ++ ".failureid" := PrefString aFailureId]>
         (<[prefname := PrefInt aValue]> (prefs st))
  else <[prefname := PrefInt aValue]> (prefs st).
Proof.
  intros Hn. unfold SetPrefValueForFeature. rewrite Hn.
  unfold Preferences_SetCString, Preferences_SetInt.
  destruct (XRE_IsParentProcess g), (negb (IsEmpty aFailureId)); reflexivity.
Qed.

Lemma prefs_RemovePrefForFeature (g : GfxInfo) (st : State)
  (aFeature : Z) (prefname : string) :
  GetPrefNameForFeature aFeature = Some prefname ->
  prefs (RemovePrefForFeature g st aFeature) = delete prefname (prefs st).
Proof.
  intros Hn. unfold RemovePrefForFeature. rewrite Hn.
  unfold Preferences_ClearUser.
  destruct (XRE_IsParentProcess g); reflexivity.
Qed.

Lemma IsEmpty_false (s : string) : s <> "" -> IsEmpty s = false.
Proof.
  intros H. unfold IsEmpty, Equals. now apply String.eqb_neq.
Qed.

(** X10. What is stored for a feature is what a query returns: after
    [SetPrefValueForFeature] with a status other than DENIED and a
    non-empty failure id, [GetPrefValueForFeature] finds that status and
    that failure id, and [GetFeatureStatus] (the force-all preference
    being 0) returns them in every process, without calling the
    resolution and without changing the state. *)
Theorem stored_override_round_trip
  (impl : GfxInfo -> State -> Z -> Z -> string -> list GfxDriverInfo ->
          string -> option OperatingSystem ->
          (nsresult * Z * string * string) * State)
  (g : GfxInfo) (st : State) (aFeature aValue : Z)
  (aFailureId prefname : string) (aStatus : Z) (aFailureIdIn : string) :
  GetPrefNameForFeature aFeature = Some prefname ->
  aValue <> FEATURE_DENIED ->
  aFailureId <> "" ->
  GetPrefValueForFeature
    (prefs (SetPrefValueForFeature g st aFeature aValue aFailureId))
    aFeature aStatus aFailureIdIn = (true, aValue, aFailureId) /\
  ((if RELEASE_OR_BETA then 0 else gfx_blocklist_all_AtStartup g) = 0 ->
   GetFeatureStatus impl g
     (SetPrefValueForFeature g st aFeature aValue aFailureId)
     aFeature aFailureIdIn aStatus =
   Some ((NS_OK, aValue, aFailureId),
         SetPrefValueForFeature g st aFeature aValue aFailureId)).
Proof.
  intros Hn Hv Hf.
  assert (Hget : GetPrefValueForFeature
    (prefs (SetPrefValueForFeature g st aFeature aValue aFailureId))
    aFeature aStatus aFailureIdIn = (true, aValue, aFailureId)).
  { unfold GetPrefValueForFeature. rewrite Hn.
    rewrite (prefs_SetPrefValueForFeature _ _ _ _ _ _ Hn).
    rewrite (IsEmpty_false _ Hf). cbn [negb].
    unfold Preferences_GetInt, Preferences_GetCString.
    rewrite lookup_insert_ne by apply failureid_neq.
    rewrite lookup_insert_eq.
    assert (E : (aValue =? FEATURE_DENIED) = false) by now apply Z.eqb_neq.
    rewrite E. now rewrite lookup_insert_eq. }
  split; [exact Hget |].
  intros Hall. unfold GetFeatureStatus. rewrite Hall. cbn [Z.gtb Z.ltb Z.compare].
  now rewrite Hget.
Qed.

(** X11. The failure id of an override outlives it. [RemovePrefForFeature]
    clears the status only, and [SetPrefValueForFeature] with an empty
    failure id writes none: an override stored without failure id after
    a removal is reported with the failure id stored before the removal
    (FEATURE_FAILURE_BLOCKLIST_PREF when none was). *)
Theorem failure_id_outlives_removal (g : GfxInfo) (st : State)
  (aFeature aValue : Z) (prefname : string) (aStatus : Z)
  (aFailureIdIn : string) :
  GetPrefNameForFeature aFeature = Some prefname ->
  aValue <> FEATURE_DENIED ->
  GetPrefValueForFeature
    (prefs (SetPrefValueForFeature g (RemovePrefForFeature g st aFeature)
              aFeature aValue ""))
    aFeature aStatus aFailureIdIn =
  (true, aValue,
   match Preferences_GetCString (prefs st) (prefname ++ ".failureid") with
   | Some failureValue => failureValue
   | None => "FEATURE_FAILURE_BLOCKLIST_PREF"
   end).
Proof.
  intros Hn Hv. unfold GetPrefValueForFeature. rewrite Hn.
  rewrite (prefs_SetPrefValueForFeature _ _ _ _ _ _ Hn).
  rewrite (prefs_RemovePrefForFeature _ _ _ _ Hn).
  change (negb (IsEmpty "")) with false. cbv iota.
  unfold Preferences_GetInt, Preferences_GetCString.
  rewrite lookup_insert_eq.
  assert (E : (aValue =? FEATURE_DENIED) = false) by now apply Z.eqb_neq.
  rewrite E.
  rewrite lookup_insert_ne by (intros H; symmetry in H;
                               now apply failureid_neq in H).
  rewrite lookup_delete_ne by (intros H; symmetry in H;
                               now apply failureid_neq in H).
  now destruct (prefs st !! (prefname ++ ".failureid")) as [[] |].
Qed.

Lemma GetPrefValueForFeature_ext (p1 p2 : gmap string PrefValue)
  (aFeature aValue : Z) (aFailureId : string) :
  (forall prefname, GetPrefNameForFeature aFeature = Some prefname ->
     p1 !! prefname = p2 !! prefname /\
     p1 !! (prefname ++ ".failureid") = p2 !! (prefname ++ ".failureid")) ->
  GetPrefValueForFeature p1 aFeature aValue aFailureId =
  GetPrefValueForFeature p2 aFeature aValue aFailureId.
Proof.
  intros H. unfold GetPrefValueForFeature.
  destruct (GetPrefNameForFeature aFeature) as [n |]; [| reflexivity].
  destruct (H n eq_refl) as [H1 H2].
  unfold Preferences_GetInt, Preferences_GetCString. now rewrite H1, H2.
Qed.

(** X12. Storing or removing the override of one feature leaves the
    override of a feature with another preference name as it was (the
    names being such that neither is the failure-id name of the
    other). *)
Theorem override_of_other_feature_untouched (g : GfxInfo) (st : State)
  (aFeature aOther aValue : Z) (aFailureId prefname other : string)
  (aStatus : Z) (aFailureIdIn : string) :
  GetPrefNameForFeature aFeature = Some prefname ->
  GetPrefNameForFeature aOther = Some other ->
  prefname <> other ->
  prefname <> other ++ ".failureid" ->
  prefname ++ ".failureid" <> other ->
  GetPrefValueForFeature
    (prefs (SetPrefValueForFeature g st aOther aValue aFailureId))
    aFeature aStatus aFailureIdIn =
  GetPrefValueForFeature (prefs st) aFeature aStatus aFailureIdIn /\
  GetPrefValueForFeature (prefs (RemovePrefForFeature g st aOther))
    aFeature aStatus aFailureIdIn =
  GetPrefValueForFeature (prefs st) aFeature aStatus aFailureIdIn.
Proof.
  intros Hn Ho H1 H2 H3.
  assert (H4 : prefname ++ ".failureid" <> other ++ ".failureid").
  { intros H. now apply append_cancel_r in H. }
  split; apply GetPrefValueForFeature_ext; intros n Hn'; rewrite Hn in Hn';
    injection Hn' as <-.
  - rewrite (prefs_SetPrefValueForFeature _ _ _ _ _ _ Ho).
    destruct (negb (IsEmpty aFailureId));
      rewrite ?lookup_insert_ne by congruence; now split.
  - rewrite (prefs_RemovePrefForFeature _ _ _ _ Ho).
    rewrite !lookup_delete_ne by congruence. now split.
Qed.

(** ** Applying a batch *)

Lemma sFeatureStatus_snd_Impl (g : GfxInfo) (st : State) (aFeature : Z)
  (aStatus : Z) (aSuggestedVersion : string)
  (aDriverInfo : list GfxDriverInfo) (aFailureId : string)
  (aOS : option OperatingSystem) :
  sFeatureStatus (snd (GetFeatureStatusImpl g st aFeature aStatus
                         aSuggestedVersion aDriverInfo aFailureId aOS)) =
  sFeatureStatus st.
Proof.
  destruct (GetFeatureStatusImpl_state g st aFeature aStatus
              aSuggestedVersion aDriverInfo aFailureId aOS) as [-> | ->];
    [reflexivity |].
  unfold GetData. destruct (negb _); [reflexivity |].
  now destruct (mScreenCount st =? 0).
Qed.

Lemma apply_writes_app (ws1 ws2 : list (string * option PrefValue))
  (p : gmap string PrefValue) :
  apply_writes (ws1 ++ ws2)%list p = apply_writes ws2 (apply_writes ws1 p).
Proof. unfold apply_writes. apply fold_left_app. Qed.

Lemma apply_writes_lookup (ws : list (string * option PrefValue))
  (p : gmap string PrefValue) (k : string) :
  apply_writes ws p !! k =
  match last_write ws k with Some o => o | None => p !! k end.
Proof.
  revert p. induction ws as [| w ws IH]; intros p; [reflexivity |].
  change (apply_writes (w :: ws) p) with (apply_writes ws (apply_write p w)).
  rewrite IH. cbn [last_write].
  destruct (last_write ws k) as [o |]; [reflexivity |].
  unfold apply_write. destruct w as [k' [v |]]; cbn [fst snd].
  - destruct (bool_decide_reflect (k' = k)) as [-> | Hne].
    + now rewrite lookup_insert_eq.
    + now rewrite lookup_insert_ne.
  - destruct (bool_decide_reflect (k' = k)) as [-> | Hne].
    + now rewrite lookup_delete_eq.
    + now rewrite lookup_delete_ne.
Qed.

Lemma apply_writes_twice (ws : list (string * option PrefValue))
  (p : gmap string PrefValue) :
  apply_writes ws (apply_writes ws p) = apply_writes ws p.
Proof.
  apply map_eq. intros k. rewrite !apply_writes_lookup.
  now destruct (last_write ws k).
Qed.

Lemma last_write_In (ws : list (string * option PrefValue)) (k : string)
  (o : option PrefValue) :
  last_write ws k = Some o -> In (k, o) ws.
Proof.
  induction ws as [| w ws IH]; [discriminate |]. cbn [last_write].
  destruct (last_write ws k) as [o' |].
  - intros H. right. apply IH. exact H.
  - destruct (bool_decide_reflect (fst w = k)) as [<- | Hne]; [| discriminate].
    intros [= <-]. left. now destruct w.
Qed.

Lemma last_write_None (ws : list (string * option PrefValue)) (k : string) :
  last_write ws k = None <-> Forall (fun w => fst w <> k) ws.
Proof.
  induction ws as [| w ws IH]; [now split |]. cbn [last_write]. split.
  - destruct (last_write ws k) as [o |]; [discriminate |].
    destruct (bool_decide_reflect (fst w = k)) as [E | Hne]; [discriminate |].
    intros _. constructor; [exact Hne | now apply IH].
  - intros H. inversion H as [| w' ws' Hw Hws]; subst.
    apply IH in Hws. rewrite Hws.
    now destruct (bool_decide_reflect (fst w = k)).
Qed.

Lemma prefs_Set_writes (g : GfxInfo) (st : State) (aFeature aValue : Z)
  (aFailureId : string) :
  prefs (SetPrefValueForFeature g st aFeature aValue aFailureId) =
  apply_writes (SetPrefValueForFeature_writes aFeature aValue aFailureId)
    (prefs st).
Proof.
  unfold SetPrefValueForFeature, SetPrefValueForFeature_writes.
  destruct (GetPrefNameForFeature aFeature) as [n |]; [| reflexivity].
  destruct (XRE_IsParentProcess g), (negb (IsEmpty aFailureId)); reflexivity.
Qed.

Lemma prefs_Remove_writes (g : GfxInfo) (st : State) (aFeature : Z) :
  prefs (RemovePrefForFeature g st aFeature) =
  apply_writes (RemovePrefForFeature_writes aFeature) (prefs st).
Proof.
  unfold RemovePrefForFeature, RemovePrefForFeature_writes.
  destruct (GetPrefNameForFeature aFeature) as [n |]; [| reflexivity].
  destruct (XRE_IsParentProcess g); reflexivity.
Qed.

Lemma prefs_snd_Impl (g : GfxInfo) (st : State) (aFeature aStatus : Z)
  (aSuggestedVersion : string) (aDriverInfo : list GfxDriverInfo)
  (aFailureId : string) (aOS : option OperatingSystem) :
  prefs (snd (GetFeatureStatusImpl g st aFeature aStatus aSuggestedVersion
                aDriverInfo aFailureId aOS)) = prefs st.
Proof.
  destruct (GetFeatureStatusImpl_state g st aFeature aStatus
              aSuggestedVersion aDriverInfo aFailureId aOS) as [-> | ->];
    [reflexivity | apply GetData_prefs].
Qed.

(** The preferences after one iteration are the preferences before it
    with the writes of the iteration applied. *)
Lemma prefs_EvaluateFeature (g : GfxInfo) (aDriverInfo : list GfxDriverInfo)
  (os : OperatingSystem) (st : State) (feature : Z) :
  prefs (EvaluateFeature g aDriverInfo os st feature) =
  apply_writes (EvaluateFeature_writes g aDriverInfo os st feature) (prefs st).
Proof.
  unfold EvaluateFeature, EvaluateFeature_writes.
  pose proof (prefs_snd_Impl g st feature FEATURE_STATUS_UNKNOWN ""
                aDriverInfo "" (Some os)) as Hp.
  destruct (GetFeatureStatusImpl g st feature FEATURE_STATUS_UNKNOWN ""
              aDriverInfo "" (Some os)) as [[[[rv status] version] fid] st1].
  cbn [fst snd] in *.
  destruct (_ || _ || _ || _ || _).
  - now rewrite prefs_Remove_writes, Hp.
  - destruct (status =? FEATURE_BLOCKED_DRIVER_VERSION).
    + rewrite prefs_Set_writes.
      destruct (negb (IsEmpty version)); cbn [prefs set_prefs
        SetPrefValueForDriverVersion RemovePrefForDriverVersion];
        now rewrite Hp.
    + destruct (_ || _ || _ || _ || _).
      * now rewrite prefs_Set_writes, Hp.
      * now rewrite prefs_Remove_writes, Hp.
Qed.

Lemma Find_state_ext (g : GfxInfo) (st1 st2 : State)
  (info : list GfxDriverInfo) (aSuggestedVersion : string) (aFeature : Z)
  (aFailureId : string) (os : OperatingSystem) (aForAllowing : bool) :
  display st1 = display st2 ->
  FindBlocklistedDeviceInList g st1 info aSuggestedVersion aFeature aFailureId
    os aForAllowing =
  FindBlocklistedDeviceInList g st2 info aSuggestedVersion aFeature aFailureId
    os aForAllowing.
Proof.
  intros Hd.
  destruct (Find_display_ext g st1 st2 info aSuggestedVersion aFeature
              aFailureId os aForAllowing Hd) as [HP HS].
  unfold FindBlocklistedDeviceInList. rewrite HP.
  destruct (PreLoop g st2) as [L |]; [| reflexivity]. now rewrite HS.
Qed.

(** What a resolution returns depends on the state only through the
    display members after [GetData] and the shutdown flag. *)
Lemma Impl_result_ext (g : GfxInfo) (st1 st2 : State) (aFeature aStatus : Z)
  (aSuggestedVersion : string) (aDriverInfo : list GfxDriverInfo)
  (aFailureId : string) (aOS : option OperatingSystem) :
  display (GetData g st1) = display (GetData g st2) ->
  sShutdownOccurred st1 = sShutdownOccurred st2 ->
  fst (GetFeatureStatusImpl g st1 aFeature aStatus aSuggestedVersion
         aDriverInfo aFailureId aOS) =
  fst (GetFeatureStatusImpl g st2 aFeature aStatus aSuggestedVersion
         aDriverInfo aFailureId aOS).
Proof.
  intros Hd Hs. unfold GetFeatureStatusImpl. rewrite Hs.
  destruct (aFeature <=? 0); [reflexivity |].
  destruct (negb (aStatus =? FEATURE_STATUS_UNKNOWN)); [reflexivity |].
  destruct (sShutdownOccurred st2); [reflexivity |].
  destruct (_ || _ || _).
  - now destruct (OnlyAllowFeatureOnKnownConfig aFeature).
  - assert (Hf : forall sv fid os fa,
      FindInGivenOrStatic g (GetData g st1) aDriverInfo sv aFeature fid os fa =
      FindInGivenOrStatic g (GetData g st2) aDriverInfo sv aFeature fid os fa).
    { intros sv fid os fa. unfold FindInGivenOrStatic.
      destruct (negb _); now apply Find_state_ext. }
    rewrite Hf.
    destruct (FindInGivenOrStatic g (GetData g st2) aDriverInfo _ _ _ _ false)
      as [[s v] f].
    destruct (s =? FEATURE_STATUS_UNKNOWN); [| reflexivity].
    destruct (IsFeatureAllowlisted aFeature); [| reflexivity].
    rewrite Hf.
    destruct (FindInGivenOrStatic g (GetData g st2) aDriverInfo _ _ _ _
                true) as [[s' v'] f'].
    now destruct (s' =? FEATURE_STATUS_UNKNOWN).
Qed.

Lemma EvaluateFeature_writes_ext (g : GfxInfo)
  (aDriverInfo : list GfxDriverInfo) (os : OperatingSystem)
  (st1 st2 : State) (feature : Z) :
  display (GetData g st1) = display (GetData g st2) ->
  sShutdownOccurred st1 = sShutdownOccurred st2 ->
  EvaluateFeature_writes g aDriverInfo os st1 feature =
  EvaluateFeature_writes g aDriverInfo os st2 feature.
Proof.
  intros Hd Hs. unfold EvaluateFeature_writes.
  now rewrite (Impl_result_ext g st1 st2 _ _ _ _ _ _ Hd Hs).
Qed.

(** The preferences after the loop over [features] are the preferences
    before it with the writes of the iterations applied in order, each
    computed in the state the loop starts from. *)
Lemma prefs_fold_EvaluateFeature (g : GfxInfo)
  (aDriverInfo : list GfxDriverInfo) (os : OperatingSystem)
  (features : list Z) (st0 st : State) :
  display (GetData g st) = display (GetData g st0) ->
  sShutdownOccurred st = sShutdownOccurred st0 ->
  prefs (fold_left (EvaluateFeature g aDriverInfo os) features st) =
  apply_writes
    (concat (map (EvaluateFeature_writes g aDriverInfo os st0) features))
    (prefs st).
Proof.
  revert st. induction features as [| f rest IH]; intros st Hd Hs;
    [reflexivity |].
  cbn [fold_left map concat]. rewrite apply_writes_app.
  destruct (EvaluateFeature_frame g aDriverInfo os st f) as [F1 F2].
  rewrite IH by congruence.
  rewrite prefs_EvaluateFeature.
  now rewrite (EvaluateFeature_writes_ext g aDriverInfo os st st0 f Hd Hs).
Qed.

(** X14. Applying a batch a second time changes no preference: the
    overrides and the suggested version stored by
    [EvaluateDownloadedBlocklist] are a fixed point of it. *)
Theorem applying_a_batch_twice (g : GfxInfo) (st : State)
  (aDriverInfo : list GfxDriverInfo) :
  prefs (EvaluateDownloadedBlocklist g
           (EvaluateDownloadedBlocklist g st aDriverInfo) aDriverInfo) =
  prefs (EvaluateDownloadedBlocklist g st aDriverInfo) /\
  (forall aFeature aValue aFailureId,
     GetPrefValueForFeature
       (prefs (EvaluateDownloadedBlocklist g
                 (EvaluateDownloadedBlocklist g st aDriverInfo) aDriverInfo))
       aFeature aValue aFailureId =
     GetPrefValueForFeature
       (prefs (EvaluateDownloadedBlocklist g st aDriverInfo))
       aFeature aValue aFailureId).
Proof.
  assert (H : prefs (EvaluateDownloadedBlocklist g
                (EvaluateDownloadedBlocklist g st aDriverInfo) aDriverInfo) =
              prefs (EvaluateDownloadedBlocklist g st aDriverInfo)).
  { unfold EvaluateDownloadedBlocklist.
    destruct (length aDriverInfo =? 0)%nat; [reflexivity |].
    set (os := GetOperatingSystem g).
    set (fs := seqZ FEATURE_START (FEATURE_COUNT - FEATURE_START)).
    destruct (fold_EvaluateFeature_frame g aDriverInfo os fs st) as [F1 F2].
    rewrite (prefs_fold_EvaluateFeature g aDriverInfo os fs st _ F1 F2).
    rewrite (prefs_fold_EvaluateFeature g aDriverInfo os fs st st eq_refl
               eq_refl).
    apply apply_writes_twice. }
  split; [exact H |]. intros. now rewrite H.
Qed.

(** The writes of an iteration go to the names of the feature and to
    the suggested-version slot; an integer written is one of the six
    stored statuses and none of the removed ones; and the status name of
    the feature is written whenever the feature has one. *)
Lemma EvaluateFeature_writes_spec (g : GfxInfo)
  (aDriverInfo : list GfxDriverInfo) (os : OperatingSystem) (st : State)
  (feature : Z) :
  Forall (fun w =>
            (fst w = SUGGESTED_VERSION_PREF \/ In (fst w) (PrefNamesOf feature))
            /\
            (forall v, snd w = Some (PrefInt v) ->
               IsStoredStatus v = true /\ IsRemovedStatus v = false))
    (EvaluateFeature_writes g aDriverInfo os st feature) /\
  (forall prefname, GetPrefNameForFeature feature = Some prefname ->
     exists o, In (prefname, o)
                 (EvaluateFeature_writes g aDriverInfo os st feature)).
Proof.
  unfold EvaluateFeature_writes.
  destruct (fst (GetFeatureStatusImpl g st feature FEATURE_STATUS_UNKNOWN ""
                   aDriverInfo "" (Some os))) as [[[rv status] version] fid].
  assert (Hrem :
    Forall (fun w =>
              (fst w = SUGGESTED_VERSION_PREF \/
               In (fst w) (PrefNamesOf feature)) /\
              (forall v, snd w = Some (PrefInt v) ->
                 IsStoredStatus v = true /\ IsRemovedStatus v = false))
      (RemovePrefForFeature_writes feature) /\
    (forall prefname, GetPrefNameForFeature feature = Some prefname ->
       exists o, In (prefname, o) (RemovePrefForFeature_writes feature))).
  { unfold RemovePrefForFeature_writes, PrefNamesOf.
    destruct (GetPrefNameForFeature feature) as [n |].
    - split.
      + constructor; [| constructor]. cbn. split; [right; now left |].
        discriminate.
      + intros n' [= <-]. exists None. now left.
    - split; [constructor | discriminate]. }
  assert (Hset :
    IsStoredStatus status = true -> IsRemovedStatus status = false ->
    Forall (fun w =>
              (fst w = SUGGESTED_VERSION_PREF \/
               In (fst w) (PrefNamesOf feature)) /\
              (forall v, snd w = Some (PrefInt v) ->
                 IsStoredStatus v = true /\ IsRemovedStatus v = false))
      (SetPrefValueForFeature_writes feature status fid) /\
    (forall prefname, GetPrefNameForFeature feature = Some prefname ->
       exists o, In (prefname, o)
                   (SetPrefValueForFeature_writes feature status fid))).
  { intros Hs Hr. unfold SetPrefValueForFeature_writes, PrefNamesOf.
    destruct (GetPrefNameForFeature feature) as [n |].
    - split.
      + constructor.
        * cbn. split; [right; now left |]. now intros v [= <-].
        * destruct (negb (IsEmpty fid)); constructor; [| constructor].
          cbn. split; [right; right; now left | discriminate].
      + intros n' [= <-]. exists (Some (PrefInt status)). now left.
    - split; [constructor | discriminate]. }
  fold (IsRemovedStatus status).
  destruct (IsRemovedStatus status) eqn:Er; [exact Hrem |].
  destruct (status =? FEATURE_BLOCKED_DRIVER_VERSION) eqn:Ev.
  - assert (Hs : IsStoredStatus status = true)
      by (unfold IsStoredStatus; now rewrite Ev).
    destruct (Hset Hs eq_refl) as [H1 H2]. split.
    + constructor; [| exact H1]. cbn [fst snd]. split; [now left |].
      now destruct (negb (IsEmpty version)).
    + intros n Hn. destruct (H2 n Hn) as [o Ho]. exists o. now right.
  - destruct (_ || _ || _ || _ || _) eqn:Eb; [| exact Hrem].
    apply Hset; [| reflexivity]. unfold IsStoredStatus. rewrite Ev.
    cbn [orb]. exact Eb.
Qed.

Lemma In_concat_map {X Y : Type} (f : X -> list Y) (l : list X) (b : Y) :
  In b (concat (map f l)) <-> exists a, In a l /\ In b (f a).
Proof.
  rewrite in_concat. split.
  - intros (x & Hx & Hb). apply in_map_iff in Hx as (a & <- & Ha).
    now exists a.
  - intros (a & Ha & Hb). exists (f a). split; [| exact Hb].
    now apply in_map.
Qed.

Lemma In_seqZ (m n x : Z) : In x (seqZ m n) <-> m <= x < m + n.
Proof. rewrite <- list_elem_of_In. apply elem_of_seqZ. Qed.

Lemma apply_nonempty (g : GfxInfo) (st : State)
  (aDriverInfo : list GfxDriverInfo) :
  aDriverInfo <> [] ->
  EvaluateDownloadedBlocklist g st aDriverInfo =
  fold_left (EvaluateFeature g aDriverInfo (GetOperatingSystem g))
    (seqZ FEATURE_START (FEATURE_COUNT - FEATURE_START)) st.
Proof.
  intros H. unfold EvaluateDownloadedBlocklist.
  destruct aDriverInfo; [congruence | reflexivity].
Qed.

(** X15. What an applied batch leaves stored for a feature of the
    enumeration is never an allow status, DENIED, STATUS_OK or UNKNOWN:
    the status preference of the feature holds no integer, or one of the
    six blocking statuses BLOCKED_DRIVER_VERSION,
    BLOCKED_MISMATCHED_VERSION, BLOCKED_DEVICE, DISCOURAGED,
    BLOCKED_OS_VERSION and BLOCKED_PLATFORM_TEST. It does not depend on
    what was stored before. *)
Theorem applied_batch_stores_blocking_statuses_only (g : GfxInfo)
  (st : State) (aDriverInfo : list GfxDriverInfo) (feature : Z)
  (prefname : string) :
  aDriverInfo <> [] ->
  FEATURE_START <= feature < FEATURE_COUNT ->
  GetPrefNameForFeature feature = Some prefname ->
  (forall v,
     Preferences_GetInt (prefs (EvaluateDownloadedBlocklist g st aDriverInfo))
       prefname = Some v ->
     IsStoredStatus v = true /\ IsRemovedStatus v = false) /\
  (forall st',
     display (GetData g st') = display (GetData g st) ->
     sShutdownOccurred st' = sShutdownOccurred st ->
     prefs (EvaluateDownloadedBlocklist g st' aDriverInfo) !! prefname =
     prefs (EvaluateDownloadedBlocklist g st aDriverInfo) !! prefname).
Proof.
  intros Hne Hrange Hn. rewrite !(apply_nonempty _ _ _ Hne).
  set (os := GetOperatingSystem g).
  set (fs := seqZ FEATURE_START (FEATURE_COUNT - FEATURE_START)).
  set (WS := concat (map (EvaluateFeature_writes g aDriverInfo os st) fs)).
  assert (Hin : In feature fs) by (apply In_seqZ; lia).
  assert (Hlast : exists o, last_write WS prefname = Some o).
  { destruct (last_write WS prefname) as [o |] eqn:E; [now exists o |].
    exfalso. apply last_write_None in E.
    destruct (EvaluateFeature_writes_spec g aDriverInfo os st feature)
      as [_ Hw].
    destruct (Hw prefname Hn) as [o Ho].
    assert (Hin' : In (prefname, o) WS)
      by (apply In_concat_map; now exists feature).
    rewrite List.Forall_forall in E. now apply (E _ Hin'). }
  destruct Hlast as [o Ho]. split.
  - intros v Hv.
    rewrite (prefs_fold_EvaluateFeature g aDriverInfo os fs st st eq_refl
               eq_refl) in Hv.
    fold WS in Hv. unfold Preferences_GetInt in Hv.
    rewrite apply_writes_lookup, Ho in Hv.
    destruct o as [[v' | s] |]; try discriminate. injection Hv as ->.
    apply last_write_In in Ho.
    apply In_concat_map in Ho as (f & Hf & Hw).
    destruct (EvaluateFeature_writes_spec g aDriverInfo os st f) as [Hall _].
    rewrite List.Forall_forall in Hall. destruct (Hall _ Hw) as [_ Hv].
    now apply Hv.
  - intros st' Hd Hs. rewrite (apply_nonempty g st' _ Hne). fold os fs.
    rewrite (prefs_fold_EvaluateFeature g aDriverInfo os fs st st' Hd Hs).
    rewrite (prefs_fold_EvaluateFeature g aDriverInfo os fs st st eq_refl
               eq_refl).
    fold WS. now rewrite !apply_writes_lookup, Ho.
Qed.

Lemma sFeatureStatus_fold_EvaluateFeature (g : GfxInfo)
  (aDriverInfo : list GfxDriverInfo) (os : OperatingSystem)
  (features : list Z) (st : State) :
  sFeatureStatus (fold_left (EvaluateFeature g aDriverInfo os) features st) =
  if XRE_IsParentProcess g && existsb HasPrefName features
  then None else sFeatureStatus st.
Proof.
  assert (Hstep : forall st f,
    sFeatureStatus (EvaluateFeature g aDriverInfo os st f) =
    if XRE_IsParentProcess g && HasPrefName f then None
    else sFeatureStatus st).
  { intros st0 f. unfold EvaluateFeature.
    pose proof (sFeatureStatus_snd_Impl g st0 f FEATURE_STATUS_UNKNOWN ""
                  aDriverInfo "" (Some os)) as Hsnap.
    destruct (GetFeatureStatusImpl g st0 f FEATURE_STATUS_UNKNOWN ""
                aDriverInfo "" (Some os)) as [[[[rv status] version] fid] st1].
    cbn [snd] in Hsnap.
    assert (Hrem : sFeatureStatus (RemovePrefForFeature g st1 f) =
                   if XRE_IsParentProcess g && HasPrefName f then None
                   else sFeatureStatus st0).
    { unfold RemovePrefForFeature, HasPrefName.
      destruct (GetPrefNameForFeature f), (XRE_IsParentProcess g);
        cbn; congruence. }
    assert (Hset : forall st2, sFeatureStatus st2 = sFeatureStatus st1 ->
              sFeatureStatus (SetPrefValueForFeature g st2 f status fid) =
              if XRE_IsParentProcess g && HasPrefName f then None
              else sFeatureStatus st0).
    { intros st2 H2. unfold SetPrefValueForFeature, HasPrefName.
      destruct (GetPrefNameForFeature f), (XRE_IsParentProcess g);
        cbn; congruence. }
    destruct (_ || _ || _ || _ || _); [exact Hrem |].
    destruct (status =? FEATURE_BLOCKED_DRIVER_VERSION).
    - destruct (negb (IsEmpty version)); now apply Hset.
    - destruct (_ || _ || _ || _ || _); [now apply Hset | exact Hrem]. }
  revert st. induction features as [| f rest IH]; intros st.
  - cbn. now rewrite andb_false_r.
  - cbn [fold_left existsb]. rewrite IH, Hstep.
    destruct (XRE_IsParentProcess g), (HasPrefName f),
      (existsb HasPrefName rest); reflexivity.
Qed.

(** X16. The footprint of an applied batch. A preference that is
    neither the suggested-version slot nor a name of a feature of the
    enumeration keeps its value; the shutdown flag is unchanged; and the
    snapshot is dropped exactly when the batch is non-empty, the process
    is the parent process and a feature of the enumeration has a
    preference name, so that the next [GetAllFeatures] resolves again
    (any other process keeps the snapshot it was sent). *)
Theorem applied_batch_footprint (g : GfxInfo) (st : State)
  (aDriverInfo : list GfxDriverInfo) :
  (forall k,
     k <> SUGGESTED_VERSION_PREF ->
     (forall feature, FEATURE_START <= feature < FEATURE_COUNT ->
        ~ In k (PrefNamesOf feature)) ->
     prefs (EvaluateDownloadedBlocklist g st aDriverInfo) !! k =
     prefs st !! k) /\
  sShutdownOccurred (EvaluateDownloadedBlocklist g st aDriverInfo) =
  sShutdownOccurred st /\
  sFeatureStatus (EvaluateDownloadedBlocklist g st aDriverInfo) =
  if negb (length aDriverInfo =? 0)%nat && XRE_IsParentProcess g &&
     existsb HasPrefName (seqZ FEATURE_START (FEATURE_COUNT - FEATURE_START))
  then None else sFeatureStatus st.
Proof.
  unfold EvaluateDownloadedBlocklist.
  destruct (length aDriverInfo =? 0)%nat; [now repeat split |].
  set (os := GetOperatingSystem g).
  set (fs := seqZ FEATURE_START (FEATURE_COUNT - FEATURE_START)).
  split; [| split].
  - intros k Hk Hnames.
    rewrite (prefs_fold_EvaluateFeature g aDriverInfo os fs st st eq_refl
               eq_refl).
    rewrite apply_writes_lookup.
    destruct (last_write _ k) as [o |] eqn:E; [| reflexivity].
    exfalso. apply last_write_In in E.
    apply In_concat_map in E as (f & Hf & Hw).
    destruct (EvaluateFeature_writes_spec g aDriverInfo os st f) as [Hall _].
    rewrite List.Forall_forall in Hall. destruct (Hall _ Hw) as [[H | H] _].
    + now apply Hk.
    + apply (Hnames f); [| exact H]. apply In_seqZ in Hf. lia.
  - apply fold_EvaluateFeature_frame.
  - now rewrite sFeatureStatus_fold_EvaluateFeature.
Qed.

Lemma EvaluateFeature_after_shutdown (g : GfxInfo)
  (aDriverInfo : list GfxDriverInfo) (os : OperatingSystem) (st : State)
  (feature : Z) :
  sShutdownOccurred st = true ->
  EvaluateFeature g aDriverInfo os st feature =
  RemovePrefForFeature g st feature.
Proof.
  intros Hs. unfold EvaluateFeature, GetFeatureStatusImpl.
  rewrite Hs, Z.eqb_refl. cbn [negb].
  destruct (feature <=? 0); now rewrite Z.eqb_refl.
Qed.

Lemma EvaluateFeature_writes_after_shutdown (g : GfxInfo)
  (aDriverInfo : list GfxDriverInfo) (os : OperatingSystem) (st : State)
  (feature : Z) :
  sShutdownOccurred st = true ->
  EvaluateFeature_writes g aDriverInfo os st feature =
  RemovePrefForFeature_writes feature.
Proof.
  intros Hs. unfold EvaluateFeature_writes, GetFeatureStatusImpl.
  rewrite Hs, Z.eqb_refl. cbn [negb].
  destruct (feature <=? 0); cbn [fst]; now rewrite Z.eqb_refl.
Qed.

(** X17. A batch applied after shutdown erases the stored overrides: the
    resolution exits early with UNKNOWN for every feature, so the status
    preference of every feature of the enumeration is removed, whatever
    the rules of the batch say, and no override is found for it. *)
Theorem batch_after_shutdown_erases_overrides (g : GfxInfo) (st : State)
  (aDriverInfo : list GfxDriverInfo) (feature : Z) (prefname : string)
  (aStatus : Z) (aFailureId : string) :
  sShutdownOccurred st = true ->
  aDriverInfo <> [] ->
  FEATURE_START <= feature < FEATURE_COUNT ->
  GetPrefNameForFeature feature = Some prefname ->
  GetPrefValueForFeature
    (prefs (EvaluateDownloadedBlocklist g st aDriverInfo)) feature aStatus
    aFailureId = (false, FEATURE_STATUS_UNKNOWN, aFailureId) /\
  GetPrefValueForFeature
    (prefs (EvaluateDownloadedBlocklist g (ShutdownObserver_Observe st)
              aDriverInfo)) feature aStatus aFailureId =
  (false, FEATURE_STATUS_UNKNOWN, aFailureId).
Proof.
  assert (Hgen : forall st0, sShutdownOccurred st0 = true ->
    aDriverInfo <> [] ->
    FEATURE_START <= feature < FEATURE_COUNT ->
    GetPrefNameForFeature feature = Some prefname ->
    GetPrefValueForFeature
      (prefs (EvaluateDownloadedBlocklist g st0 aDriverInfo)) feature aStatus
      aFailureId = (false, FEATURE_STATUS_UNKNOWN, aFailureId)).
  { intros st0 Hs Hne Hrange Hn. rewrite (apply_nonempty _ _ _ Hne).
    set (os := GetOperatingSystem g).
    set (fs := seqZ FEATURE_START (FEATURE_COUNT - FEATURE_START)).
    rewrite (prefs_fold_EvaluateFeature g aDriverInfo os fs st0 st0 eq_refl
               eq_refl).
    set (WS := concat (map (EvaluateFeature_writes g aDriverInfo os st0) fs)).
    assert (Hall : forall w, In w WS -> snd w = None).
    { intros w Hw. apply In_concat_map in Hw as (f & _ & Hw).
      rewrite (EvaluateFeature_writes_after_shutdown _ _ _ _ _ Hs) in Hw.
      unfold RemovePrefForFeature_writes in Hw.
      destruct (GetPrefNameForFeature f); [| destruct Hw].
      destruct Hw as [<- | []]. reflexivity. }
    assert (Hin : In (prefname, None) WS).
    { apply In_concat_map. exists feature. split; [apply In_seqZ; lia |].
      rewrite (EvaluateFeature_writes_after_shutdown _ _ _ _ _ Hs).
      unfold RemovePrefForFeature_writes. rewrite Hn. now left. }
    unfold GetPrefValueForFeature, Preferences_GetInt. rewrite Hn.
    rewrite apply_writes_lookup.
    destruct (last_write WS prefname) as [o |] eqn:E.
    - apply last_write_In in E. apply Hall in E. cbn in E. now subst o.
    - apply last_write_None in E. rewrite List.Forall_forall in E.
      now destruct (E _ Hin). }
  intros Hs Hne Hrange Hn. split; [now apply Hgen |].
  now apply Hgen.
Qed.

(** ** The snapshot of all features *)

Lemma parent_is_not_subordinate (g : GfxInfo) :
  XRE_IsParentProcess g = true ->
  XRE_IsContentProcess g || XRE_IsGPUProcess g = false.
Proof.
  unfold XRE_IsParentProcess, XRE_IsContentProcess, XRE_IsGPUProcess.
  now destruct (XRE_ProcessType g).
Qed.

Lemma Impl_state_frame (g : GfxInfo) (st : State) (aFeature aStatus : Z)
  (aSuggestedVersion : string) (aDriverInfo : list GfxDriverInfo)
  (aFailureId : string) (aOS : option OperatingSystem) :
  display (GetData g (snd (GetFeatureStatusImpl g st aFeature aStatus
                             aSuggestedVersion aDriverInfo aFailureId aOS))) =
  display (GetData g st) /\
  sShutdownOccurred (snd (GetFeatureStatusImpl g st aFeature aStatus
                            aSuggestedVersion aDriverInfo aFailureId aOS)) =
  sShutdownOccurred st.
Proof.
  destruct (GetFeatureStatusImpl_state g st aFeature aStatus
              aSuggestedVersion aDriverInfo aFailureId aOS) as [-> | ->].
  - now split.
  - split; [apply display_GetData_again | apply GetData_shutdown].
Qed.

(** In the parent process, with the [GetFeatureStatusImpl] of this
    file, [GetFeatureStatus] returns, and changes neither the
    preferences nor the snapshot. *)
Lemma GetFeatureStatus_parent (g : GfxInfo) (st : State) (aFeature : Z)
  (aFailureId : string) (aStatus : Z) :
  XRE_IsParentProcess g = true ->
  exists r st',
    GetFeatureStatus GetFeatureStatusImpl g st aFeature aFailureId aStatus =
    Some (r, st') /\
    prefs st' = prefs st /\
    sFeatureStatus st' = sFeatureStatus st /\
    display (GetData g st') = display (GetData g st) /\
    sShutdownOccurred st' = sShutdownOccurred st.
Proof.
  intros Hp. unfold GetFeatureStatus.
  rewrite (parent_is_not_subordinate g Hp).
  destruct (_ >? 0); [eexists _, st; now repeat split |].
  destruct (_ <? 0); [eexists _, st; now repeat split |].
  destruct (GetPrefValueForFeature (prefs st) aFeature aStatus aFailureId)
    as [[found s] f].
  destruct found; [eexists _, st; now repeat split |].
  pose proof (prefs_snd_Impl g st aFeature s "" [] f None) as H1.
  pose proof (sFeatureStatus_snd_Impl g st aFeature s "" [] f None) as H2.
  pose proof (Impl_state_frame g st aFeature s "" [] f None) as [H3 H4].
  destruct (GetFeatureStatusImpl g st aFeature s "" [] f None)
    as [[[[rv s'] v'] f'] st'].
  cbn [snd] in *. eexists _, st'. now repeat split.
Qed.

Lemma GetFeatureStatus_parent_ext (g : GfxInfo) (st1 st2 : State)
  (aFeature : Z) (aFailureId : string) (aStatus : Z) :
  XRE_IsParentProcess g = true ->
  prefs st1 = prefs st2 ->
  display (GetData g st1) = display (GetData g st2) ->
  sShutdownOccurred st1 = sShutdownOccurred st2 ->
  option_map fst
    (GetFeatureStatus GetFeatureStatusImpl g st1 aFeature aFailureId aStatus) =
  option_map fst
    (GetFeatureStatus GetFeatureStatusImpl g st2 aFeature aFailureId aStatus).
Proof.
  intros Hp Hprefs Hd Hs. unfold GetFeatureStatus.
  rewrite (parent_is_not_subordinate g Hp), Hprefs.
  destruct (_ >? 0); [reflexivity |].
  destruct (_ <? 0); [reflexivity |].
  destruct (GetPrefValueForFeature (prefs st2) aFeature aStatus aFailureId)
    as [[found s] f].
  destruct found; [reflexivity |].
  pose proof (Impl_result_ext g st1 st2 aFeature s "" [] f None Hd Hs) as H.
  destruct (GetFeatureStatusImpl g st1 aFeature s "" [] f None)
    as [[[[rv1 s1] v1] f1] st1'].
  destruct (GetFeatureStatusImpl g st2 aFeature s "" [] f None)
    as [[[[rv2 s2] v2] f2] st2'].
  cbn [fst] in H. injection H as -> -> -> ->. reflexivity.
Qed.

Section SnapshotProperties.

Variable FEATURE_STATUS_INVALID : Z.

Lemma SnapshotEntry_ext (g : GfxInfo) (st1 st2 : State) (i : Z) :
  XRE_IsParentProcess g = true ->
  prefs st1 = prefs st2 ->
  display (GetData g st1) = display (GetData g st2) ->
  sShutdownOccurred st1 = sShutdownOccurred st2 ->
  SnapshotEntry FEATURE_STATUS_INVALID g st1 i =
  SnapshotEntry FEATURE_STATUS_INVALID g st2 i.
Proof.
  intros Hp H1 H2 H3. unfold SnapshotEntry.
  pose proof (GetFeatureStatus_parent_ext g st1 st2 i ""
                FEATURE_STATUS_INVALID Hp H1 H2 H3) as H.
  destruct (GetFeatureStatus GetFeatureStatusImpl g st1 i ""
              FEATURE_STATUS_INVALID) as [[[[rv1 s1] f1] st1'] |];
    destruct (GetFeatureStatus GetFeatureStatusImpl g st2 i ""
                FEATURE_STATUS_INVALID) as [[[[rv2 s2] f2] st2'] |];
    cbn in H; try discriminate; [| reflexivity].
  now injection H as -> -> ->.
Qed.

Lemma fold_AppendFeatureStatus (g : GfxInfo) (features : list Z) :
  XRE_IsParentProcess g = true ->
  forall (st : State) (l : list GfxInfoFeatureStatus),
    sFeatureStatus st = Some l ->
    exists st',
      fold_left (AppendFeatureStatus FEATURE_STATUS_INVALID
                   GetFeatureStatusImpl g) features (Some st) = Some st' /\
      sFeatureStatus st' =
      Some (l ++ map (SnapshotEntry FEATURE_STATUS_INVALID g st) features)%list
      /\
      prefs st' = prefs st /\
      display (GetData g st') = display (GetData g st) /\
      sShutdownOccurred st' = sShutdownOccurred st.
Proof.
  intros Hp. induction features as [| i rest IH]; intros st l Hl.
  - exists st. cbn. rewrite app_nil_r. now repeat split.
  - cbn [fold_left map]. unfold AppendFeatureStatus at 2.
    unfold SnapshotEntry at 1.
    destruct (GetFeatureStatus_parent g st i "" FEATURE_STATUS_INVALID Hp)
      as ([[rv s] f] & st1 & -> & H1 & H2 & H3 & H4).
    rewrite H2, Hl.
    set (st2 := set_sFeatureStatus st1 _).
    destruct (IH st2 _ eq_refl) as (st' & E1 & E2 & E3 & E4 & E5).
    exists st'. split; [exact E1 |]. split.
    + rewrite E2, <- app_assoc. cbn [app]. do 3 f_equal.
      apply map_ext. intros j.
      apply SnapshotEntry_ext; [exact Hp | exact H1 | | exact H4].
      rewrite <- H3. now apply display_GetData_ext.
    + split; [rewrite E3; exact H1 |]. split; [| rewrite E5; exact H4].
      rewrite E4, <- H3. now apply display_GetData_ext.
Qed.

Lemma GetAllFeatures_builds (g : GfxInfo) (st : State) :
  XRE_IsParentProcess g = true -> sFeatureStatus st = None ->
  exists st',
    GetAllFeatures FEATURE_STATUS_INVALID GetFeatureStatusImpl g st =
    Some (map (SnapshotEntry FEATURE_STATUS_INVALID g st)
            (seqZ FEATURE_START (FEATURE_COUNT - FEATURE_START)), st') /\
    sFeatureStatus st' =
    Some (map (SnapshotEntry FEATURE_STATUS_INVALID g st)
            (seqZ FEATURE_START (FEATURE_COUNT - FEATURE_START))) /\
    prefs st' = prefs st.
Proof.
  intros Hp Hnone. unfold GetAllFeatures. rewrite Hp, Hnone. cbn [negb].
  destruct (fold_AppendFeatureStatus g
              (seqZ FEATURE_START (FEATURE_COUNT - FEATURE_START)) Hp
              (set_sFeatureStatus st (Some [])) [] eq_refl)
    as (st' & E1 & E2 & E3 & E4 & E5).
  assert (Hmap :
    map (SnapshotEntry FEATURE_STATUS_INVALID g
           (set_sFeatureStatus st (Some [])))
      (seqZ FEATURE_START (FEATURE_COUNT - FEATURE_START)) =
    map (SnapshotEntry FEATURE_STATUS_INVALID g st)
      (seqZ FEATURE_START (FEATURE_COUNT - FEATURE_START))).
  { apply map_ext. intros j. apply SnapshotEntry_ext;
      [exact Hp | reflexivity | | reflexivity].
    now apply display_GetData_ext. }
  cbn [app] in E2. rewrite Hmap in E2.
  rewrite E1, E2. exists st'. split; [reflexivity |].
  split; [exact E2 | exact E3].
Qed.

(** X18. In the parent process, [GetAllFeatures] returns and builds the
    snapshot once: from a state with no snapshot it returns one element
    per feature of the enumeration, in order, each holding what
    [GetFeatureStatus] answers for that feature, and stores the list;
    the preferences are unchanged. From a state with a snapshot it
    returns the stored list without resolving anything, whatever the
    implementation. Outside the parent process it does not return. *)
Theorem snapshot_is_built_once
  (impl : GfxInfo -> State -> Z -> Z -> string -> list GfxDriverInfo ->
          string -> option OperatingSystem ->
          (nsresult * Z * string * string) * State)
  (g : GfxInfo) (st : State) :
  (XRE_IsParentProcess g = true -> sFeatureStatus st = None ->
   exists st',
     GetAllFeatures FEATURE_STATUS_INVALID GetFeatureStatusImpl g st =
     Some (map (SnapshotEntry FEATURE_STATUS_INVALID g st)
             (seqZ FEATURE_START (FEATURE_COUNT - FEATURE_START)), st') /\
     prefs st' = prefs st /\
     GetAllFeatures FEATURE_STATUS_INVALID impl g st' =
     Some (map (SnapshotEntry FEATURE_STATUS_INVALID g st)
             (seqZ FEATURE_START (FEATURE_COUNT - FEATURE_START)), st')) /\
  (XRE_IsParentProcess g = true ->
   forall features, sFeatureStatus st = Some features ->
   GetAllFeatures FEATURE_STATUS_INVALID impl g st = Some (features, st)) /\
  (XRE_IsParentProcess g = false ->
   GetAllFeatures FEATURE_STATUS_INVALID impl g st = None).
Proof.
  split; [| split].
  - intros Hp Hnone.
    destruct (GetAllFeatures_builds g st Hp Hnone) as (st' & E1 & E2 & E3).
    exists st'. split; [exact E1 |]. split; [exact E3 |].
    unfold GetAllFeatures. rewrite Hp, E2. cbn [negb]. now rewrite E2.
  - intros Hp features Hsome. unfold GetAllFeatures.
    rewrite Hp, Hsome. cbn [negb]. now rewrite Hsome.
  - intros Hp. unfold GetAllFeatures. now rewrite Hp.
Qed.

Lemma find_SnapshotEntry (g : GfxInfo) (st : State) (features : list Z)
  (aFeature : Z) :
  In aFeature features ->
  List.find (fun fs => fs_feature fs =? aFeature)
    (map (SnapshotEntry FEATURE_STATUS_INVALID g st) features) =
  Some (SnapshotEntry FEATURE_STATUS_INVALID g st aFeature).
Proof.
  assert (Hf : forall i,
    fs_feature (SnapshotEntry FEATURE_STATUS_INVALID g st i) = i).
  { intros i. unfold SnapshotEntry.
    now destruct (GetFeatureStatus _ g st i "" FEATURE_STATUS_INVALID)
      as [[[[rv s] f] st'] |]. }
  induction features as [| i rest IH]; [intros [] |].
  intros Hin. cbn [map List.find]. rewrite Hf.
  destruct (Z.eqb_spec i aFeature) as [-> | Hne]; [reflexivity |].
  apply IH. destruct Hin as [E | Hin]; [congruence | exact Hin].
Qed.

(** X19. A content or GPU process answers as the parent process does.
    Let the parent build the snapshot and a content or GPU process,
    with the same preferences, receive it by [SetFeatureStatus]. Then
    for every feature of the enumeration, whatever status and failure id
    the caller passes in and whatever the implementation, the process
    returns NS_OK with the status and the failure id the parent's
    [GetFeatureStatus] answers (the force-all preference being 0), and
    resolves nothing: its state is unchanged. *)
Theorem subordinate_process_agrees_with_parent
  (impl : GfxInfo -> State -> Z -> Z -> string -> list GfxDriverInfo ->
          string -> option OperatingSystem ->
          (nsresult * Z * string * string) * State)
  (g gc : GfxInfo) (st stp stc : State)
  (features : list GfxInfoFeatureStatus) (aFeature : Z)
  (aFailureId : string) (aStatus : Z) :
  XRE_IsContentProcess gc || XRE_IsGPUProcess gc = true ->
  (if RELEASE_OR_BETA then 0 else gfx_blocklist_all_AtStartup g) = 0 ->
  (if RELEASE_OR_BETA then 0 else gfx_blocklist_all_AtStartup gc) = 0 ->
  sFeatureStatus st = None ->
  GetAllFeatures FEATURE_STATUS_INVALID GetFeatureStatusImpl g st =
  Some (features, stp) ->
  prefs stc = prefs st ->
  FEATURE_START <= aFeature < FEATURE_COUNT ->
  exists rv status failureId st',
    GetFeatureStatus GetFeatureStatusImpl g st aFeature ""
      FEATURE_STATUS_INVALID = Some ((rv, status, failureId), st') /\
    GetFeatureStatus impl gc (SetFeatureStatus stc features) aFeature
      aFailureId aStatus =
    Some ((NS_OK, status, failureId), SetFeatureStatus stc features).
Proof.
  intros Hc Hall Hallc Hnone Hget Hprefs Hrange.
  assert (Hp : XRE_IsParentProcess g = true).
  { unfold GetAllFeatures in Hget.
    destruct (XRE_IsParentProcess g); [reflexivity | discriminate]. }
  destruct (GetAllFeatures_builds g st Hp Hnone) as (st1 & E1 & _).
  rewrite E1 in Hget. injection Hget as <- <-.
  destruct (GetFeatureStatus_parent g st aFeature "" FEATURE_STATUS_INVALID Hp)
    as ([[rv s] f] & st' & E & _).
  exists rv, s, f, st'. split; [exact E |].
  assert (Hentry : SnapshotEntry FEATURE_STATUS_INVALID g st aFeature =
                   {| fs_feature := aFeature; fs_status := s;
                      fs_failureId := f |}).
  { unfold SnapshotEntry. now rewrite E. }
  unfold GetFeatureStatus in E |- *. rewrite Hall in E. rewrite Hallc.
  cbn [Z.gtb Z.ltb Z.compare] in E |- *.
  change (prefs (SetFeatureStatus stc _)) with (prefs stc). rewrite Hprefs.
  rewrite Hc.
  assert (Hfound : forall a b a' b',
    fst (fst (GetPrefValueForFeature (prefs st) aFeature a b)) = true ->
    GetPrefValueForFeature (prefs st) aFeature a b =
    GetPrefValueForFeature (prefs st) aFeature a' b').
  { intros a b a' b'. unfold GetPrefValueForFeature.
    destruct (GetPrefNameForFeature aFeature); [| discriminate].
    destruct (Preferences_GetInt (prefs st) s0); [| discriminate].
    destruct (z =? FEATURE_DENIED); [discriminate |].
    now destruct (Preferences_GetCString _ _). }
  assert (Hnot : forall a b a' b',
    fst (fst (GetPrefValueForFeature (prefs st) aFeature a b)) = false ->
    fst (fst (GetPrefValueForFeature (prefs st) aFeature a' b')) = false).
  { intros a b a' b'. unfold GetPrefValueForFeature.
    destruct (GetPrefNameForFeature aFeature); [| reflexivity].
    destruct (Preferences_GetInt (prefs st) s0); [| reflexivity].
    destruct (z =? FEATURE_DENIED); [reflexivity |].
    now destruct (Preferences_GetCString _ _). }
  destruct (GetPrefValueForFeature (prefs st) aFeature aStatus aFailureId)
    as [[found sc] fc] eqn:Ec.
  destruct found.
  - rewrite <- (Hfound aStatus aFailureId FEATURE_STATUS_INVALID "") in E
      by now rewrite Ec.
    rewrite Ec in E. now injection E as <- <- <- <-.
  - change (sFeatureStatus (SetFeatureStatus stc _))
      with (Some (map (SnapshotEntry FEATURE_STATUS_INVALID g st)
                    (seqZ FEATURE_START (FEATURE_COUNT - FEATURE_START)))).
    cbv iota. rewrite find_SnapshotEntry by (apply In_seqZ; lia).
    now rewrite Hentry.
Qed.

End SnapshotProperties.

(** ** The parser *)

Lemma ParseKey_accepts (appV key value : string) (di : GfxDriverInfo) :
  fst (ParseKey appV key value di) = KeyAccepted appV key value.
Proof.
  unfold ParseKey, KeyAccepted.
  destruct (Equals key "feature") eqn:Ef.
  - apply String.eqb_eq in Ef. subst key.
    repeat (match goal with
            | |- context [Equals "feature" ?lit] =>
                let b := eval vm_compute in (Equals "feature" lit) in
                change (Equals "feature" lit) with b
            end; cbv iota).
    cbn [mFeature set_mFeature].
    now destruct (_ =? FEATURE_INVALID).
  - destruct (Equals key "versionRange") eqn:Ev.
    + apply String.eqb_eq in Ev. subst key.
      repeat (match goal with
              | |- context [Equals "versionRange" ?lit] =>
                  let b := eval vm_compute in (Equals "versionRange" lit) in
                  change (Equals "versionRange" lit) with b
              end; cbv iota).
      reflexivity.
    + repeat match goal with
             | |- context [if Equals key ?lit then _ else _] =>
                 destruct (Equals key lit); cbv iota;
                 [first [reflexivity
                        | destruct (ParseDriverVersion value); reflexivity] |]
             end.
      reflexivity.
Qed.

Lemma ParseKeyValue_accepts (appV keyValue : string) (di : GfxDriverInfo) :
  fst (ParseKeyValue appV keyValue di) = PairAccepted appV keyValue.
Proof.
  unfold ParseKeyValue, PairAccepted.
  destruct (ParseString keyValue ":") as [| key [| value [| ? ?]]];
    [reflexivity | reflexivity | | reflexivity].
  destruct (String.length value =? 0)%nat; [reflexivity |].
  apply ParseKey_accepts.
Qed.

Lemma ParseKeyValues_forallb (appV : string) (keyValues : list string)
  (di : GfxDriverInfo) :
  fst (ParseKeyValues appV keyValues di) =
  forallb (PairAccepted appV) keyValues.
Proof.
  revert di. induction keyValues as [| kv rest IH]; intros di;
    [reflexivity |].
  cbn [ParseKeyValues forallb].
  rewrite <- (ParseKeyValue_accepts appV kv di).
  destruct (ParseKeyValue appV kv di) as [[|] di']; cbn [fst andb];
    [apply IH | reflexivity].
Qed.

Lemma forallb_Permutation {X : Type} (f : X -> bool) (l1 l2 : list X) :
  Permutation l1 l2 -> forallb f l1 = forallb f l2.
Proof.
  induction 1 as [| x l l' _ IH | x y l | l l' l'' _ IH1 _ IH2]; cbn.
  - reflexivity.
  - now rewrite IH.
  - now destruct (f x), (f y).
  - congruence.
Qed.

(** X20. What makes the parser reject a record, and nothing else does:
    a pair that does not split at the colon into exactly a key and a
    value, an empty value, a [feature] pair naming no feature of the
    table, or a [versionRange] pair that has not exactly two bounds or
    excludes the application version. Whether a record is accepted
    depends neither on the order of its pairs nor on the rule the parser
    starts from. *)
Theorem record_accepted_iff_every_pair_is (g : GfxInfo)
  (aBlocklistEntry : string) (aDriverInfo : GfxDriverInfo) :
  fst (BlocklistEntryToDriverInfo g aBlocklistEntry aDriverInfo) =
  forallb (PairAccepted (GetApplicationVersion g))
    (Split aBlocklistEntry (ascii_of_nat 9)) /\
  (forall other aOtherInfo,
     Permutation (Split aBlocklistEntry (ascii_of_nat 9))
       (Split other (ascii_of_nat 9)) ->
     fst (BlocklistEntryToDriverInfo g other aOtherInfo) =
     fst (BlocklistEntryToDriverInfo g aBlocklistEntry aDriverInfo)).
Proof.
  unfold BlocklistEntryToDriverInfo. split.
  - apply ParseKeyValues_forallb.
  - intros other aOtherInfo Hperm. rewrite !ParseKeyValues_forallb.
    symmetry. now apply forallb_Permutation.
Qed.

(** The members the parser has no key for, and the rule id. *)
Lemma ParseKey_untouched (appV key value : string) (di : GfxDriverInfo) :
  mSuggestedVersion (snd (ParseKey appV key value di)) = mSuggestedVersion di
  /\ mGpu2 (snd (ParseKey appV key value di)) = mGpu2 di
  /\ mBattery (snd (ParseKey appV key value di)) = mBattery di
  /\ mScreen (snd (ParseKey appV key value di)) = mScreen di
  /\ mRuleId (snd (ParseKey appV key value di)) =
     if Equals key "blockID" then "FEATURE_FAILURE_DL_BLOCKLIST_" ++ value
     else mRuleId di.
Proof.
  unfold ParseKey.
  repeat match goal with
         | |- context [if Equals key ?lit then _ else _] =>
             destruct (Equals key lit); cbv iota;
             [first [now repeat split
                    | cbn; destruct (_ =? FEATURE_INVALID); now repeat split
                    | destruct (ParseDriverVersion value) as [[|] ?];
                      now repeat split] |]
         end.
  now repeat split.
Qed.

Lemma ParseKeyValues_untouched (appV : string) (keyValues : list string) :
  forall di,
    DownloadedRuleId (mRuleId di) ->
    mSuggestedVersion (snd (ParseKeyValues appV keyValues di)) =
    mSuggestedVersion di
    /\ mGpu2 (snd (ParseKeyValues appV keyValues di)) = mGpu2 di
    /\ mBattery (snd (ParseKeyValues appV keyValues di)) = mBattery di
    /\ mScreen (snd (ParseKeyValues appV keyValues di)) = mScreen di
    /\ DownloadedRuleId (mRuleId (snd (ParseKeyValues appV keyValues di))).
Proof.
  induction keyValues as [| kv rest IH]; intros di Hid; [now repeat split |].
  cbn [ParseKeyValues].
  assert (Hstep :
    mSuggestedVersion (snd (ParseKeyValue appV kv di)) = mSuggestedVersion di
    /\ mGpu2 (snd (ParseKeyValue appV kv di)) = mGpu2 di
    /\ mBattery (snd (ParseKeyValue appV kv di)) = mBattery di
    /\ mScreen (snd (ParseKeyValue appV kv di)) = mScreen di
    /\ DownloadedRuleId (mRuleId (snd (ParseKeyValue appV kv di)))).
  { unfold ParseKeyValue.
    destruct (ParseString kv ":") as [| key [| value [| ? ?]]];
      [now repeat split | now repeat split | | now repeat split].
    destruct (String.length value =? 0)%nat; [now repeat split |].
    destruct (ParseKey_untouched appV key value di)
      as (H1 & H2 & H3 & H4 & H5).
    repeat (split; [assumption |]). rewrite H5.
    destruct (Equals key "blockID"); [now exists value | exact Hid]. }
  destruct (ParseKeyValue appV kv di) as [[|] di']; cbn [snd] in *.
  - destruct Hstep as (H1 & H2 & H3 & H4 & H5).
    destruct (IH di' H5) as (E1 & E2 & E3 & E4 & E5).
    repeat split; congruence.
  - exact Hstep.
Qed.

(** X21. What no downloaded record can say. The parser has no key for
    the suggested version text, the second-adapter flag, the battery
    class or the screen-size class: whatever the record, these members
    of the rule are the ones of the rule the parser starts from. And the
    rule id of a parsed rule always starts with
    FEATURE_FAILURE_DL_BLOCKLIST_, so it is never empty. *)
Theorem members_no_record_can_set (g : GfxInfo) (aBlocklistEntry : string)
  (aDriverInfo : GfxDriverInfo) :
  mSuggestedVersion
    (snd (BlocklistEntryToDriverInfo g aBlocklistEntry aDriverInfo)) =
  mSuggestedVersion aDriverInfo /\
  mGpu2 (snd (BlocklistEntryToDriverInfo g aBlocklistEntry aDriverInfo)) =
  mGpu2 aDriverInfo /\
  mBattery (snd (BlocklistEntryToDriverInfo g aBlocklistEntry aDriverInfo)) =
  mBattery aDriverInfo /\
  mScreen (snd (BlocklistEntryToDriverInfo g aBlocklistEntry aDriverInfo)) =
  mScreen aDriverInfo /\
  (exists suffix,
     mRuleId (snd (BlocklistEntryToDriverInfo g aBlocklistEntry aDriverInfo)) =
     "FEATURE_FAILURE_DL_BLOCKLIST_" ++ suffix) /\
  IsEmpty
    (mRuleId (snd (BlocklistEntryToDriverInfo g aBlocklistEntry aDriverInfo)))
  = false.
Proof.
  unfold BlocklistEntryToDriverInfo.
  destruct (ParseKeyValues_untouched (GetApplicationVersion g)
              (Split aBlocklistEntry (ascii_of_nat 9))
              (set_mRuleId aDriverInfo "FEATURE_FAILURE_DL_BLOCKLIST_NO_ID"))
    as (H1 & H2 & H3 & H4 & H5); [now exists "NO_ID" |].
  split; [exact H1 |]. split; [exact H2 |]. split; [exact H3 |].
  split; [exact H4 |]. split; [exact H5 |].
  destruct H5 as [suffix E]. rewrite E. reflexivity.
Qed.

(** ** The matching helpers *)

(** X23. The screen-size classes partition the pixel counts: every
    count is in exactly one of Small, Medium and Large, SmallAndMedium
    is the union of the first two, MediumAndLarge of the last two, and
    All holds of every count. *)
Theorem screen_size_classes_partition (aScreenPixels : Z) :
  (MatchingScreenSize Screen_Small aScreenPixels = true /\
   MatchingScreenSize Screen_Medium aScreenPixels = false /\
   MatchingScreenSize Screen_Large aScreenPixels = false \/
   MatchingScreenSize Screen_Small aScreenPixels = false /\
   MatchingScreenSize Screen_Medium aScreenPixels = true /\
   MatchingScreenSize Screen_Large aScreenPixels = false \/
   MatchingScreenSize Screen_Small aScreenPixels = false /\
   MatchingScreenSize Screen_Medium aScreenPixels = false /\
   MatchingScreenSize Screen_Large aScreenPixels = true) /\
  MatchingScreenSize Screen_SmallAndMedium aScreenPixels =
  MatchingScreenSize Screen_Small aScreenPixels ||
  MatchingScreenSize Screen_Medium aScreenPixels /\
  MatchingScreenSize Screen_MediumAndLarge aScreenPixels =
  MatchingScreenSize Screen_Medium aScreenPixels ||
  MatchingScreenSize Screen_Large aScreenPixels /\
  MatchingScreenSize Screen_All aScreenPixels = true.
Proof.
  unfold MatchingScreenSize, kMaxSmallPixels, kMaxMediumPixels.
  rewrite !Z.gtb_ltb.
  destruct (Z.leb_spec aScreenPixels 2304000),
    (Z.ltb_spec 2304000 aScreenPixels),
    (Z.leb_spec aScreenPixels 4953600),
    (Z.ltb_spec 4953600 aScreenPixels); cbn; try lia; tauto.
Qed.

Lemma to_int32_in_range (v : Z) :
  INT32_MIN <= v <= INT32_MAX -> to_int32 v = v.
Proof.
  unfold to_int32, INT32_MIN, INT32_MAX. intros H.
  rewrite Z.mod_small by lia. lia.
Qed.

Lemma to_int32_range (v : Z) : INT32_MIN <= to_int32 v <= INT32_MAX.
Proof.
  unfold to_int32, INT32_MIN, INT32_MAX.
  pose proof (Z.mod_pos_bound (v + 2147483648) 4294967296 eq_refl). lia.
Qed.

(** X24. The refresh-rate comparison works on [int32_t]: its three
    rates are taken modulo 2^32 in two's complement, so a bound of the
    rule beyond the range is compared as the value it wraps to. On the
    converted rates it reads a comparator as the driver-version
    comparison does, except for the two build-id comparators: a
    refresh-rate test with a build-id comparator holds of no rate, so a
    rule carrying one is skipped on every machine that has a screen. *)
Theorem refresh_rate_comparators (g : GfxInfo) (st : State) (L : ScanLocals)
  (aFeature : Z) (os : OperatingSystem) (aForAllowing : bool)
  (r : GfxDriverInfo) (aSystem aBlocked aBlockedMax : Z)
  (op : VersionComparisonOp) :
  (op <> DRIVER_BUILD_ID_LESS_THAN ->
   op <> DRIVER_BUILD_ID_LESS_THAN_OR_EQUAL ->
   MatchingRefreshRates aSystem aBlocked aBlockedMax op =
   DriverVersionSwitch op (to_int32 aSystem) (to_int32 aBlocked)
     (to_int32 aBlockedMax)) /\
  (op <> DRIVER_BUILD_ID_LESS_THAN ->
   op <> DRIVER_BUILD_ID_LESS_THAN_OR_EQUAL ->
   INT32_MIN <= aSystem <= INT32_MAX ->
   INT32_MIN <= aBlocked <= INT32_MAX ->
   INT32_MIN <= aBlockedMax <= INT32_MAX ->
   MatchingRefreshRates aSystem aBlocked aBlockedMax op =
   DriverVersionSwitch op aSystem aBlocked aBlockedMax) /\
  (INT32_MIN <= to_int32 aBlocked <= INT32_MAX /\
   to_int32 (aBlocked + 4294967296) = to_int32 aBlocked /\
   MatchingRefreshRates aSystem (aBlocked + 4294967296) aBlockedMax op =
   MatchingRefreshRates aSystem aBlocked aBlockedMax op) /\
  (op = DRIVER_BUILD_ID_LESS_THAN \/ op = DRIVER_BUILD_ID_LESS_THAN_OR_EQUAL ->
   MatchingRefreshRates aSystem aBlocked aBlockedMax op = false) /\
  (0 < mScreenCount st ->
   mMinRefreshRateComparisonOp r = DRIVER_BUILD_ID_LESS_THAN \/
   mMinRefreshRateComparisonOp r = DRIVER_BUILD_ID_LESS_THAN_OR_EQUAL \/
   mMaxRefreshRateComparisonOp r = DRIVER_BUILD_ID_LESS_THAN \/
   mMaxRefreshRateComparisonOp r = DRIVER_BUILD_ID_LESS_THAN_OR_EQUAL ->
   RuleBody g st L aFeature os aForAllowing r = RuleContinue).
Proof.
  assert (H1 : op <> DRIVER_BUILD_ID_LESS_THAN ->
    op <> DRIVER_BUILD_ID_LESS_THAN_OR_EQUAL ->
    MatchingRefreshRates aSystem aBlocked aBlockedMax op =
    DriverVersionSwitch op (to_int32 aSystem) (to_int32 aBlocked)
      (to_int32 aBlockedMax)).
  { intros Ha Hb. destruct op; try reflexivity; congruence. }
  assert (Hper : to_int32 (aBlocked + 4294967296) = to_int32 aBlocked).
  { unfold to_int32.
    replace (aBlocked + 4294967296 + 2147483648)
      with (aBlocked + 2147483648 + 1 * 4294967296) by lia.
    now rewrite Z.mod_add by lia. }
  split; [exact H1 |]. split; [| split; [| split]].
  - intros Ha Hb Hs Hl Hu. rewrite (H1 Ha Hb).
    now rewrite !to_int32_in_range.
  - split; [apply to_int32_range |]. split; [exact Hper |].
    unfold MatchingRefreshRates. now rewrite Hper.
  - intros [-> | ->]; reflexivity.
  - intros Hpos Hop.
    assert (Hc : (mScreenCount st >? 0) = true) by (apply Z.gtb_lt; lia).
    unfold RuleBody.
    assert (Hh : RuleHead g st L os aForAllowing r = false).
    { unfold RuleHead. rewrite Hc.
      destruct Hop as [E | [E | [E | E]]]; rewrite E;
        cbn [MatchingRefreshRates negb andb];
        rewrite ?andb_false_r, ?andb_false_l; reflexivity. }
    now rewrite Hh.
Qed.






(** X26. [GetData] reads the screens once. Once a pixel count other
    than INT64_MAX has been read, a later call changes nothing, whatever
    the screens have become by then; as long as the count read is
    INT64_MAX the next call reads the pixel count again (the screen
    count and the refresh rates are read again only while the screen
    count is 0). Monitor information spoofed with a screen count other
    than 0 survives [GetData], which then only reads the pixel
    count. *)
Theorem display_data_is_read_once (g g' : GfxInfo) (st : State)
  (aScreenCount aMinRefreshRate aMaxRefreshRate : Z) :
  (mScreenPixels st <> INT64_MAX \/ GetTotalScreenPixels g <> INT64_MAX ->
   GetData g' (GetData g st) = GetData g st) /\
  (mScreenPixels st = INT64_MAX -> GetTotalScreenPixels g = INT64_MAX ->
   mScreenPixels (GetData g' (GetData g st)) = GetTotalScreenPixels g' /\
   (mScreenCount (GetData g st) <> 0 ->
    mScreenCount (GetData g' (GetData g st)) = mScreenCount (GetData g st) /\
    mMinRefreshRate_sys (GetData g' (GetData g st)) =
    mMinRefreshRate_sys (GetData g st) /\
    mMaxRefreshRate_sys (GetData g' (GetData g st)) =
    mMaxRefreshRate_sys (GetData g st))) /\
  (aScreenCount <> 0 ->
   mScreenCount
     (GetData g (SpoofMonitorInfo st aScreenCount aMinRefreshRate
                   aMaxRefreshRate)) = aScreenCount /\
   mMinRefreshRate_sys
     (GetData g (SpoofMonitorInfo st aScreenCount aMinRefreshRate
                   aMaxRefreshRate)) = aMinRefreshRate /\
   mMaxRefreshRate_sys
     (GetData g (SpoofMonitorInfo st aScreenCount aMinRefreshRate
                   aMaxRefreshRate)) = aMaxRefreshRate).
Proof.
  split; [| split].
  - intros H.
    assert (Hp : mScreenPixels (GetData g st) <> INT64_MAX).
    { unfold GetData.
      destruct (Z.eqb_spec (mScreenPixels st) INT64_MAX) as [E | E];
        cbn [negb]; [| exact E].
      destruct H as [H | H]; [contradiction |].
      now destruct (mScreenCount st =? 0). }
    unfold GetData at 1.
    destruct (Z.eqb_spec (mScreenPixels (GetData g st)) INT64_MAX)
      as [E | E]; [contradiction | reflexivity].
  - intros Hs Hg.
    assert (Hp : mScreenPixels (GetData g st) = INT64_MAX).
    { unfold GetData. rewrite Hs, Z.eqb_refl. cbn [negb].
      now destruct (mScreenCount st =? 0). }
    remember (GetData g st) as s1 eqn:Es1. clear Es1.
    split.
    + unfold GetData. rewrite Hp, Z.eqb_refl. cbn [negb].
      now destruct (mScreenCount s1 =? 0).
    + intros Hc. unfold GetData. rewrite Hp, Z.eqb_refl. cbn [negb].
      destruct (Z.eqb_spec (mScreenCount s1) 0) as [E | E];
        [contradiction | now repeat split].
  - intros Hc. unfold GetData, SpoofMonitorInfo.
    cbn [mScreenPixels mScreenCount].
    assert (E : (aScreenCount =? 0) = false) by now apply Z.eqb_neq.
    rewrite E. now destruct (negb _).
Qed.

(** ** The collectors *)

Lemma RemoveFirst_absent (collectors : list Z) (collector : Z) :
  ~ In collector collectors -> RemoveFirst collectors collector = collectors.
Proof.
  induction collectors as [| c rest IH]; [reflexivity |]. cbn. intros H.
  destruct (Z.eqb_spec c collector) as [-> | Hne]; [tauto |].
  f_equal. apply IH. tauto.
Qed.

Lemma RemoveFirst_app_absent (collectors : list Z) (collector : Z) :
  ~ In collector collectors ->
  RemoveFirst (collectors ++ [collector]) collector = collectors.
Proof.
  induction collectors as [| c rest IH]; cbn.
  - now rewrite Z.eqb_refl.
  - intros H. destruct (Z.eqb_spec c collector) as [-> | Hne]; [tauto |].
    f_equal. apply IH. tauto.
Qed.

Lemma RemoveFirst_count_other (collectors : list Z) (collector c : Z) :
  c <> collector ->
  count_occ Z.eq_dec (RemoveFirst collectors collector) c =
  count_occ Z.eq_dec collectors c.
Proof.
  intros Hc. induction collectors as [| x rest IH]; [reflexivity |].
  cbn [RemoveFirst]. destruct (Z.eqb_spec x collector) as [-> | Hne].
  - cbn [count_occ]. destruct (Z.eq_dec collector c); [congruence |].
    reflexivity.
  - cbn [count_occ]. now rewrite IH.
Qed.

Lemma RemoveFirst_count_same (collectors : list Z) (collector : Z) :
  count_occ Z.eq_dec (RemoveFirst collectors collector) collector =
  Nat.pred (count_occ Z.eq_dec collectors collector).
Proof.
  induction collectors as [| x rest IH]; [reflexivity |].
  cbn [RemoveFirst]. destruct (Z.eqb_spec x collector) as [-> | Hne].
  - cbn [count_occ]. destruct (Z.eq_dec collector collector); [| congruence].
    reflexivity.
  - cbn [count_occ]. destruct (Z.eq_dec x collector); [congruence |].
    exact IH.
Qed.

(** X27. The collector registry. [RemoveCollector] removes one
    occurrence of the collector and no other element, never leaves an
    allocated empty array behind, and undoes an [AddCollector] of a
    collector that was not registered. *)
Theorem collector_registry (sCollectors : option (list Z)) (collector : Z) :
  RemoveCollector sCollectors collector <> Some [] /\
  count_occ Z.eq_dec
    (InitCollectors (RemoveCollector sCollectors collector)) collector =
  Nat.pred (count_occ Z.eq_dec (InitCollectors sCollectors) collector) /\
  (forall c, c <> collector ->
     count_occ Z.eq_dec
       (InitCollectors (RemoveCollector sCollectors collector)) c =
     count_occ Z.eq_dec (InitCollectors sCollectors) c) /\
  (~ In collector (InitCollectors sCollectors) ->
   InitCollectors (RemoveCollector (AddCollector sCollectors collector)
                     collector) = InitCollectors sCollectors /\
   (sCollectors <> Some [] ->
    RemoveCollector (AddCollector sCollectors collector) collector =
    sCollectors)).
Proof.
  assert (Hinit : forall l,
    InitCollectors (if (length l =? 0)%nat then None else Some l) = l).
  { intros [| x l]; reflexivity. }
  split; [| split; [| split]].
  - unfold RemoveCollector.
    destruct (RemoveFirst (InitCollectors sCollectors) collector);
      cbn; congruence.
  - unfold RemoveCollector. rewrite Hinit. apply RemoveFirst_count_same.
  - intros c Hc. unfold RemoveCollector. rewrite Hinit.
    now apply RemoveFirst_count_other.
  - intros Habs. unfold RemoveCollector, AddCollector.
    cbn [InitCollectors]. rewrite (RemoveFirst_app_absent _ _ Habs).
    split; [apply Hinit |]. intros Hne.
    destruct sCollectors as [[| x l] |]; cbn; congruence.
Qed.

(** ** The suggested driver version *)

Lemma Find_version_off_windows (g : GfxInfo) (st : State)
  (info : list GfxDriverInfo) (aSuggestedVersion : string) (aFeature : Z)
  (aFailureId : string) (os : OperatingSystem) (aForAllowing : bool) :
  XP_WIN = false ->
  snd (fst (FindBlocklistedDeviceInList g st info aSuggestedVersion aFeature
              aFailureId os aForAllowing)) = aSuggestedVersion.
Proof.
  intros Hw. unfold FindBlocklistedDeviceInList.
  destruct (PreLoop g st) as [L |]; [| reflexivity].
  destruct (ScanLoop g st L aFeature os aForAllowing info 0) as [i o].
  unfold PostLoop. now rewrite Hw.
Qed.

Lemma Impl_version_off_windows (g : GfxInfo) (st : State) (aFeature : Z)
  (aStatus : Z) (aSuggestedVersion : string)
  (aDriverInfo : list GfxDriverInfo) (aFailureId : string)
  (aOS : option OperatingSystem) :
  XP_WIN = false ->
  snd (fst (fst (GetFeatureStatusImpl g st aFeature aStatus aSuggestedVersion
                   aDriverInfo aFailureId aOS))) = aSuggestedVersion.
Proof.
  intros Hw.
  assert (Hf : forall st' sv fid os fa,
    snd (fst (FindInGivenOrStatic g st' aDriverInfo sv aFeature fid os fa)) =
    sv).
  { intros. unfold FindInGivenOrStatic.
    destruct (negb _); now apply Find_version_off_windows. }
  unfold GetFeatureStatusImpl.
  destruct (aFeature <=? 0); [reflexivity |].
  destruct (negb (aStatus =? FEATURE_STATUS_UNKNOWN)); [reflexivity |].
  destruct (sShutdownOccurred st); [reflexivity |].
  destruct (_ || _ || _).
  - now destruct (OnlyAllowFeatureOnKnownConfig aFeature).
  - pose proof (Hf (GetData g st) aSuggestedVersion aFailureId
                  match aOS with Some o => o | None => OS_Unknown end false)
      as H1.
    destruct (FindInGivenOrStatic g (GetData g st) aDriverInfo _ _ _ _ false)
      as [[s v] f].
    cbn [fst snd] in H1. subst v.
    destruct (s =? FEATURE_STATUS_UNKNOWN); [| reflexivity].
    destruct (IsFeatureAllowlisted aFeature); [| reflexivity].
    pose proof (Hf (GetData g st) aSuggestedVersion f
                  match aOS with Some o => o | None => OS_Unknown end true)
      as H2.
    destruct (FindInGivenOrStatic g (GetData g st) aDriverInfo _ _ _ _ true)
      as [[s' v'] f'].
    cbn [fst snd] in H2. subst v'.
    now destruct (s' =? FEATURE_STATUS_UNKNOWN).
Qed.

Lemma failureid_is_not_the_slot (prefname : string) :
  prefname ++ ".failureid" <> SUGGESTED_VERSION_PREF.
Proof.
  intros H. apply (f_equal (fun s => substring (String.length s - 1) 1 s)) in H.
  rewrite length_append in H.
  change (String.length ".failureid") with 10%nat in H.
  replace (String.length prefname + 10 - 1)%nat
    with (String.length prefname + 9)%nat in H by lia.
  assert (Hsub : forall a s n,
    substring (String.length a + n) 1 (a ++ s) = substring n 1 s).
  { induction a as [| c a IH]; intros s n; [reflexivity |].
    change (substring (S (String.length a + n)) 1 (String c (a ++ s)) =
            substring n 1 s). cbn [substring]. apply IH. }
  rewrite Hsub in H. vm_compute in H. discriminate H.
Qed.

(** X13. On a build other than Windows no suggested driver version is
    ever produced: a resolution returns the suggested version it was
    passed, and an applied batch stores none. After
    [EvaluateDownloadedBlocklist] the suggested-version slot holds no
    text, or the text it held before. *)
Theorem no_suggested_version_off_windows (g : GfxInfo) (st : State)
  (aDriverInfo : list GfxDriverInfo) :
  XP_WIN = false ->
  (forall aFeature aStatus aSuggestedVersion aFailureId aOS,
     snd (fst (fst (GetFeatureStatusImpl g st aFeature aStatus
                      aSuggestedVersion aDriverInfo aFailureId aOS))) =
     aSuggestedVersion) /\
  (GetPrefValueForDriverVersion
     (prefs (EvaluateDownloadedBlocklist g st aDriverInfo)) = None \/
   GetPrefValueForDriverVersion
     (prefs (EvaluateDownloadedBlocklist g st aDriverInfo)) =
   GetPrefValueForDriverVersion (prefs st)).
Proof.
  intros Hw. split; [intros; now apply Impl_version_off_windows |].
  unfold EvaluateDownloadedBlocklist.
  destruct (length aDriverInfo =? 0)%nat; [now right |].
  set (os := GetOperatingSystem g).
  set (fs := seqZ FEATURE_START (FEATURE_COUNT - FEATURE_START)).
  rewrite (prefs_fold_EvaluateFeature g aDriverInfo os fs st st eq_refl
             eq_refl).
  unfold GetPrefValueForDriverVersion, Preferences_GetCString.
  rewrite apply_writes_lookup.
  destruct (last_write _ SUGGESTED_VERSION_PREF) as [o |] eqn:E;
    [| now right].
  left. apply last_write_In in E.
  apply In_concat_map in E as (f & _ & Hin).
  unfold EvaluateFeature_writes in Hin.
  pose proof (Impl_version_off_windows g st f FEATURE_STATUS_UNKNOWN ""
                aDriverInfo "" (Some os) Hw) as Hv.
  destruct (fst (GetFeatureStatusImpl g st f FEATURE_STATUS_UNKNOWN ""
                   aDriverInfo "" (Some os))) as [[[rv status] version] fid].
  cbn [fst snd] in Hv. subst version.
  assert (Hrem : In (SUGGESTED_VERSION_PREF, o)
                   (RemovePrefForFeature_writes f) ->
                 match o with Some (PrefString v) => None | _ => None end =
                 (None : option string)).
  { intros _. now destruct o as [[] |]. }
  assert (Hset : In (SUGGESTED_VERSION_PREF, o)
                   (SetPrefValueForFeature_writes f status fid) ->
                 match o with Some (PrefString v) => Some v | _ => None end =
                 None).
  { unfold SetPrefValueForFeature_writes.
    destruct (GetPrefNameForFeature f) as [n |]; [| intros []].
    intros [[= _ <-] | Hin']; [reflexivity |].
    destruct (negb (IsEmpty fid)); [| destruct Hin'].
    destruct Hin' as [[= Hn _] | []].
    now apply failureid_is_not_the_slot in Hn. }
  assert (Hrem' : In (SUGGESTED_VERSION_PREF, o)
                    (RemovePrefForFeature_writes f) ->
                  match o with Some (PrefString v) => Some v | _ => None end =
                  None).
  { unfold RemovePrefForFeature_writes.
    destruct (GetPrefNameForFeature f) as [n |]; [| intros []].
    now intros [[= _ <-] | []]. }
  destruct (_ || _ || _ || _ || _); [now apply Hrem' |].
  destruct (status =? FEATURE_BLOCKED_DRIVER_VERSION).
  - destruct Hin as [[= <-] | Hin]; [reflexivity | now apply Hset].
  - destruct (_ || _ || _ || _ || _); [now apply Hset | now apply Hrem'].
Qed.

(** ** The observer *)

Lemma ParseBlocklist_filter (g : GfxInfo) (fresh : GfxDriverInfo)
  (entries : list string) :
  omap (fun blocklistEntry =>
          match BlocklistEntryToDriverInfo g blocklistEntry fresh with
          | (true, di) => Some di
          | (false, _) => None
          end) entries =
  map (fun e => snd (BlocklistEntryToDriverInfo g e fresh))
    (List.filter
       (fun e => forallb (PairAccepted (GetApplicationVersion g))
                   (Split e (ascii_of_nat 9))) entries).
Proof.
  induction entries as [| e rest IH]; [reflexivity |].
  cbn [omap list_omap List.filter].
  pose proof (ParseKeyValues_forallb (GetApplicationVersion g)
                (Split e (ascii_of_nat 9))
                (set_mRuleId fresh "FEATURE_FAILURE_DL_BLOCKLIST_NO_ID")) as H.
  fold (BlocklistEntryToDriverInfo g e fresh) in H. rewrite <- H.
  destruct (BlocklistEntryToDriverInfo g e fresh) as [[|] di] eqn:E;
    cbn [fst map]; rewrite ?E; cbn [snd]; now rewrite <- IH.
Qed.

(** X22. The records of a blocklist payload are parsed independently,
    each from a fresh rule: the rules applied are those of the accepted
    records, in order, and a rejected record takes nothing else with it.
    A notification with another topic changes nothing, and neither does
    a payload in which every record is rejected: the overrides stored by
    an earlier payload stay. *)
Theorem records_are_parsed_independently (g : GfxInfo) (st : State)
  (fresh : GfxDriverInfo) (aTopic aData : string) :
  ParseBlocklist g fresh aData =
  map (fun e => snd (BlocklistEntryToDriverInfo g e fresh))
    (List.filter
       (fun e => forallb (PairAccepted (GetApplicationVersion g))
                   (Split e (ascii_of_nat 9)))
       (Split aData (ascii_of_nat 10))) /\
  (aTopic <> "blocklist-data-gfxItems" ->
   Observe g st fresh aTopic aData = st) /\
  (forallb
     (fun e => negb (forallb (PairAccepted (GetApplicationVersion g))
                       (Split e (ascii_of_nat 9))))
     (Split aData (ascii_of_nat 10)) = true ->
   Observe g st fresh aTopic aData = st).
Proof.
  split; [apply ParseBlocklist_filter | split].
  - intros Ht. unfold Observe, Equals.
    now destruct (String.eqb_spec aTopic "blocklist-data-gfxItems").
  - intros Hall. unfold Observe.
    destruct (Equals aTopic "blocklist-data-gfxItems"); [| reflexivity].
    unfold ParseBlocklist. rewrite ParseBlocklist_filter.
    assert (E : List.filter
              (fun e => forallb (PairAccepted (GetApplicationVersion g))
                          (Split e (ascii_of_nat 9)))
              (Split aData (ascii_of_nat 10)) = []).
    { induction (Split aData (ascii_of_nat 10)) as [| e rest IH];
        [reflexivity |].
      cbn [forallb List.filter] in *.
      apply andb_true_iff in Hall as [He Hrest].
      apply negb_true_iff in He. rewrite He. now apply IH. }
    now rewrite E.
Qed.

End Properties.

(** * The font-visibility determination *)

Lemma OsReleaseLoop_first (strtol : string -> Z) (lines : list string) :
  forall first second versionMajor,
    fst (fst (OsReleaseLoop strtol lines first second versionMajor)) = first
    \/
    fst (fst (OsReleaseLoop strtol lines first second versionMajor)) =
    Linux_Ubuntu_any \/
    fst (fst (OsReleaseLoop strtol lines first second versionMajor)) =
    Linux_Fedora_any.
Proof.
  induction lines as [| buf rest IH]; intros first second versionMajor;
    [now left |].
  cbn [OsReleaseLoop].
  destruct (String.prefix ("VERSION_ID=" ++ quote) buf && _);
    [now left |].
  destruct (String.prefix "ID=" buf); cbn [andb].
  - destruct (String.prefix "ubuntu" (skip 3 buf)).
    + destruct (negb _); [right; now left |].
      destruct (IH Linux_Ubuntu_any
                  (match String.prefix ("VERSION_ID=" ++ quote) buf with
                   | true => second ++ "VERSION_ID=" ++ substring 11 11 buf
                   | false => second
                   end ++ "ID=" ++ substring 3 6 buf)
                  (if String.prefix ("VERSION_ID=" ++ quote) buf
                   then strtol (skip 12 buf) else versionMajor))
        as [H | [H | H]]; rewrite H; tauto.
    + destruct (String.prefix "fedora" (skip 3 buf)).
      * destruct (negb _); [right; now right |].
        destruct (IH Linux_Fedora_any
                    (match String.prefix ("VERSION_ID=" ++ quote) buf with
                     | true => second ++ "VERSION_ID=" ++ substring 11 11 buf
                     | false => second
                     end ++ "ID=" ++ substring 3 6 buf)
                    (if String.prefix ("VERSION_ID=" ++ quote) buf
                     then strtol (skip 12 buf) else versionMajor))
          as [H | [H | H]]; rewrite H; tauto.
      * destruct (negb _); [now left | apply IH].
  - apply IH.
Qed.

Lemma LinuxDetermination_assigned (strtol : string -> Z)
  (os_release : option (list string)) (ret : Device * string) :
  fst (LinuxDetermination strtol os_release ret) <> Unassigned.
Proof.
  unfold LinuxDetermination.
  assert (H : forall first second versionMajor,
    first = Linux_Unknown \/ first = Linux_Ubuntu_any \/
    first = Linux_Fedora_any ->
    fst (if bool_decide (first = Linux_Ubuntu_any) then
           if versionMajor =? 20
           then (Linux_Ubuntu_20, "Ubuntu 20 - " ++ second)
           else if versionMajor =? 22
           then (Linux_Ubuntu_22, "Ubuntu 22 - " ++ second)
           else (first, "Ubuntu Unknown - " ++ second)
         else if bool_decide (first = Linux_Fedora_any) then
           if versionMajor =? 38
           then (Linux_Fedora_38, "Fedora 38 - " ++ second)
           else if versionMajor =? 39
           then (Linux_Fedora_39, "Fedora 39 - " ++ second)
           else (first, "Fedora Unknown - " ++ second)
         else (first, "Linux Unknown - " ++ second)) <> Unassigned).
  { intros first second v [-> | [-> | ->]]; cbn;
      repeat match goal with
             | |- context [if ?c then _ else _] => destruct c
             end; discriminate. }
  destruct os_release as [lines |]; [| apply H; now left].
  pose proof (OsReleaseLoop_first strtol lines Linux_Unknown (snd ret) 0)
    as Hf.
  destruct (OsReleaseLoop strtol lines Linux_Unknown (snd ret) 0)
    as [[first second] versionMajor].
  cbn [fst] in Hf. now apply H.
Qed.

Lemma AndroidDetermination_assigned (strtol : string -> Z)
  (ProductIsChromebook : string -> bool) (b : AndroidBuild)
  (ret : Device * string) :
  exists r,
    AndroidDetermination strtol ProductIsChromebook b ret = Some r /\
    fst r <> Unassigned.
Proof.
  unfold AndroidDetermination.
  set (v := strtol (RELEASE b)).
  destruct ((v <? 4) || (v >? 20)) eqn:E1; [| destruct (v <=? 8) eqn:E2;
    [| destruct (v <=? 11) eqn:E3; [| destruct (v >? 11) eqn:E4]]].
  5: { exfalso. apply Z.leb_gt in E3. rewrite Z.gtb_ltb in E4.
       apply Z.ltb_ge in E4. lia. }
  all: eexists; split; [reflexivity |]; cbn [fst snd];
    repeat match goal with
           | |- context [if ?c then _ else _] => destruct c
           end; discriminate.
Qed.

(** X28. The font-visibility determination is made once. On every
    platform branch the first call returns (the crash branch of the
    Android release test cannot be reached) with a device other than
    Unassigned, and every later call returns that same pair without
    looking at the platform again, whatever the platform would answer
    then. *)
Theorem font_visibility_is_determined_once (strtol : string -> Z)
  (ProductIsChromebook : string -> bool) (p : FontPlatform)
  (ret : option (Device * string)) :
  exists r,
    GetFontVisibilityDeterminationPair strtol ProductIsChromebook p ret =
    Some r /\
    fst r <> Unassigned /\
    GetFontVisibilityDetermination strtol ProductIsChromebook p ret =
    Some (NS_OK, fst r, Some r) /\
    forall strtol' ProductIsChromebook' p',
      GetFontVisibilityDeterminationPair strtol' ProductIsChromebook' p'
        (Some r) = Some r /\
      GetFontVisibilityDeterminationStr strtol' ProductIsChromebook' p'
        (Some r) = Some (NS_OK, snd r, Some r).
Proof.
  assert (Hcached : forall r, fst r <> Unassigned ->
    forall strtol' ProductIsChromebook' p',
      GetFontVisibilityDeterminationPair strtol' ProductIsChromebook' p'
        (Some r) = Some r /\
      GetFontVisibilityDeterminationStr strtol' ProductIsChromebook' p'
        (Some r) = Some (NS_OK, snd r, Some r)).
  { intros r Hr strtol' PIC' p'.
    assert (E : GetFontVisibilityDeterminationPair strtol' PIC' p' (Some r)
                = Some r).
    { unfold GetFontVisibilityDeterminationPair.
      now rewrite bool_decide_eq_false_2. }
    split; [exact E |].
    unfold GetFontVisibilityDeterminationStr. now rewrite E. }
  assert (Hmain : exists r,
    GetFontVisibilityDeterminationPair strtol ProductIsChromebook p ret =
    Some r /\ fst r <> Unassigned).
  { unfold GetFontVisibilityDeterminationPair.
    set (r0 := match ret with None => (Unassigned, "") | Some r => r end).
    destruct (bool_decide_reflect (fst r0 = Unassigned)) as [E | Hne];
      cbn [negb]; [| now exists r0].
    destruct p as [b | f | major minor bugfix | |].
    - apply AndroidDetermination_assigned.
    - eexists. split; [reflexivity |]. apply LinuxDetermination_assigned.
    - eexists. split; [reflexivity |]. unfold MacOSDetermination.
      destruct (major =? 0); [discriminate |].
      cbn [fst]. now destruct (major >=? 13).
    - eexists. split; [reflexivity | discriminate].
    - eexists. split; [reflexivity | discriminate]. }
  destruct Hmain as (r & E & Hr). exists r.
  split; [exact E |]. split; [exact Hr |]. split.
  - unfold GetFontVisibilityDetermination. now rewrite E.
  - now apply Hcached.
Qed.

(** X29. On Android the tests are applied in order and the last one
    that holds names the device: a Xiaomi Mi TV, then the vbox86p
    emulator, then the brands peloton and amazon, then a Google
    Chromebook, and only then the release number, whose four ranges
    cover every number. *)
Theorem android_last_test_that_holds_decides (strtol : string -> Z)
  (ProductIsChromebook : string -> bool) (b : AndroidBuild)
  (ret : Device * string) :
  option_map fst (AndroidDetermination strtol ProductIsChromebook b ret) =
  Some
    (if Find_found "mitv" (string_to_lower (MODEL b)) &&
        Equals (string_to_lower (BRAND b)) "xiaomi"
     then Android_Unknown_mitv
     else if Equals (string_to_lower (PRODUCT b)) "vbox86p"
     then Android_Unknown_vbox
     else if Equals (string_to_lower (BRAND b)) "peloton"
     then Android_Unknown_Peloton
     else if Equals (string_to_lower (BRAND b)) "amazon"
     then Android_Amazon
     else if Equals (string_to_lower (MANUFACTURER b)) "google" &&
             Equals (string_to_lower (MODEL b)) (string_to_lower (PRODUCT b)) &&
             ProductIsChromebook (string_to_lower (PRODUCT b))
     then Android_Chromebook
     else if strtol (RELEASE b) <? 4 then Android_Unknown_Release_Version
     else if strtol (RELEASE b) <=? 8 then Android_sub_9
     else if strtol (RELEASE b) <=? 11 then Android_9_11
     else if strtol (RELEASE b) <=? 20 then Android_12_plus
     else Android_Unknown_Release_Version).
Proof.
  unfold AndroidDetermination.
  set (v := strtol (RELEASE b)).
  assert (Hv : forall X (a c d e : X),
    (if (v <? 4) || (v >? 20) then Some a
     else if v <=? 8 then Some c
     else if v <=? 11 then Some d
     else if v >? 11 then Some e else None) =
    Some (if v <? 4 then a else if v <=? 8 then c
          else if v <=? 11 then d else if v <=? 20 then e else a)).
  { intros X a c d e. rewrite !Z.gtb_ltb.
    destruct (Z.ltb_spec v 4), (Z.ltb_spec 20 v), (Z.leb_spec v 8),
      (Z.leb_spec v 11), (Z.ltb_spec 11 v), (Z.leb_spec v 20);
      cbn; try reflexivity; lia. }
  rewrite Hv.
  destruct (Find_found "mitv" _ && _); [reflexivity |].
  destruct (Equals (string_to_lower (PRODUCT b)) "vbox86p"); [reflexivity |].
  destruct (Equals (string_to_lower (BRAND b)) "peloton"); [reflexivity |].
  destruct (Equals (string_to_lower (BRAND b)) "amazon"); [reflexivity |].
  destruct (_ && _ && _); [reflexivity |].
  cbn [option_map fst].
  repeat match goal with
         | |- context [if ?c then _ else _] => destruct c
         end; reflexivity.
Qed.




(** * The theorems on explicit inputs *)

Import Sample Fixtures.

#[local] Existing Instance status_numbers.
#[local] Existing Instance decls.

Ltac evaluate := vm_compute; reflexivity.

(** C1, the code at the failing input. A block-mode scan on Windows 10
    for DIRECT2D over two rules that block the device: the first is
    restricted to a range of numeric device ids, and the lookup of the
    adapter's id ["0x2582"] in it fails; the second has no device set and
    matches the machine. The loop is left at the first rule without a
    status: the scan returns UNKNOWN, not BLOCKED_DEVICE, the second rule
    is never examined, and resolution ends with STATUS_OK. In allow mode
    the same lookup failure lets the scan go on to the next rule. *)
Theorem C1_lookup_failure_ends_block_scan_without_status :
  DeviceLookup rule_device_range (adapterDeviceID locals false) =
  Some NS_ERROR_FAILURE /\
  mFeatureStatus rule_device_range = FEATURE_BLOCKED_DEVICE /\
  RuleBody (B:=windows) machine ready locals FEATURE_DIRECT2D OS_Windows10
    false rule_device_range = RuleBreak /\
  FindBlocklistedDeviceInList (B:=windows) machine ready
    [rule_device_range; rule_blocked_device] "" FEATURE_DIRECT2D ""
    OS_Windows10 false = (FEATURE_STATUS_UNKNOWN, "", "") /\
  FindBlocklistedDeviceInList (B:=windows) machine ready
    [rule_blocked_device] "" FEATURE_DIRECT2D "" OS_Windows10 false =
  (FEATURE_BLOCKED_DEVICE, "", "FEATURE_FAILURE_RULE") /\
  fst (GetFeatureStatusImpl (B:=windows) machine initial FEATURE_DIRECT2D
         FEATURE_STATUS_UNKNOWN "" [rule_device_range; rule_blocked_device] ""
         (Some OS_Windows10)) = (NS_OK, FEATURE_STATUS_OK, "", "") /\
  RuleBody (B:=windows) machine ready locals FEATURE_DIRECT2D OS_Windows10
    true (set_mFeatureStatus rule_device_range FEATURE_ALLOW_ALWAYS) =
  RuleContinue.
Proof. repeat split; vm_compute; reflexivity. Qed.

(** C2, counterexample. The record names the comparator [OLDER_THAN],
    which the table does not hold; the parser accepts the record with
    the comparator DRIVER_COMPARISON_IGNORED, and the rule matches the
    machine: the scan returns its status BLOCKED_DEVICE. *)
Lemma C2_counterexample :
  table_find GFXINFO_DRIVER_VERSION_CMP "OLDER_THAN" = None /\
  DriverVersionSwitch (BlocklistComparatorToComparisonOp "OLDER_THAN")
    (driverVersion locals false) 281474976710656 0 = true /\
  fst (BlocklistEntryToDriverInfo machine record_odd_comparator fresh) = true /\
  mComparisonOp
    (snd (BlocklistEntryToDriverInfo machine record_odd_comparator fresh)) =
  DRIVER_COMPARISON_IGNORED /\
  FindBlocklistedDeviceInList (B:=windows) machine ready
    [snd (BlocklistEntryToDriverInfo machine record_odd_comparator fresh)]
    "" FEATURE_DIRECT2D "" OS_Windows10 false =
  (FEATURE_BLOCKED_DEVICE, "", "FEATURE_FAILURE_DL_BLOCKLIST_NO_ID").
Proof. repeat split; vm_compute; reflexivity. Qed.

Lemma C2_witness :
  table_find GFXINFO_DRIVER_VERSION_CMP "OLDER_THAN" = None /\
  BlocklistComparatorToComparisonOp "OLDER_THAN" = DRIVER_COMPARISON_IGNORED /\
  DriverVersionMatch (B:=windows)
    (snd (BlocklistEntryToDriverInfo machine record_odd_comparator fresh))
    (driverVersion locals false) = true.
Proof.
  assert (Htab : table_find GFXINFO_DRIVER_VERSION_CMP "OLDER_THAN" = None)
    by evaluate.
  split; [exact Htab |].
  destruct (C2_unrecognized_comparator_is_ignored (B:=windows)
              "OLDER_THAN" Htab) as (H1 & _ & H3 & _).
  split; [exact H1 |]. apply H3. evaluate.
Defined.

(** C3, counterexample. In a build that is not for Windows the rule
    that wins has status BLOCKED_DRIVER_VERSION and an explicit
    suggested version, and the scan leaves the suggested version
    empty. *)
Lemma C3_counterexample :
  mFeatureStatus rule_suggesting = FEATURE_BLOCKED_DRIVER_VERSION /\
  mSuggestedVersion rule_suggesting = Some "257.21" /\
  FindBlocklistedDeviceInList (B:=gtk) machine_linux
    (GetData machine_linux initial) [rule_suggesting] "" FEATURE_DIRECT2D ""
    (OtherOS 0) false =
  (FEATURE_BLOCKED_DRIVER_VERSION, "", "FEATURE_FAILURE_RULE").
Proof. repeat split; vm_compute; reflexivity. Qed.

Lemma C3_witness :
  FindBlocklistedDeviceInList (B:=windows) machine ready [rule_less_than] ""
    FEATURE_DIRECT2D "" OS_Windows10 false =
  (FEATURE_BLOCKED_DRIVER_VERSION, "8.52.322.2202", "FEATURE_FAILURE_RULE").
Proof.
  assert (HL : PreLoop (B:=windows) machine ready = Some locals)
    by reflexivity.
  assert (Hloop : ScanLoop (B:=windows) machine ready locals FEATURE_DIRECT2D
                    OS_Windows10 false [rule_less_than] 0 =
                  (0%nat, RuleWin FEATURE_BLOCKED_DRIVER_VERSION
                            "FEATURE_FAILURE_RULE")) by evaluate.
  destruct (C3_suggested_version_on_windows (I:=status_numbers) (B:=windows)
              machine ready locals [rule_less_than] "" FEATURE_DIRECT2D ""
              OS_Windows10 false 0%nat "FEATURE_FAILURE_RULE" eq_refl eq_refl
              HL Hloop)
    as (r & version & Hr & _ & Hfind & _ & Hlt & _).
  injection Hr as <-. rewrite Hfind.
  rewrite (Hlt eq_refl eq_refl ltac:(discriminate)).
  vm_compute. reflexivity.
Defined.

(** The explicit suggested version has precedence, and nothing is
    suggested under LESS_THAN_OR_EQUAL. *)
Example suggested_version_cases :
  FindBlocklistedDeviceInList (B:=windows) machine ready
    [suggesting rule_less_than "9.0.0.1"] "" FEATURE_DIRECT2D ""
    OS_Windows10 false =
  (FEATURE_BLOCKED_DRIVER_VERSION, "9.0.0.1", "FEATURE_FAILURE_RULE") /\
  FindBlocklistedDeviceInList (B:=windows) machine ready
    [set_mComparisonOp rule_less_than DRIVER_LESS_THAN_OR_EQUAL] ""
    FEATURE_DIRECT2D "" OS_Windows10 false =
  (FEATURE_BLOCKED_DRIVER_VERSION, "", "FEATURE_FAILURE_RULE").
Proof. split; vm_compute; reflexivity. Qed.

Lemma C4_witness :
  fst (GetFeatureStatusImpl (B:=windows) machine initial
         FEATURE_HW_DECODED_VIDEO_ZERO_COPY FEATURE_STATUS_UNKNOWN ""
         [rule_blocked_device] "" (Some OS_Windows10)) =
  (NS_OK, FEATURE_DENIED, "", "").
Proof.
  assert (Hscan : FindBlocklistedDeviceInList (B:=windows) machine
                    (GetData machine initial) [rule_blocked_device] ""
                    FEATURE_HW_DECODED_VIDEO_ZERO_COPY "" OS_Windows10 false =
                  (FEATURE_STATUS_UNKNOWN, "", "")) by evaluate.
  assert (Hf : 0 < FEATURE_HW_DECODED_VIDEO_ZERO_COPY) by evaluate.
  rewrite (C4_unknown_after_block_scan (I:=status_numbers) (B:=windows)
             machine initial FEATURE_HW_DECODED_VIDEO_ZERO_COPY ""
             [rule_blocked_device] "" (Some OS_Windows10) "" ""
             Hf eq_refl eq_refl Hscan).
  vm_compute. reflexivity.
Defined.

(** A feature that is not allowlist-governed, with no matching rule. *)
Example unknown_becomes_status_ok :
  fst (GetFeatureStatusImpl (B:=windows) machine initial
         FEATURE_BACKDROP_FILTER FEATURE_STATUS_UNKNOWN ""
         [rule_blocked_device] "" (Some OS_Windows10)) =
  (NS_OK, FEATURE_STATUS_OK, "", "").
Proof. vm_compute. reflexivity. Qed.

(** C5, counterexample. The store holds (DENIED, FEATURE_FAILURE_X) for
    DIRECT2D. In a content process resolution returns the status
    STATUS_OK of the snapshot; in the parent process it returns DENIED
    with the caller's failure id, not the stored one. *)
Lemma C5_counterexample :
  Preferences_GetInt (prefs denied_stored) "gfx.blacklist.direct2d" =
  Some FEATURE_DENIED /\
  Preferences_GetCString (prefs denied_stored)
    "gfx.blacklist.direct2d.failureid" = Some "FEATURE_FAILURE_X" /\
  GetFeatureStatus (B:=windows) (GetFeatureStatusImpl (B:=windows))
    machine_content denied_stored FEATURE_DIRECT2D "" 0 =
  Some ((NS_OK, FEATURE_STATUS_OK, ""), denied_stored) /\
  GetFeatureStatus (B:=windows) (GetFeatureStatusImpl (B:=windows)) machine
    denied_stored FEATURE_DIRECT2D "" 0 =
  Some ((NS_OK, FEATURE_DENIED, ""), denied_stored).
Proof. repeat split; vm_compute; reflexivity. Qed.

Lemma C5_witness :
  GetFeatureStatus (B:=windows) (GetFeatureStatusImpl (B:=windows)) machine
    blocked_stored FEATURE_DIRECT2D "" 0 =
  Some ((NS_OK, FEATURE_BLOCKED_DEVICE, "FEATURE_FAILURE_X"), blocked_stored) /\
  GetFeatureStatus (B:=windows) (GetFeatureStatusImpl (B:=windows)) machine
    denied_stored FEATURE_DIRECT2D "FEATURE_FAILURE_CALLER" 0 =
  Some ((NS_OK, FEATURE_DENIED, "FEATURE_FAILURE_CALLER"), denied_stored).
Proof.
  assert (Hall : (if @RELEASE_OR_BETA windows then 0
                  else gfx_blocklist_all_AtStartup machine) = 0) by evaluate.
  assert (Hname : GetPrefNameForFeature FEATURE_DIRECT2D =
                  Some "gfx.blacklist.direct2d") by evaluate.
  assert (Hpref : prefs blocked_stored !! "gfx.blacklist.direct2d" =
                  Some (PrefInt FEATURE_BLOCKED_DEVICE)) by evaluate.
  assert (Hd : (FEATURE_BLOCKED_DEVICE =? FEATURE_DENIED) = false)
    by evaluate.
  assert (Hpref' : prefs denied_stored !! "gfx.blacklist.direct2d" =
                   Some (PrefInt FEATURE_DENIED)) by evaluate.
  assert (Hne : FEATURE_DENIED <> FEATURE_STATUS_UNKNOWN)
    by (vm_compute; discriminate).
  split.
  - rewrite (proj1 (C5_stored_override_is_returned (I:=status_numbers)
                      (B:=windows) (GetFeatureStatusImpl (B:=windows)) machine
                      blocked_stored FEATURE_DIRECT2D "" 0
                      "gfx.blacklist.direct2d" FEATURE_BLOCKED_DEVICE
                      Hall Hname Hpref) Hd).
    vm_compute. reflexivity.
  - exact (proj2 (proj2 (C5_stored_override_is_returned (I:=status_numbers)
                           (B:=windows) (GetFeatureStatusImpl (B:=windows))
                           machine denied_stored FEATURE_DIRECT2D
                           "FEATURE_FAILURE_CALLER" 0 "gfx.blacklist.direct2d"
                           FEATURE_DENIED Hall Hname Hpref'))
             eq_refl Hne eq_refl).
Defined.

(** C6, counterexample. The bound of the rule is 0.0.1.0, that is 2^16,
    and the system version is 5: the predicate holds, and the low 16
    bits of the system version are not below the low 16 bits of the
    bound, which are 0. *)
Lemma C6_counterexample :
  mComparisonOp rule_build_id = DRIVER_BUILD_ID_LESS_THAN /\
  DriverVersionMatch (B:=windows) rule_build_id 5 = true /\
  (5 mod 2 ^ 16 <? mDriverVersion rule_build_id mod 2 ^ 16) = false.
Proof. repeat split. Qed.

Lemma C6_witness :
  DriverVersionMatch (B:=windows) rule_build_id 5 =
  (5 mod 2 ^ 16 <? mDriverVersion rule_build_id).
Proof.
  exact (proj1 (C6_build_id_masks_the_system_side (B:=windows)
                  rule_build_id 5 eq_refl) eq_refl).
Defined.

Lemma C8_witness :
  fst (GetFeatureStatusImpl (B:=windows) machine_no_adapter initial
         FEATURE_DIRECT2D FEATURE_STATUS_UNKNOWN "" [] "" None) =
  (NS_OK, FEATURE_BLOCKED_DEVICE, "", "FEATURE_FAILURE_CANT_RESOLVE_ADAPTER") /\
  fst (GetFeatureStatusImpl (B:=windows) machine_no_adapter initial
         FEATURE_BACKDROP_FILTER FEATURE_STATUS_UNKNOWN "" [] "" None) =
  (NS_OK, FEATURE_STATUS_OK, "", "").
Proof.
  assert (Hd : 0 < FEATURE_DIRECT2D) by evaluate.
  assert (Hb : 0 < FEATURE_BACKDROP_FILTER) by evaluate.
  split.
  - rewrite (C8_adapter_unavailable (I:=status_numbers) (B:=windows)
               machine_no_adapter initial FEATURE_DIRECT2D "" [] "" None
               Hd eq_refl eq_refl).
    reflexivity.
  - rewrite (C8_adapter_unavailable (I:=status_numbers) (B:=windows)
               machine_no_adapter initial FEATURE_BACKDROP_FILTER "" [] "" None
               Hb eq_refl eq_refl).
    reflexivity.
Defined.

(** C9, counterexample. The list holds one allow rule; the build is for
    Windows, the feature is DIRECT2D and the secondary adapter is an
    NVidia 310M: the block-mode scan returns BLOCKED_DEVICE. *)
Lemma C9_counterexample :
  MatchingAllowStatus (mFeatureStatus rule_allow) = true /\
  FindBlocklistedDeviceInList (B:=windows) machine_nv310m
    (GetData machine_nv310m initial) [rule_allow] "" FEATURE_DIRECT2D ""
    OS_Windows10 false =
  (FEATURE_BLOCKED_DEVICE, "", "FEATURE_FAILURE_D2D_NV310M_BLOCK").
Proof. split; vm_compute; reflexivity. Qed.

Lemma C9_witness :
  FindBlocklistedDeviceInList (B:=windows) machine ready
    [rule_allow; rule_allow] "" FEATURE_DIRECT2D "" OS_Windows10 false =
  (FEATURE_STATUS_UNKNOWN, "", "").
Proof.
  assert (Hall : Forall (fun r => MatchingAllowStatus (mFeatureStatus r) = true)
                   [rule_allow; rule_allow])
    by (repeat constructor).
  assert (HL : PreLoop (B:=windows) machine ready = Some locals)
    by reflexivity.
  destruct (C9_allow_rules_never_win_a_block_scan (I:=status_numbers)
              (B:=windows) machine ready [rule_allow; rule_allow] ""
              FEATURE_DIRECT2D "" OS_Windows10 Hall)
    as (_ & _ & Hunknown & _).
  apply (Hunknown locals HL). right. reflexivity.
Defined.

Lemma direct2d_pref_not_shared (f : Z) :
  f <> FEATURE_DIRECT2D ->
  GetPrefNameForFeature f <> Some "gfx.blacklist.direct2d".
Proof.
  intros Hf. unfold GetPrefNameForFeature. cbn.
  repeat match goal with
         | |- context [if ?c then _ else _] =>
             destruct c eqn:?; cbv iota; [try discriminate |]
         end; try discriminate.
  apply Z.eqb_eq in Heqb. contradiction.
Qed.

Lemma C10_witness :
  BlocklistFeatureStatusToGfxFeatureStatus "BLOCKED_SOMEHOW" =
  FEATURE_STATUS_OK /\
  (exists di,
     BlocklistEntryToDriverInfo machine record_odd_status fresh = (true, di) /\
     mFeatureStatus di = FEATURE_STATUS_OK) /\
  MatchingAllowStatus FEATURE_STATUS_OK = false /\
  fst (fst (GetPrefValueForFeature (prefs blocked_stored) FEATURE_DIRECT2D
              0 "")) = true /\
  fst (fst (GetPrefValueForFeature
              (prefs (EvaluateFeature (B:=windows) machine
                        [snd (BlocklistEntryToDriverInfo machine
                                record_odd_status fresh)]
                        OS_Windows10 blocked_stored FEATURE_DIRECT2D))
              FEATURE_DIRECT2D 0 "")) = false /\
  fst (fst (GetPrefValueForFeature
              (prefs (EvaluateDownloadedBlocklist (B:=windows) machine
                        blocked_stored
                        [snd (BlocklistEntryToDriverInfo machine
                                record_odd_status fresh)]))
              FEATURE_DIRECT2D 0 "")) = false.
Proof.
  assert (Htab : table_find GFXINFO_FEATURE_STATUS "BLOCKED_SOMEHOW" = None)
    by evaluate.
  destruct (C10_unrecognized_status_is_STATUS_OK (I:=status_numbers)
              (B:=windows) "BLOCKED_SOMEHOW" Htab ltac:(discriminate)
              eq_refl eq_refl eq_refl) as (H1 & _ & H3 & H4 & H5 & H6).
  assert (Hf : 0 < FEATURE_DIRECT2D) by evaluate.
  assert (Hbatch :
    [snd (BlocklistEntryToDriverInfo machine record_odd_status fresh)] <> [])
    by discriminate.
  assert (HL : PreLoop (B:=windows) machine (GetData machine blocked_stored) =
               Some locals) by reflexivity.
  assert (Hloop :
    ScanLoop (B:=windows) machine (GetData machine blocked_stored) locals
      FEATURE_DIRECT2D OS_Windows10 false
      [snd (BlocklistEntryToDriverInfo machine record_odd_status fresh)] 0 =
    (0%nat, RuleWin FEATURE_STATUS_OK "FEATURE_FAILURE_DL_BLOCKLIST_NO_ID"))
    by evaluate.
  split; [exact H1 |].
  split; [| split; [exact H4 | split; [evaluate | split]]].
  - assert (Hsplit : Split record_odd_status (ascii_of_nat 9) =
                     (["os:WINNT 10.0"; "feature:DIRECT2D"] ++
                      "featureStatus:BLOCKED_SOMEHOW" :: [])%list) by evaluate.
    assert (Hpair : ParseString "featureStatus:BLOCKED_SOMEHOW" ":" =
                    ["featureStatus"; "BLOCKED_SOMEHOW"]) by evaluate.
    assert (Hothers :
      Forall (fun kv =>
                fst (ParseKeyValue (GetApplicationVersion machine) kv fresh) =
                true)
        (["os:WINNT 10.0"; "feature:DIRECT2D"] ++ [])%list)
      by (repeat (constructor; [evaluate |]); constructor).
    destruct (H3 machine record_odd_status fresh
                ["os:WINNT 10.0"; "feature:DIRECT2D"]
                "featureStatus:BLOCKED_SOMEHOW" [] Hsplit Hpair Hothers)
      as (di & Hdi & Hstatus).
    exists di. split; [exact Hdi | apply Hstatus; constructor].
  - apply (H5 machine blocked_stored locals _ FEATURE_DIRECT2D OS_Windows10
             0%nat "FEATURE_FAILURE_DL_BLOCKLIST_NO_ID" 0 ""
             Hf eq_refl eq_refl Hbatch HL Hloop).
  - assert (Hrange : FEATURE_START <= FEATURE_DIRECT2D < FEATURE_COUNT)
      by (change (1 <= 1 < 8); lia).
    assert (Hname : GetPrefNameForFeature FEATURE_DIRECT2D =
                    Some "gfx.blacklist.direct2d") by evaluate.
    apply (H6 machine blocked_stored locals _ FEATURE_DIRECT2D
             0%nat "FEATURE_FAILURE_DL_BLOCKLIST_NO_ID"
             "gfx.blacklist.direct2d" 0 ""
             Hrange Hf eq_refl eq_refl Hbatch HL Hloop Hname
             direct2d_pref_not_shared).
Defined.

(** * The further properties on explicit inputs *)

(** X1 at an allow rule followed by two block rules: the allow rule is
    skipped and the first block rule decides. *)
Lemma X1_witness :
  FindBlocklistedDeviceInList (B:=windows) machine ready
    ([rule_allow] ++ rule_blocked_device :: [rule_device_range])%list ""
    FEATURE_DIRECT2D "" OS_Windows10 false =
  (FEATURE_BLOCKED_DEVICE, "", "FEATURE_FAILURE_RULE").
Proof.
  assert (HL : PreLoop (B:=windows) machine ready = Some locals)
    by reflexivity.
  assert (Hbefore :
    Forall (fun r' => RuleBody (B:=windows) machine ready locals
                        FEATURE_DIRECT2D OS_Windows10 false r' = RuleContinue)
      [rule_allow]) by (constructor; [evaluate | constructor]).
  assert (Hb : RuleBody (B:=windows) machine ready locals FEATURE_DIRECT2D
                 OS_Windows10 false rule_blocked_device =
               RuleWin FEATURE_BLOCKED_DEVICE "FEATURE_FAILURE_RULE")
    by evaluate.
  assert (Hr : RuleBody (B:=windows) machine ready locals FEATURE_DIRECT2D
                 OS_Windows10 false rule_blocked_device <> RuleContinue)
    by (rewrite Hb; discriminate).
  assert (Hone : FindBlocklistedDeviceInList (B:=windows) machine ready
                   [rule_blocked_device] "" FEATURE_DIRECT2D "" OS_Windows10
                   false =
                 (FEATURE_BLOCKED_DEVICE, "", "FEATURE_FAILURE_RULE"))
    by evaluate.
  exact (eq_trans
           (proj1 (scan_first_match_decides (I:=status_numbers) (B:=windows)
                     machine ready locals [rule_allow] [rule_device_range]
                     rule_blocked_device "" FEATURE_DIRECT2D "" OS_Windows10
                     false HL Hbefore Hr)) Hone).
Defined.

(** X4 at a rule whose device set lists the id of the adapter. *)
Lemma X4_witness :
  RuleBody (B:=windows) machine ready locals FEATURE_DIRECT2D OS_Windows10
    false rule_device_listed =
  RuleWin FEATURE_BLOCKED_DEVICE "FEATURE_FAILURE_RULE".
Proof.
  assert (Hlookup : DeviceLookup rule_device_listed
                      (adapterDeviceID locals (mGpu2 rule_device_listed)) =
                    Some NS_OK) by evaluate.
  assert (Hval : RuleBody (B:=windows) machine ready locals FEATURE_DIRECT2D
                   OS_Windows10 false (set_mDevices rule_device_listed None) =
                 RuleWin FEATURE_BLOCKED_DEVICE "FEATURE_FAILURE_RULE")
    by evaluate.
  exact (eq_trans
           (proj1 (device_set_constrains_only_when_non_empty
                     (I:=status_numbers) (B:=windows) machine ready locals
                     FEATURE_DIRECT2D OS_Windows10 false rule_device_listed)
              (or_intror Hlookup)) Hval).
Defined.

(** X5 at an unknown comparator, another upper bound and other driver
    versions. *)
Lemma X5_witness :
  RuleBody (B:=windows) machine ready locals_other_versions FEATURE_DIRECT2D
    OS_Windows10 false
    (set_mDriverVersionMax
       (set_mComparisonOp rule_all_versions (DRIVER_BOGUS 99)) 5) =
  RuleWin FEATURE_BLOCKED_DEVICE "FEATURE_FAILURE_RULE".
Proof.
  assert (Hval : RuleBody (B:=windows) machine ready locals FEATURE_DIRECT2D
                   OS_Windows10 false rule_all_versions =
                 RuleWin FEATURE_BLOCKED_DEVICE "FEATURE_FAILURE_RULE")
    by evaluate.
  exact (eq_trans
           (all_driver_versions_ignores_comparator (I:=status_numbers)
              (B:=windows) machine ready locals FEATURE_DIRECT2D OS_Windows10
              false rule_all_versions (DRIVER_BOGUS 99) 5 (fun _ => 7)
              eq_refl) Hval).
Defined.

(** X6 at a rule for all features, asked for another feature. *)
Lemma X6_witness :
  RuleBody (B:=windows) machine ready locals FEATURE_BACKDROP_FILTER
    OS_Windows10 false rule_all_features =
  RuleWin FEATURE_BLOCKED_DEVICE "FEATURE_FAILURE_RULE".
Proof.
  assert (Hval : RuleBody (B:=windows) machine ready locals FEATURE_DIRECT2D
                   OS_Windows10 false rule_all_features =
                 RuleWin FEATURE_BLOCKED_DEVICE "FEATURE_FAILURE_RULE")
    by evaluate.
  exact (eq_trans
           (proj1 (feature_tag_of_a_rule (I:=status_numbers) (B:=windows)
                     machine ready locals OS_Windows10 false
                     rule_all_features)
              eq_refl FEATURE_BACKDROP_FILTER FEATURE_DIRECT2D) Hval).
Defined.

(** X7 at a batch of one block rule and a static list of one allow
    rule. *)
Lemma X7_witness :
  GetFeatureStatusImpl (B:=windows) (with_static_list machine [rule_allow])
    initial FEATURE_DIRECT2D FEATURE_STATUS_UNKNOWN "" [rule_blocked_device]
    "" (Some OS_Windows10) =
  GetFeatureStatusImpl (B:=windows) machine initial FEATURE_DIRECT2D
    FEATURE_STATUS_UNKNOWN "" [rule_blocked_device] "" (Some OS_Windows10).
Proof.
  assert (Hne : [rule_blocked_device] <> []) by discriminate.
  exact (proj1 (resolution_consults_one_list (I:=status_numbers) (B:=windows)
                  machine initial FEATURE_DIRECT2D FEATURE_STATUS_UNKNOWN ""
                  [rule_blocked_device] [rule_allow] "" (Some OS_Windows10))
           Hne).
Defined.

(** X8 after shutdown: the outputs are the inputs. *)
Lemma X8_witness :
  GetFeatureStatusImpl (B:=windows) machine shut_down FEATURE_DIRECT2D
    FEATURE_STATUS_UNKNOWN "1.2.3.4" [rule_blocked_device] "FEATURE_FAILURE_IN"
    None =
  ((NS_OK, FEATURE_STATUS_UNKNOWN, "1.2.3.4", "FEATURE_FAILURE_IN"), shut_down).
Proof.
  exact (proj2 (proj2 (proj2 (proj2
           (resolution_reads_only (I:=status_numbers) (B:=windows) machine
              shut_down FEATURE_DIRECT2D FEATURE_STATUS_UNKNOWN "1.2.3.4"
              [rule_blocked_device] "FEATURE_FAILURE_IN" None))))
           (or_intror (or_intror eq_refl))).
Defined.

(** X9 at a feature no rule names. *)
Lemma X9_witness :
  (snd (fst (fst (fst (GetFeatureStatusImpl (B:=windows) machine initial
                         FEATURE_BACKDROP_FILTER FEATURE_STATUS_UNKNOWN ""
                         [rule_blocked_device] "" (Some OS_Windows10))))) =?
   FEATURE_STATUS_UNKNOWN) = false.
Proof.
  assert (H1 : FEATURE_STATUS_OK <> FEATURE_STATUS_UNKNOWN)
    by (vm_compute; discriminate).
  assert (H2 : FEATURE_DENIED <> FEATURE_STATUS_UNKNOWN)
    by (vm_compute; discriminate).
  assert (H3 : FEATURE_BLOCKED_DEVICE <> FEATURE_STATUS_UNKNOWN)
    by (vm_compute; discriminate).
  assert (Hf : 0 < FEATURE_BACKDROP_FILTER) by evaluate.
  apply Z.eqb_neq.
  exact (proj1 (resolution_never_ends_unknown (I:=status_numbers)
                  (B:=windows) machine initial FEATURE_BACKDROP_FILTER ""
                  [rule_blocked_device] "" (Some OS_Windows10) H1 H2 H3 Hf
                  eq_refl)).
Defined.

(** X10 at DISCOURAGED stored for DIRECT2D. *)
Lemma X10_witness :
  GetPrefValueForFeature
    (prefs (SetPrefValueForFeature machine initial FEATURE_DIRECT2D
              FEATURE_DISCOURAGED "FEATURE_FAILURE_Y"))
    FEATURE_DIRECT2D 0 "" = (true, FEATURE_DISCOURAGED, "FEATURE_FAILURE_Y") /\
  GetFeatureStatus (B:=windows) (GetFeatureStatusImpl (B:=windows))
    machine_content
    (SetPrefValueForFeature machine_content initial FEATURE_DIRECT2D
       FEATURE_DISCOURAGED "FEATURE_FAILURE_Y")
    FEATURE_DIRECT2D "" 0 =
  Some ((NS_OK, FEATURE_DISCOURAGED, "FEATURE_FAILURE_Y"),
        SetPrefValueForFeature machine_content initial FEATURE_DIRECT2D
          FEATURE_DISCOURAGED "FEATURE_FAILURE_Y").
Proof.
  assert (Hname : GetPrefNameForFeature FEATURE_DIRECT2D =
                  Some "gfx.blacklist.direct2d") by evaluate.
  assert (Hv : FEATURE_DISCOURAGED <> FEATURE_DENIED)
    by (vm_compute; discriminate).
  assert (Hf : "FEATURE_FAILURE_Y" <> "") by discriminate.
  assert (Hall : (if @RELEASE_OR_BETA windows then 0
                  else gfx_blocklist_all_AtStartup machine_content) = 0)
    by evaluate.
  split.
  - exact (proj1 (stored_override_round_trip (I:=status_numbers) (B:=windows)
                    (GetFeatureStatusImpl (B:=windows)) machine initial
                    FEATURE_DIRECT2D FEATURE_DISCOURAGED "FEATURE_FAILURE_Y"
                    "gfx.blacklist.direct2d" 0 "" Hname Hv Hf)).
  - exact (proj2 (stored_override_round_trip (I:=status_numbers) (B:=windows)
                    (GetFeatureStatusImpl (B:=windows)) machine_content
                    initial FEATURE_DIRECT2D FEATURE_DISCOURAGED
                    "FEATURE_FAILURE_Y" "gfx.blacklist.direct2d" 0 ""
                    Hname Hv Hf) Hall).
Defined.

(** X11 at the override of [blocked_stored]: removed, then DISCOURAGED
    stored without a failure id, the old failure id is reported. *)
Lemma X11_witness :
  GetPrefValueForFeature
    (prefs (SetPrefValueForFeature machine
              (RemovePrefForFeature machine blocked_stored FEATURE_DIRECT2D)
              FEATURE_DIRECT2D FEATURE_DISCOURAGED ""))
    FEATURE_DIRECT2D 0 "" = (true, FEATURE_DISCOURAGED, "FEATURE_FAILURE_X").
Proof.
  assert (Hname : GetPrefNameForFeature FEATURE_DIRECT2D =
                  Some "gfx.blacklist.direct2d") by evaluate.
  assert (Hv : FEATURE_DISCOURAGED <> FEATURE_DENIED)
    by (vm_compute; discriminate).
  assert (Hold : (true, FEATURE_DISCOURAGED,
                  match Preferences_GetCString (prefs blocked_stored)
                          ("gfx.blacklist.direct2d" ++ ".failureid") with
                  | Some failureValue => failureValue
                  | None => "FEATURE_FAILURE_BLOCKLIST_PREF"
                  end) = (true, FEATURE_DISCOURAGED, "FEATURE_FAILURE_X"))
    by evaluate.
  exact (eq_trans
           (failure_id_outlives_removal (I:=status_numbers) machine
              blocked_stored FEATURE_DIRECT2D FEATURE_DISCOURAGED
              "gfx.blacklist.direct2d" 0 "" Hname Hv) Hold).
Defined.

(** X12 at DIRECT2D and GPU_PROCESS. *)
Lemma X12_witness :
  GetPrefValueForFeature
    (prefs (SetPrefValueForFeature machine blocked_stored FEATURE_GPU_PROCESS
              FEATURE_DISCOURAGED "FEATURE_FAILURE_Y"))
    FEATURE_DIRECT2D 0 "" =
  GetPrefValueForFeature (prefs blocked_stored) FEATURE_DIRECT2D 0 "" /\
  GetPrefValueForFeature
    (prefs (RemovePrefForFeature machine blocked_stored FEATURE_GPU_PROCESS))
    FEATURE_DIRECT2D 0 "" =
  GetPrefValueForFeature (prefs blocked_stored) FEATURE_DIRECT2D 0 "".
Proof.
  assert (Hn1 : GetPrefNameForFeature FEATURE_DIRECT2D =
                Some "gfx.blacklist.direct2d") by evaluate.
  assert (Hn2 : GetPrefNameForFeature FEATURE_GPU_PROCESS =
                Some "gfx.blacklist.gpu.process") by evaluate.
  assert (H1 : "gfx.blacklist.direct2d" <> "gfx.blacklist.gpu.process")
    by discriminate.
  assert (H2 : "gfx.blacklist.direct2d" <>
               "gfx.blacklist.gpu.process" ++ ".failureid")
    by (vm_compute; discriminate).
  assert (H3 : "gfx.blacklist.direct2d" ++ ".failureid" <>
               "gfx.blacklist.gpu.process")
    by (vm_compute; discriminate).
  exact (override_of_other_feature_untouched (I:=status_numbers) machine
           blocked_stored FEATURE_DIRECT2D FEATURE_GPU_PROCESS
           FEATURE_DISCOURAGED "FEATURE_FAILURE_Y" "gfx.blacklist.direct2d"
           "gfx.blacklist.gpu.process" 0 "" Hn1 Hn2 H1 H2 H3).
Defined.

(** X13 in a build for Linux, at a rule with an explicit suggested
    version. *)
Lemma X13_witness :
  snd (fst (fst (GetFeatureStatusImpl (B:=gtk) machine_linux initial
                   FEATURE_DIRECT2D FEATURE_STATUS_UNKNOWN ""
                   [rule_suggesting] "" (Some (OtherOS 0))))) = "" /\
  (GetPrefValueForDriverVersion
     (prefs (EvaluateDownloadedBlocklist (B:=gtk) machine_linux initial
               [rule_suggesting])) = None \/
   GetPrefValueForDriverVersion
     (prefs (EvaluateDownloadedBlocklist (B:=gtk) machine_linux initial
               [rule_suggesting])) =
   GetPrefValueForDriverVersion (prefs initial)).
Proof.
  destruct (no_suggested_version_off_windows (I:=status_numbers) (B:=gtk)
              machine_linux initial [rule_suggesting] eq_refl) as [H1 H2].
  split; [apply H1 | exact H2].
Defined.

Lemma sample_feature_range (feature : Z) :
  FEATURE_START <= feature < FEATURE_COUNT ->
  feature = 1 \/ feature = 2 \/ feature = 3 \/ feature = 4 \/ feature = 5 \/
  feature = 6 \/ feature = 7.
Proof. intros H. change (1 <= feature < 8) in H. lia. Qed.

(** X15 at a batch that blocks the device for DIRECT2D. *)
Lemma X15_witness :
  Preferences_GetInt
    (prefs (EvaluateDownloadedBlocklist (B:=windows) machine initial
              [rule_blocked_device])) "gfx.blacklist.direct2d" =
  Some FEATURE_BLOCKED_DEVICE /\
  IsStoredStatus FEATURE_BLOCKED_DEVICE = true /\
  IsRemovedStatus FEATURE_BLOCKED_DEVICE = false.
Proof.
  assert (Hne : [rule_blocked_device] <> []) by discriminate.
  assert (Hrange : FEATURE_START <= FEATURE_DIRECT2D < FEATURE_COUNT)
    by (change (1 <= 1 < 8); lia).
  assert (Hname : GetPrefNameForFeature FEATURE_DIRECT2D =
                  Some "gfx.blacklist.direct2d") by evaluate.
  assert (Hget : Preferences_GetInt
                   (prefs (EvaluateDownloadedBlocklist (B:=windows) machine
                             initial [rule_blocked_device]))
                   "gfx.blacklist.direct2d" = Some FEATURE_BLOCKED_DEVICE)
    by evaluate.
  split; [exact Hget |].
  exact (proj1 (applied_batch_stores_blocking_statuses_only
                  (I:=status_numbers) (B:=windows) machine initial
                  [rule_blocked_device] FEATURE_DIRECT2D
                  "gfx.blacklist.direct2d" Hne Hrange Hname)
           FEATURE_BLOCKED_DEVICE Hget).
Defined.

(** X16 at a preference of another component. *)
Lemma X16_witness :
  prefs (EvaluateDownloadedBlocklist (B:=windows) machine with_unrelated
           [rule_blocked_device]) !! "unrelated.pref" =
  prefs with_unrelated !! "unrelated.pref".
Proof.
  assert (Hk : "unrelated.pref" <> SUGGESTED_VERSION_PREF)
    by (vm_compute; discriminate).
  assert (Hnames : forall feature,
            FEATURE_START <= feature < FEATURE_COUNT ->
            ~ In "unrelated.pref" (PrefNamesOf feature)).
  { intros feature Hr Hin. apply sample_feature_range in Hr.
    destruct Hr as [-> | [-> | [-> | [-> | [-> | [-> | ->]]]]]];
      vm_compute in Hin; intuition discriminate. }
  exact (proj1 (applied_batch_footprint (I:=status_numbers) (B:=windows)
                  machine with_unrelated [rule_blocked_device])
           "unrelated.pref" Hk Hnames).
Defined.

(** X17 at the stored override of [blocked_stored] and a batch that
    blocks the device. *)
Lemma X17_witness :
  GetPrefValueForFeature (prefs shut_down) FEATURE_DIRECT2D 0 "" =
  (true, FEATURE_BLOCKED_DEVICE, "FEATURE_FAILURE_X") /\
  GetPrefValueForFeature
    (prefs (EvaluateDownloadedBlocklist (B:=windows) machine shut_down
              [rule_blocked_device])) FEATURE_DIRECT2D 0 "" =
  (false, FEATURE_STATUS_UNKNOWN, "").
Proof.
  assert (Hne : [rule_blocked_device] <> []) by discriminate.
  assert (Hrange : FEATURE_START <= FEATURE_DIRECT2D < FEATURE_COUNT)
    by (change (1 <= 1 < 8); lia).
  assert (Hname : GetPrefNameForFeature FEATURE_DIRECT2D =
                  Some "gfx.blacklist.direct2d") by evaluate.
  split; [evaluate |].
  exact (proj1 (batch_after_shutdown_erases_overrides (I:=status_numbers)
                  (B:=windows) machine shut_down [rule_blocked_device]
                  FEATURE_DIRECT2D "gfx.blacklist.direct2d" 0 ""
                  eq_refl Hne Hrange Hname)).
Defined.

(** X18 on [machine] from a state without snapshot. *)
Lemma X18_witness :
  exists st',
    GetAllFeatures (B:=windows) status_invalid
      (GetFeatureStatusImpl (B:=windows)) machine blocked_stored =
    Some (map (SnapshotEntry (B:=windows) status_invalid machine
                 blocked_stored)
            (seqZ FEATURE_START (FEATURE_COUNT - FEATURE_START)), st') /\
    prefs st' = prefs blocked_stored /\
    GetAllFeatures (B:=windows) status_invalid
      (GetFeatureStatusImpl (B:=windows)) machine st' =
    Some (map (SnapshotEntry (B:=windows) status_invalid machine
                 blocked_stored)
            (seqZ FEATURE_START (FEATURE_COUNT - FEATURE_START)), st').
Proof.
  exact (proj1 (snapshot_is_built_once (I:=status_numbers) (B:=windows)
                  status_invalid (GetFeatureStatusImpl (B:=windows)) machine
                  blocked_stored) eq_refl eq_refl).
Defined.

(** X19: the content process is asked for BACKDROP_FILTER and for
    DIRECT2D with a status and a failure id of the caller, and answers
    from the snapshot and from the stored override. *)
Lemma X19_witness :
  GetFeatureStatus (B:=windows) (GetFeatureStatusImpl (B:=windows))
    machine_content (SetFeatureStatus blocked_stored snapshot)
    FEATURE_HW_DECODED_VIDEO_ZERO_COPY "FEATURE_FAILURE_CALLER" 77 =
  Some ((NS_OK, FEATURE_DENIED, ""),
        SetFeatureStatus blocked_stored snapshot).
Proof.
  assert (Hc : XRE_IsContentProcess machine_content ||
               XRE_IsGPUProcess machine_content = true) by reflexivity.
  assert (Hall : (if @RELEASE_OR_BETA windows then 0
                  else gfx_blocklist_all_AtStartup machine) = 0) by evaluate.
  assert (Hallc : (if @RELEASE_OR_BETA windows then 0
                   else gfx_blocklist_all_AtStartup machine_content) = 0)
    by evaluate.
  assert (Hget : GetAllFeatures (B:=windows) status_invalid
                   (GetFeatureStatusImpl (B:=windows)) machine blocked_stored
                 = Some (snapshot,
                         set_sFeatureStatus (GetData machine blocked_stored)
                           (Some snapshot))) by evaluate.
  assert (Hrange : FEATURE_START <= FEATURE_HW_DECODED_VIDEO_ZERO_COPY <
                   FEATURE_COUNT) by (change (1 <= 2 < 8); lia).
  destruct (subordinate_process_agrees_with_parent (I:=status_numbers)
              (B:=windows) status_invalid (GetFeatureStatusImpl (B:=windows))
              machine machine_content blocked_stored
              (set_sFeatureStatus (GetData machine blocked_stored)
                 (Some snapshot))
              blocked_stored snapshot FEATURE_HW_DECODED_VIDEO_ZERO_COPY
              "FEATURE_FAILURE_CALLER" 77 Hc Hall Hallc eq_refl Hget eq_refl
              Hrange)
    as (rv & status & failureId & st' & E1 & E2).
  assert (Hparent :
    option_map fst
      (GetFeatureStatus (B:=windows) (GetFeatureStatusImpl (B:=windows))
         machine blocked_stored FEATURE_HW_DECODED_VIDEO_ZERO_COPY ""
         status_invalid) = Some (NS_OK, FEATURE_DENIED, "")) by evaluate.
  rewrite E1 in Hparent. cbn [option_map fst] in Hparent.
  injection Hparent as -> -> ->. exact E2.
Defined.

(** X20 at a record and the record with two pairs exchanged. *)
Lemma X20_witness :
  fst (BlocklistEntryToDriverInfo machine record_swapped fresh) =
  fst (BlocklistEntryToDriverInfo machine record_odd_status
         rule_blocked_device).
Proof.
  assert (H1 : Split record_odd_status (ascii_of_nat 9) =
               ["os:WINNT 10.0"; "feature:DIRECT2D";
                "featureStatus:BLOCKED_SOMEHOW"]) by evaluate.
  assert (H2 : Split record_swapped (ascii_of_nat 9) =
               ["feature:DIRECT2D"; "os:WINNT 10.0";
                "featureStatus:BLOCKED_SOMEHOW"]) by evaluate.
  assert (Hperm : Permutation (Split record_odd_status (ascii_of_nat 9))
                    (Split record_swapped (ascii_of_nat 9))).
  { rewrite H1, H2. apply perm_swap. }
  exact (proj2 (record_accepted_iff_every_pair_is (I:=status_numbers)
                  machine record_odd_status rule_blocked_device)
           record_swapped fresh Hperm).
Defined.

(** X22 at a payload whose only record names an unknown feature: the
    stored override stays. *)
Lemma X22_witness :
  Observe (B:=windows) machine blocked_stored fresh "blocklist-data-gfxItems"
    record_unknown_feature = blocked_stored /\
  Observe (B:=windows) machine blocked_stored fresh "quit-application"
    record_odd_status = blocked_stored.
Proof.
  assert (Hall :
    forallb
      (fun e => negb (forallb (PairAccepted (GetApplicationVersion machine))
                        (Split e (ascii_of_nat 9))))
      (Split record_unknown_feature (ascii_of_nat 10)) = true) by evaluate.
  assert (Ht : "quit-application" <> "blocklist-data-gfxItems")
    by discriminate.
  split.
  - exact (proj2 (proj2 (records_are_parsed_independently
                           (I:=status_numbers) (B:=windows) machine
                           blocked_stored fresh "blocklist-data-gfxItems"
                           record_unknown_feature)) Hall).
  - exact (proj1 (proj2 (records_are_parsed_independently
                           (I:=status_numbers) (B:=windows) machine
                           blocked_stored fresh "quit-application"
                           record_odd_status)) Ht).
Defined.

(** X24 at a rule with a build-id comparator on the minimum refresh
    rate, on a machine with one screen; and at the bound 3000000000
    under LESS_THAN, which is compared as -1294967296. *)
Lemma X24_witness :
  RuleBody (B:=windows) machine ready locals FEATURE_DIRECT2D OS_Windows10
    false rule_refresh_build_id = RuleContinue /\
  to_int32 3000000000 = -1294967296 /\
  MatchingRefreshRates 60 3000000000 0 DRIVER_LESS_THAN = false /\
  MatchingRefreshRates 60 75 0 DRIVER_LESS_THAN = true.
Proof.
  assert (Hpos : 0 < mScreenCount ready) by evaluate.
  assert (Hlt : DRIVER_LESS_THAN <> DRIVER_BUILD_ID_LESS_THAN)
    by discriminate.
  assert (Hle : DRIVER_LESS_THAN <> DRIVER_BUILD_ID_LESS_THAN_OR_EQUAL)
    by discriminate.
  assert (Hwrap : DriverVersionSwitch DRIVER_LESS_THAN (to_int32 60)
                    (to_int32 3000000000) (to_int32 0) = false) by evaluate.
  assert (Hin : forall v, (-2147483648 <=? v) && (v <=? 2147483647) = true ->
                INT32_MIN <= v <= INT32_MAX).
  { intros v H. apply andb_true_iff in H as [Ha Hb].
    apply Z.leb_le in Ha, Hb. unfold INT32_MIN, INT32_MAX. lia. }
  split; [| split; [| split]].
  - exact (proj2 (proj2 (proj2 (proj2
             (refresh_rate_comparators (I:=status_numbers) (B:=windows)
                machine ready locals FEATURE_DIRECT2D OS_Windows10 false
                rule_refresh_build_id 0 0 0 DRIVER_EQUAL))))
             Hpos (or_introl eq_refl)).
  - evaluate.
  - exact (eq_trans
             (proj1 (refresh_rate_comparators (I:=status_numbers)
                       (B:=windows) machine ready locals FEATURE_DIRECT2D
                       OS_Windows10 false rule_refresh_build_id 60 3000000000
                       0 DRIVER_LESS_THAN) Hlt Hle) Hwrap).
  - exact (proj1 (proj2 (refresh_rate_comparators (I:=status_numbers)
                           (B:=windows) machine ready locals FEATURE_DIRECT2D
                           OS_Windows10 false rule_refresh_build_id 60 75 0
                           DRIVER_LESS_THAN))
             Hlt Hle (Hin 60 eq_refl) (Hin 75 eq_refl) (Hin 0 eq_refl)).
Defined.


(** X26: the screens change after the first call, and the second call
    keeps what the first one read; two spoofed screens of 60 and 144 Hz
    survive. *)
Lemma X26_witness :
  mScreenPixels (GetData machine_other_screens initial) = 8294400 /\
  GetData machine_other_screens (GetData machine initial) =
  GetData machine initial /\
  mScreenCount (GetData machine (SpoofMonitorInfo initial 2 60 144)) = 2 /\
  mMinRefreshRate_sys (GetData machine (SpoofMonitorInfo initial 2 60 144)) =
  60 /\
  mMaxRefreshRate_sys (GetData machine (SpoofMonitorInfo initial 2 60 144)) =
  144.
Proof.
  assert (Hc : 2 <> 0) by discriminate.
  assert (Hp : GetTotalScreenPixels machine <> INT64_MAX)
    by (vm_compute; discriminate).
  split; [evaluate |]. split.
  - exact (proj1 (display_data_is_read_once machine machine_other_screens
                    initial 2 60 144) (or_intror Hp)).
  - exact (proj2 (proj2 (display_data_is_read_once machine
                           machine_other_screens initial 2 60 144)) Hc).
Defined.

(** X27 at a registry of two collectors. *)
Lemma X27_witness :
  RemoveCollector (AddCollector (Some [3; 4]) 5) 5 = Some [3; 4].
Proof.
  assert (Habs : ~ In 5 (InitCollectors (Some [3; 4])))
    by (cbn; intuition discriminate).
  assert (Hne : Some [3; 4] <> Some []) by discriminate.
  exact (proj2 (proj2 (proj2 (proj2 (collector_registry (Some [3; 4]) 5)))
                  Habs) Hne).
Defined.

